(** * MaxMovies AI: the chat endpoint [api/generate.js]

    A shallow embedding of the serverless handler and of its helpers
    ([loadMemory], [saveMemory], [detectLanguage]) with the properties
    of the language heuristic, of the reply clean-up, of the history
    truncation and of the error mapping.

    Text. A JavaScript string is modelled as a Rocq [string] that holds
    the UTF-8 form of the text: an ASCII character is one character of
    the [string], any other character is the bytes of its encoding.
    Substring search and the regular expression of the clean-up (its
    alternatives are ASCII and its [i] flag comes without the [u] flag,
    so that only the letters A to Z and a to z are folded) work on this
    form, and so does [trim], which takes away the white space and the
    line terminators of ECMAScript. [toLowerCase] follows the case
    mapping of the Unicode version the JavaScript engine is built with:
    it is a function of the [Runtime], as is the decimal form of a
    number.

    Objects. A value of the request body, of an upstream answer or of a
    memory file is a [JSValue]; an object is the list of its properties
    in the order they were added, and since JSON text has no functions
    no object has a method of its own. The elements of a conversation array are
    objects on a heap and the arrays hold references to them, so that a
    copied array shares its elements with the original, as in the
    source. The module is an ES module: it runs in strict mode.

    Files. A file holds JSON text, given by the value JSON.parse returns
    for it, or it cannot be read or parsed. What [saveMemory] writes is
    read back as JSON.parse(JSON.stringify(memory)) ([jsonValue]).
    [path.join] normalises the path. Of the log lines those that can
    throw take part (the lines of the user id, of the prompt and of the
    length of the reply); the other log lines and the CORS headers are
    left out. *)

From stdpp Require Import base strings list gmap.
From Stdlib Require Import Ascii ZArith Lia.
From Stdlib Require Import Floats.SpecFloat.

Set Warnings "-register-all".
Set Default Proof Using "Type".
#[local] Arguments String.append !_ _ / : simpl nomatch.
#[local] Arguments String.length !_ / : simpl nomatch.

(* ===================================================================== *)
(** ** Strings: the methods of [String.prototype] the handler calls      *)
(* ===================================================================== *)

Module JsString.

Definition charCode (c : ascii) : N := Ascii.N_of_ascii c.

(** 'A'..'Z' go to 'a'..'z', every other character stays. *)
Definition lower_char (c : ascii) : ascii :=
  if ((65 <=? charCode c) && (charCode c <=? 90))%N
  then Ascii.ascii_of_N (charCode c + 32) else c.

(** The text with its letters A to Z lower-cased. This is what
    [toLowerCase] does to an ASCII text, and how a regular expression
    with the [i] flag and without the [u] flag compares a character of
    the text with a letter of the pattern. *)
Fixpoint lowerAscii (s : string) : string :=
  match s with
  | EmptyString => EmptyString
  | String c s' => String (lower_char c) (lowerAscii s')
  end.

(** All characters of the text are ASCII characters. *)
Fixpoint isAscii (s : string) : bool :=
  match s with
  | EmptyString => true
  | String c s' => (charCode c <? 128)%N && isAscii s'
  end.

(** [s.startsWith(w)]. *)
Fixpoint startsWith (s w : string) {struct w} : bool :=
  match w, s with
  | EmptyString, _ => true
  | String _ _, EmptyString => false
  | String d w', String c s' => Ascii.eqb c d && startsWith s' w'
  end.

(** [s.includes(w)]: [w] occurs in [s] at some position. *)
Fixpoint includes (s w : string) : bool :=
  startsWith s w ||
  match s with
  | EmptyString => false
  | String _ s' => includes s' w
  end.

(** The text that consists of the given bytes. *)
Fixpoint bytes (codes : list N) : string :=
  match codes with
  | [] => EmptyString
  | n :: codes' => String (Ascii.ascii_of_N n) (bytes codes')
  end.

(** The characters [trim] takes away, in UTF-8: the white space of
    ECMAScript (U+0009, U+000B, U+000C, U+FEFF and the space separators
    U+0020, U+00A0, U+1680, U+2000 to U+200A, U+202F, U+205F, U+3000) and
    its line terminators (U+000A, U+000D, U+2028, U+2029). *)
Definition whiteSpace : list string :=
  Eval cbv in
    List.map bytes
      [[9]; [10]; [11]; [12]; [13]; [32];
       [194; 160];
       [225; 154; 128];
       [226; 128; 128]; [226; 128; 129]; [226; 128; 130]; [226; 128; 131];
       [226; 128; 132]; [226; 128; 133]; [226; 128; 134]; [226; 128; 135];
       [226; 128; 136]; [226; 128; 137]; [226; 128; 138];
       [226; 128; 168]; [226; 128; 169]; [226; 128; 175];
       [226; 129; 159];
       [227; 128; 128];
       [239; 187; 191]]%N.

(** The text read from its end. *)
Fixpoint reverse (s : string) : string :=
  match s with
  | EmptyString => EmptyString
  | String c s' => reverse s' +:+ String c EmptyString
  end.

(** The text without its first [n] characters. *)
Fixpoint skipChars (n : nat) (s : string) : string :=
  match n, s with
  | S k, String _ s' => skipChars k s'
  | _, _ => s
  end.

(** The entry of [table] the text starts with, if it starts with one. *)
Definition leading (table : list string) (s : string) : option string :=
  List.find (startsWith s) table.

(** The text without the entries of [table] it starts with; every step
    takes one entry away, so the length of the text is fuel enough. *)
Fixpoint dropLeading (table : list string) (fuel : nat) (s : string) : string :=
  match fuel with
  | O => s
  | S fuel' =>
      match leading table s with
      | Some ws => dropLeading table fuel' (skipChars (String.length ws) s)
      | None => s
      end
  end.

Definition trimStart (s : string) : string :=
  dropLeading whiteSpace (String.length s) s.

(** The text without its trailing white space: in UTF-8 a text ends with
    a character exactly when it ends with the bytes of that character. *)
Definition trimEnd (s : string) : string :=
  reverse (dropLeading (List.map reverse whiteSpace) (String.length s) (reverse s)).

(** [s.trim()]. *)
Definition trim (s : string) : string := trimEnd (trimStart s).

(** Two characters that a regular expression with the [i] flag takes
    for the same one. *)
Definition eqb_ci (c d : ascii) : bool := Ascii.eqb (lower_char c) (lower_char d).

(** [w] matches at the start of [s], letter case ignored. *)
Fixpoint startsWith_ci (s w : string) {struct w} : bool :=
  match w, s with
  | EmptyString, _ => true
  | String _ _, EmptyString => false
  | String d w', String c s' => eqb_ci c d && startsWith_ci s' w'
  end.

(** What the specification calls an occurrence: [w] is a substring of [s]. *)
Definition Substring (w s : string) : Prop :=
  exists pre post, s = pre +:+ w +:+ post.

End JsString.

Import JsString.

(** What the JavaScript engine brings along: [String.prototype.toLowerCase]
    and the decimal form of a number ([Number::toString]).
    [toLowerCase] maps every character as the Unicode tables of the
    engine say (the Kelvin sign U+212A to "k", for one). What is known of
    it whatever the tables: it maps the characters of the text one by one
    and in their order, and an ASCII character goes to its ASCII lower
    case; so where ASCII characters [m] stand in a text, between [pre]
    and [post], their lower-case forms stand in the result, between what
    [pre] and [post] have become. *)
Class Runtime : Type := {
  toLowerCase : string -> string;
  Number_toString : spec_float -> string;
  toLowerCase_ascii : forall pre m post,
    isAscii m = true ->
    exists pre' post',
      toLowerCase (pre +:+ m +:+ post) = pre' +:+ lowerAscii m +:+ post' /\
      (pre = "" -> pre' = "") /\ (post = "" -> post' = "");
}.

(* ===================================================================== *)
(** ** Values and exceptions of the runtime                              *)
(* ===================================================================== *)

(** The values a parsed JSON request body, an upstream reply, a memory
    file or a property read can hold. A number is an IEEE 754 double. *)
Inductive JSValue : Type :=
| JSUndefined
| JSNull
| JSBoolean (b : bool)
| JSNumber (x : spec_float)
| JSString (s : string)
| JSArray (elems : list JSValue)
| JSObject (props : list (string * JSValue)).

#[global] Instance JSValue_inhabited : Inhabited JSValue := populate JSUndefined.

(** [ToBoolean]: what [!v] and [v || w] test. *)
Definition truthy (v : JSValue) : bool :=
  match v with
  | JSUndefined | JSNull => false
  | JSBoolean b => b
  | JSNumber (S754_zero _) | JSNumber S754_nan => false
  | JSNumber _ => true
  | JSString s => negb (String.eqb s "")
  | JSArray _ | JSObject _ => true
  end.

Definition typeof (v : JSValue) : string :=
  match v with
  | JSUndefined => "undefined"
  | JSNull => "object"
  | JSBoolean _ => "boolean"
  | JSNumber _ => "number"
  | JSString _ => "string"
  | JSArray _ | JSObject _ => "object"
  end.

(** The error object the [catch] block of the handler inspects:
    [error.response?.status], [error.code] and [error.message]. *)
Record JSError : Type := mkError {
  response_status : option Z;
  code : option string;
  message : string;
}.

Definition TypeError (msg : string) : JSError :=
  {| response_status := None; code := None; message := msg |}.

(** The outcome of evaluating an expression: a value, or a thrown error. *)
Inductive Completion (A : Type) : Type :=
| Normal (a : A)
| Throw (e : JSError).
Arguments Normal {A} a.
Arguments Throw {A} e.

Definition cbind {A B} (m : Completion A) (k : A -> Completion B) : Completion B :=
  match m with
  | Normal a => k a
  | Throw e => Throw e
  end.

(** [text.toLowerCase()] on an arbitrary value: only a string has the
    method; [undefined] and [null] have no properties at all. *)
Definition call_toLowerCase {rt : Runtime} (v : JSValue) : Completion string :=
  match v with
  | JSString s => Normal (toLowerCase s)
  | JSUndefined =>
      Throw (TypeError "Cannot read properties of undefined (reading 'toLowerCase')")
  | JSNull =>
      Throw (TypeError "Cannot read properties of null (reading 'toLowerCase')")
  | _ => Throw (TypeError "text.toLowerCase is not a function")
  end.

(* ===================================================================== *)
(** ** [detectLanguage]                                                  *)
(* ===================================================================== *)

Definition swahiliWords : list string :=
  ["habari"; "sasa"; "niko"; "kwani"; "basi"; "ndio"; "karibu"; "asante";
   "mambo"; "poa"; "sawa"].

Definition shengWords : list string :=
  ["bro"; "maze"; "manze"; "noma"; "fiti"; "safi"; "buda"; "msee"; "mwana";
   "poa"; "vibe"].

(** [words.filter((w) => lower.includes(w)).length] *)
Definition countIncluded (words : list string) (lower : string) : nat :=
  length (List.filter (fun w => includes lower w) words).

Definition detectLanguage {rt : Runtime} (text : JSValue) : Completion string :=
  if negb (truthy text) || negb (String.eqb (typeof text) "string")
  then Normal "english"
  else
    cbind (call_toLowerCase text) (fun lower =>
      let swCount := countIncluded swahiliWords lower in
      let shCount := countIncluded shengWords lower in
      if (swCount + shCount =? 0)%nat then Normal "english"
      else if (swCount + shCount <? 3)%nat then Normal "mixed"
      else Normal "swahili").

(* ===================================================================== *)
(** ** The reply clean-up                                                *)
(* ===================================================================== *)

(** The alternatives of [/as an ai|language model/gi], in their order. *)
Definition disclaimers : list string := ["as an ai"; "language model"].

(** The alternative that matches at the start of [s], if one does. *)
Definition matchAt (s : string) : option string :=
  List.find (fun p => startsWith_ci s p) disclaimers.

(** [s.replace(/as an ai|language model/gi, "")]: the scan goes from left
    to right; where an alternative matches, its characters are skipped
    and the scan resumes behind them, elsewhere the character is kept.
    [skip] counts the characters of the current match still to pass. *)
Fixpoint replaceFrom (skip : nat) (s : string) : string :=
  match s with
  | EmptyString => EmptyString
  | String c s' =>
      match skip with
      | S k => replaceFrom k s'
      | O =>
          match matchAt s with
          | Some p => replaceFrom (String.length p - 1) s'
          | None => String c (replaceFrom 0 s')
          end
      end
  end.

Definition removeDisclaimers (assistantReply : string) : string :=
  replaceFrom 0 assistantReply.

(* ===================================================================== *)
(** ** The history limit                                                 *)
(* ===================================================================== *)

(** [arr.slice(start)]: a negative [start] counts from the end. *)
Definition slice {A} (start : Z) (arr : list A) : list A :=
  let len := Z.of_nat (length arr) in
  let k := if (start <? 0)%Z then Z.max (len + start) 0 else Z.min start len in
  drop (Z.to_nat k) arr.

(** Limit conversation history to last 20 messages (including system
    message). *)
Definition truncateHistory {A} (conversation : list A) : list A :=
  if (20 <? length conversation)%nat then
    let recentMessages := slice (-19) conversation in
    match head conversation with
    | Some systemMessage => systemMessage :: recentMessages
    | None => recentMessages
    end
  else conversation.

(* ===================================================================== *)
(** ** Objects of the parsed JSON                                        *)
(* ===================================================================== *)

(** [obj.key] for the keys the handler reads ([prompt], [project],
    [userId], [choices], [message], [content], [role], [conversation],
    [lastProject]): only an object of the parsed JSON can have them. *)
Fixpoint lookupProp (key : string) (props : list (string * JSValue)) : JSValue :=
  match props with
  | [] => JSUndefined
  | (k, v) :: props' => if String.eqb key k then v else lookupProp key props'
  end.

Definition getProp (v : JSValue) (key : string) : JSValue :=
  match v with
  | JSObject props => lookupProp key props
  | _ => JSUndefined
  end.

(** [v?.key] *)
Definition optProp (v : JSValue) (key : string) : JSValue :=
  match v with
  | JSUndefined | JSNull => JSUndefined
  | _ => getProp v key
  end.

(** [v?.[0]] *)
Definition optFirst (v : JSValue) : JSValue :=
  match v with
  | JSArray (x :: _) => x
  | JSString (String c _) => JSString (String c EmptyString)
  | JSObject props => lookupProp "0" props
  | _ => JSUndefined
  end.

(** The object has a property of its own under [key]. *)
Definition hasOwn (key : string) (props : list (string * JSValue)) : bool :=
  existsb (fun '(k, _) => String.eqb key k) props.

(** [obj.key = v] on an object of the parsed JSON: a property that is
    there keeps its place, a new one comes last. *)
Fixpoint setProp (key : string) (v : JSValue) (props : list (string * JSValue))
  : list (string * JSValue) :=
  match props with
  | [] => [(key, v)]
  | (k, x) :: props' =>
      if String.eqb key k then (k, v) :: props' else (k, x) :: setProp key v props'
  end.

(** [ToString], the conversion of a template literal and of [+] with a
    string: an array is the join of its elements ([null] and [undefined]
    count as empty), an object is "[object Object]"; an object with a
    property [toString] of its own cannot be converted, since no value of
    the parsed JSON is a function and [valueOf] gives the object back. *)
Fixpoint ToString {rt : Runtime} (v : JSValue) : Completion string :=
  match v with
  | JSUndefined => Normal "undefined"
  | JSNull => Normal "null"
  | JSBoolean b => Normal (if b then "true" else "false")
  | JSNumber x => Normal (Number_toString x)
  | JSString s => Normal s
  | JSArray elems =>
      (fix join (elems : list JSValue) : Completion string :=
         match elems with
         | [] => Normal ""
         | x :: rest =>
             cbind (match x with
                    | JSUndefined | JSNull => Normal ""
                    | _ => ToString x
                    end) (fun s =>
             match rest with
             | [] => Normal s
             | _ :: _ => cbind (join rest) (fun r => Normal (s +:+ "," +:+ r))
             end)
         end) elems
  | JSObject props =>
      if hasOwn "toString" props
      then Throw (TypeError "Cannot convert object to primitive value")
      else Normal "[object Object]"
  end.

(** [JSON.parse(JSON.stringify(v))] for a value held in an array or in a
    property: a number that is not finite becomes [null], the negative
    zero the positive one, [undefined] becomes [null] in an array and is
    left out of an object. *)
Fixpoint jsonValue (v : JSValue) : JSValue :=
  match v with
  | JSUndefined => JSNull
  | JSNull => JSNull
  | JSBoolean b => JSBoolean b
  | JSNumber (S754_zero _) => JSNumber (S754_zero false)
  | JSNumber (S754_infinity _) | JSNumber S754_nan => JSNull
  | JSNumber x => JSNumber x
  | JSString s => JSString s
  | JSArray elems => JSArray (List.map jsonValue elems)
  | JSObject props =>
      JSObject
        ((fix kept (props : list (string * JSValue)) : list (string * JSValue) :=
            match props with
            | [] => []
            | (k, JSUndefined) :: props' => kept props'
            | (k, x) :: props' => (k, jsonValue x) :: kept props'
            end) props)
  end.

(* ===================================================================== *)
(** ** [path.join]                                                       *)
(* ===================================================================== *)

Module Path.

(** The segments of a path: the texts between its separators. *)
Fixpoint segments (path : string) : list string :=
  match path with
  | EmptyString => [EmptyString]
  | String c rest =>
      if Ascii.eqb c "/" then EmptyString :: segments rest
      else
        match segments rest with
        | seg :: segs => String c seg :: segs
        | [] => [String c EmptyString]
        end
  end.

(** [normalizeString]: an empty segment and "." are dropped, ".." takes
    the segment before it away (above the root of an absolute path
    there is nothing to take); [res] holds the segments kept so far, the
    last one first. *)
Fixpoint normalizeString (allowAboveRoot : bool) (segs res : list string)
  : list string :=
  match segs with
  | [] => rev res
  | seg :: segs' =>
      if String.eqb seg "" || String.eqb seg "." then
        normalizeString allowAboveRoot segs' res
      else if String.eqb seg ".." then
        match res with
        | last :: res' =>
            if String.eqb last ".." then
              normalizeString allowAboveRoot segs'
                (if allowAboveRoot then ".." :: res else res)
            else normalizeString allowAboveRoot segs' res'
        | [] =>
            normalizeString allowAboveRoot segs'
              (if allowAboveRoot then [".."] else [])
        end
      else normalizeString allowAboveRoot segs' (seg :: res)
  end.

Fixpoint joinSegments (segs : list string) : string :=
  match segs with
  | [] => ""
  | [seg] => seg
  | seg :: segs' => seg +:+ "/" +:+ joinSegments segs'
  end.

Definition isAbsolute (path : string) : bool :=
  match path with
  | String c _ => Ascii.eqb c "/"
  | EmptyString => false
  end.

Fixpoint trailingSeparator (path : string) : bool :=
  match path with
  | EmptyString => false
  | String c EmptyString => Ascii.eqb c "/"
  | String _ rest => trailingSeparator rest
  end.

(** [path.normalize(path)] of POSIX. *)
Definition normalize (path : string) : string :=
  if String.eqb path "" then "."
  else
    let absolute := isAbsolute path in
    let res := joinSegments (normalizeString (negb absolute) (segments path) []) in
    if String.eqb res "" then
      if absolute then "/" else if trailingSeparator path then "./" else "."
    else
      (if absolute then "/" else "") +:+ res
      +:+ (if trailingSeparator path then "/" else "").

(** [path.join(a, b)] of POSIX. *)
Definition join (a b : string) : string :=
  let joined :=
    if String.eqb a "" then b
    else if String.eqb b "" then a
    else a +:+ "/" +:+ b in
  if String.eqb joined "" then "." else normalize joined.

End Path.

(* ===================================================================== *)
(** ** Conversation records                                              *)
(* ===================================================================== *)

(** [{ role, content }] *)
Definition mkTurn (role content : string) : JSValue :=
  JSObject [("role", JSString role); ("content", JSString content)].

Definition PERSONA_PREAMBLE : string := "
You are **MaxMovies AI** — an expressive, helpful, brilliant film-focused digital assistant 🤖🎬.

🔥 BACKSTORY:
• You were created by Max — a 21-year-old full-stack developer from Kenya 🇰🇪.
• Your core specialty is **movies, TV series, streaming content, characters, plots, recommendations, trivia**.

🎬 ENTERTAINMENT INTELLIGENCE:
• Provide film/series recommendations, summaries, analysis, comparisons, lore, viewing order guides, watchlists, and streaming suggestions.
• Explain genres, tropes, acting, cinematography, scoring, directing styles, or franchise histories.
• Always stay spoiler-safe unless the user asks for spoilers.

💡 SPECIAL INSTRUCTION:
• MaxMovies AI is integrated into MaxMovies platform to help users find and choose their favorite TV shows and movies.
• Only mention this integration if the user explicitly asks about your platform, capabilities, or creator.
        ".

(** The default memory of [loadMemory]. *)
Definition defaultMemory (uid : JSValue) : JSValue :=
  JSObject
    [("userId", uid);
     ("lastProject", JSNull);
     ("lastTask", JSNull);
     ("conversation", JSArray [mkTurn "system" PERSONA_PREAMBLE])].

(** What a file holds: JSON text, given by the value JSON.parse returns
    for it, or something that cannot be read or that JSON.parse
    rejects. *)
Inductive FileContent : Type :=
| Json (v : JSValue)
| Garbage.

Definition MEMORY_DIR : string := "/tmp/memory".

(** [path.join(MEMORY_DIR, `memory_${userId}.json`)], the user id
    converted. *)
Definition fileName (name : string) : string :=
  Path.join MEMORY_DIR ("memory_" +:+ name +:+ ".json").

(** [path.join(MEMORY_DIR, `memory_${userId}.json`)]: the template
    literal converts the user id, which can throw. *)
Definition filePath {rt : Runtime} (uid : JSValue) : Completion string :=
  cbind (ToString uid) (fun name => Normal (fileName name)).

(* ===================================================================== *)
(** ** The state of one request and its monad                            *)
(* ===================================================================== *)

(** A reference to an element of a conversation array. *)
Abbreviation loc := nat (only parsing).

(** What a running request can touch: the elements of the conversation
    array, the files, and, as a record of its effects, the message lists
    it has sent upstream and the files it has tried to write. *)
Record Sys : Type := mkSys {
  heap : list JSValue;
  files : gmap string FileContent;
  posts : list (list JSValue);
  writes : list (string * JSValue);
}.

(** A computation of the handler: it may change the state, and it returns
    a value or throws; what it did before throwing stays done. *)
Definition M (A : Type) : Type := Sys -> Completion A * Sys.

#[global] Instance M_ret : MRet M := fun A (a : A) sys => (Normal a, sys).

#[global] Instance M_bind : MBind M := fun A B (k : A -> M B) (m : M A) sys =>
  match m sys with
  | (Normal a, sys') => k a sys'
  | (Throw e, sys') => (Throw e, sys')
  end.

Definition liftC {A} (c : Completion A) : M A := fun sys => (c, sys).

(** A new element. *)
Definition alloc (t : JSValue) : M loc := fun sys =>
  (Normal (length (heap sys)),
   mkSys (heap sys ++ [t]) (files sys) (posts sys) (writes sys)).

Definition read (l : loc) : M JSValue := fun sys => (Normal (heap sys !!! l), sys).

Definition write (l : loc) (t : JSValue) : M unit := fun sys =>
  (Normal tt, mkSys (<[l := t]> (heap sys)) (files sys) (posts sys) (writes sys)).

Fixpoint allocAll (ts : list JSValue) : M (list loc) :=
  match ts with
  | [] => mret []
  | t :: ts' => l ← alloc t; ls ← allocAll ts'; mret (l :: ls)
  end.

(** The variable [memory] once its conversation is known to be an array:
    [fields] are the properties of the object in their order (the entry
    of [conversation] keeps the place of the array), [conversation] is
    the array, its elements on the heap. *)
Record Memory : Type := mkMemory {
  fields : list (string * JSValue);
  conversation : list loc;
}.

(** The value [loadMemory] returns: an object whose property
    [conversation] is an array, or any other value. *)
Inductive Loaded : Type :=
| WithConversation (memory : Memory)
| Other (v : JSValue).

(* ===================================================================== *)
(** ** The world around one request                                      *)
(* ===================================================================== *)

Inductive AxiosResult : Type :=
| Resolved (data : JSValue)
| Rejected (error : JSError).

(** How [fs.writeFileSync] ends: the whole text is in the file; or the
    file could not be opened and is as before; or the call fails after
    the file was opened (the flag 'w' has emptied it) and before the
    whole text is written: what is left is no JSON text. *)
Inductive WriteResult : Type :=
| Written
| NotOpened
| Interrupted.

(** What the handler finds outside itself while it serves one request:
    the environment variables, the runtime's [JSON.parse] of the request
    body ([None] is a SyntaxError), what the upstream API answers to a
    message list, and how writing a file ends. *)
Record World : Type := mkWorld {
  DEEPSEEK_API_KEY : option string;
  NODE_ENV : option string;
  JSON_parse : string -> option JSValue;
  axios_post : list JSValue -> AxiosResult;
  writeFileSync : string -> WriteResult;
}.

(* ===================================================================== *)
(** ** [loadMemory] and [saveMemory]                                     *)
(* ===================================================================== *)

(** The conversation array of a value and its other properties, when the
    value is an object that has such an array. *)
Definition recordOf (v : JSValue) : option (list (string * JSValue) * list JSValue) :=
  match v with
  | JSObject props =>
      match lookupProp "conversation" props with
      | JSArray elems => Some (props, elems)
      | _ => None
      end
  | _ => None
  end.

(** The value as the handler holds it. *)
Definition hold (v : JSValue) : M Loaded :=
  match recordOf v with
  | Some (props, elems) =>
      ls ← allocAll elems; mret (WithConversation (mkMemory props ls))
  | None => mret (Other v)
  end.

(** [fs.existsSync(filePath)], [fs.readFileSync] and [JSON.parse], and
    the default memory when one of them fails. *)
Definition readMemory (filePath : string) (uid : JSValue) : M Loaded := fun sys =>
  match files sys !! filePath with
  | Some (Json v) => hold v sys
  | Some Garbage | None => hold (defaultMemory uid) sys
  end.

Definition loadMemory {rt : Runtime} (uid : JSValue) : M Loaded :=
  path ← liftC (filePath uid);
  readMemory path uid.

(** The object [memory] as [JSON.stringify] finds it: the elements of
    the conversation are written out as they are now. *)
Definition stringify (h : list JSValue) (memory : Memory) : JSValue :=
  JSObject
    (setProp "conversation" (JSArray ((fun l => h !!! l) <$> conversation memory))
       (fields memory)).

(** The files once [fs.writeFileSync(filePath, JSON.stringify(memory))]
    has ended. *)
Definition written (w : World) (filePath : string) (memory : JSValue)
    (fs : gmap string FileContent) : gmap string FileContent :=
  match writeFileSync w filePath with
  | Written => <[filePath := Json (jsonValue memory)]> fs
  | NotOpened => fs
  | Interrupted => <[filePath := Garbage]> fs
  end.

(** [try { fs.writeFileSync(filePath, JSON.stringify(memory)) } catch
    { ... }]: a failure is logged and goes no further. *)
Definition writeMemory (w : World) (filePath : string) (memory : Memory) : M unit :=
  fun sys =>
    let data := stringify (heap sys) memory in
    (Normal tt,
     mkSys (heap sys) (written w filePath data (files sys)) (posts sys)
           (writes sys ++ [(filePath, data)])).

Definition saveMemory {rt : Runtime} (w : World) (uid : JSValue) (memory : Memory) : M unit :=
  path ← liftC (filePath uid);
  writeMemory w path memory.

(* ===================================================================== *)
(** ** The handler                                                       *)
(* ===================================================================== *)

Record Request : Type := mkRequest { method : string; body : JSValue }.

(** [res.status(status).json(json)], or [.end()] when there is no body. *)
Record Response : Type := mkResponse { status : Z; json : option JSValue }.

(** The double that holds a length. *)
Definition number (n : nat) : JSValue :=
  JSNumber (binary_normalize 53 1024 (Z.of_nat n) 0 false).

(** [const { prompt, project, userId = "default" } = body] *)
Definition destructure (body : JSValue) : Completion (JSValue * JSValue * JSValue) :=
  match body with
  | JSUndefined =>
      Throw (TypeError "Cannot destructure property 'prompt' of 'body' as it is undefined.")
  | JSNull =>
      Throw (TypeError "Cannot destructure property 'prompt' of 'body' as it is null.")
  | _ =>
      let uid := match getProp body "userId" with
                 | JSUndefined => JSString "default"
                 | v => v
                 end in
      Normal (getProp body "prompt", getProp body "project", uid)
  end.

(** [`User ID: ${userId}`] of the log line: the user id is converted. *)
Definition logUserId {rt : Runtime} (uid : JSValue) : Completion unit :=
  cbind (ToString uid) (fun _ => Normal tt).

(** [prompt?.substring(0, 100)] of the log line: only a string has the
    method. *)
Definition logPrompt (prompt : JSValue) : Completion unit :=
  match prompt with
  | JSUndefined | JSNull | JSString _ => Normal tt
  | _ => Throw (TypeError "prompt?.substring is not a function")
  end.

(** [!prompt || prompt.trim() === ''] decides the 400 answer ([None]);
    otherwise the prompt is the string returned. *)
Definition checkPrompt (prompt : JSValue) : Completion (option string) :=
  if negb (truthy prompt) then Normal None
  else
    match prompt with
    | JSString p => if String.eqb (trim p) "" then Normal None else Normal (Some p)
    | _ => Throw (TypeError "prompt.trim is not a function")
    end.

(** [v.key = value] in strict mode, for a value that is no object with a
    conversation array: [null] and [undefined] have no properties, a
    primitive value takes none; on an array the property is set beside
    the elements. *)
Definition setFieldOf {rt : Runtime} (key : string) (value v : JSValue) : Completion JSValue :=
  match v with
  | JSUndefined =>
      Throw (TypeError ("Cannot set properties of undefined (setting '" +:+ key +:+ "')"))
  | JSNull =>
      Throw (TypeError ("Cannot set properties of null (setting '" +:+ key +:+ "')"))
  | JSBoolean b =>
      Throw (TypeError ("Cannot create property '" +:+ key +:+ "' on boolean '"
                        +:+ (if b then "true" else "false") +:+ "'"))
  | JSNumber x =>
      Throw (TypeError ("Cannot create property '" +:+ key +:+ "' on number '"
                        +:+ Number_toString x +:+ "'"))
  | JSString s =>
      Throw (TypeError ("Cannot create property '" +:+ key +:+ "' on string '"
                        +:+ s +:+ "'"))
  | JSArray elems => Normal (JSArray elems)
  | JSObject props => Normal (JSObject (setProp key value props))
  end.

(** [memory.lastProject = project] and [memory.lastTask = prompt]. *)
Definition setField {rt : Runtime} (key : string) (value : JSValue) (memory : Loaded)
  : Completion Loaded :=
  match memory with
  | WithConversation m =>
      Normal (WithConversation (mkMemory (setProp key value (fields m)) (conversation m)))
  | Other v => cbind (setFieldOf key value v) (fun v' => Normal (Other v'))
  end.

(** The error of [memory.conversation.push(...)] when the conversation
    is no array. *)
Definition pushError (v : JSValue) : JSError :=
  TypeError
    match getProp v "conversation" with
    | JSUndefined => "Cannot read properties of undefined (reading 'push')"
    | JSNull => "Cannot read properties of null (reading 'push')"
    | _ => "memory.conversation.push is not a function"
    end.

(** [memory.conversation.push(turn)] *)
Definition pushTurn (memory : Loaded) (turn : JSValue) : M Memory :=
  match memory with
  | WithConversation m =>
      l ← alloc turn; mret (mkMemory (fields m) (conversation m ++ [l]))
  | Other v => liftC (Throw (pushError v))
  end.

Definition languageInstruction (lang : string) : string :=
  if String.eqb lang "swahili" then
    "Respond fully in Swahili or Sheng naturally depending on tone."
  else if String.eqb lang "mixed" then
    "Respond bilingually — mostly English, with natural Swahili/Sheng flavor."
  else
    "Respond in English, friendly Kenyan developer tone.".

(** [v?.role === "system"] *)
Definition isSystem (v : JSValue) : bool :=
  match optProp v "role" with
  | JSString r => String.eqb r "system"
  | _ => false
  end.

(** [obj.content += suffix]: the content is converted to a string, which
    can throw. *)
Definition appended {rt : Runtime} (t : JSValue) (suffix : string) : Completion JSValue :=
  cbind (ToString (getProp t "content")) (fun s =>
    match t with
    | JSObject props => Normal (JSObject (setProp "content" (JSString (s +:+ suffix)) props))
    | _ => Normal t
    end).

(** [if (messages[0]?.role === "system") messages[0].content += ...]:
    [messages] is a copy of the array, its elements are the objects of
    [memory.conversation]. *)
Definition addInstruction {rt : Runtime} (messages : list loc) (instruction : string) : M unit :=
  match head messages with
  | Some l =>
      t ← read l;
      if isSystem t
      then
        t' ← liftC (appended t ("

" +:+ instruction));
        write l t'
      else mret tt
  | None => mret tt
  end.

(** [await axios.post(url, { model, messages, ... }, ...)] *)
Definition post (w : World) (messages : list loc) : M JSValue := fun sys =>
  let sent := (fun l => heap sys !!! l) <$> messages in
  let sys' := mkSys (heap sys) (files sys) (posts sys ++ [sent]) (writes sys) in
  match axios_post w sent with
  | Resolved data => (Normal data, sys')
  | Rejected error => (Throw error, sys')
  end.

(** [data?.choices?.[0]?.message?.content] *)
Definition replyContent (data : JSValue) : JSValue :=
  optProp (optProp (optFirst (optProp data "choices")) "message") "content".

(** [data?.choices?.[0]?.message?.content || "I apologize, ..."] *)
Definition extractReply (data : JSValue) : JSValue :=
  let c := replyContent data in
  if truthy c then c
  else JSString "I apologize, but I couldn't generate a response. Please try again.".

(** [`Assistant reply length: ${assistantReply.length} characters`] of
    the log line: the length of a string or of an array is a number;
    what an object holds under [length] is converted. *)
Definition logReplyLength {rt : Runtime} (assistantReply : JSValue) : Completion unit :=
  match assistantReply with
  | JSObject props => cbind (ToString (lookupProp "length" props)) (fun _ => Normal tt)
  | _ => Normal tt
  end.

(** [assistantReply.replace(/as an ai|language model/gi, "")] *)
Definition call_replace (assistantReply : JSValue) : Completion string :=
  match assistantReply with
  | JSString s => Normal (removeDisclaimers s)
  | _ => Throw (TypeError "assistantReply.replace is not a function")
  end.

Definition errorJson (error : string) (more : list (string * JSValue)) : option JSValue :=
  Some (JSObject (("error", JSString error) :: more)).

(** [typeof req.body === 'string' ? JSON.parse(req.body) : req.body];
    [None] when JSON.parse throws. *)
Definition parseBody (w : World) (req : Request) : option JSValue :=
  match body req with
  | JSString s => JSON_parse w s
  | b => Some b
  end.

Definition invalidJsonResponse : Response :=
  mkResponse 400 (errorJson "Invalid JSON in request body" []).

Definition missingPromptResponse : Response :=
  mkResponse 400
    (errorJson "Missing or empty prompt parameter."
       [("example",
         JSObject [("prompt", JSString "What movies do you recommend?");
                   ("userId", JSString "optional_user_id")])]).

Definition configurationErrorResponse : Response :=
  mkResponse 500
    (errorJson "Server configuration error"
       [("message", JSString "API key is not configured")]).

(** [{ reply: cleanText, memory: { lastProject: memory.lastProject,
    conversationLength: memory.conversation.length, userId } }] *)
Definition replyResponse (cleanText : string) (lastProject : JSValue)
    (conversationLength : nat) (uid : JSValue) : Response :=
  mkResponse 200 (Some (JSObject
    [("reply", JSString cleanText);
     ("memory", JSObject
        [("lastProject", lastProject);
         ("conversationLength", number conversationLength);
         ("userId", uid)])])).

(** [!process.env.DEEPSEEK_API_KEY] *)
Definition apiKeyMissing (w : World) : bool :=
  match DEEPSEEK_API_KEY w with
  | None | Some EmptyString => true
  | Some _ => false
  end.

(** The body of the [try] block, for a POST request. *)
Definition tryBlock {rt : Runtime} (w : World) (req : Request) : M Response :=
  match parseBody w req with
  | None => mret invalidJsonResponse
  | Some body =>
      '(prompt, project, uid) ← liftC (destructure body);
      _ ← liftC (logUserId uid);
      _ ← liftC (logPrompt prompt);
      checked ← liftC (checkPrompt prompt);
      match checked with
      | None => mret missingPromptResponse
      | Some prompt =>
          (* Load memory *)
          memory ← loadMemory uid;
          memory ← liftC (if truthy project
                          then setField "lastProject" project memory
                          else Normal memory);
          memory ← liftC (setField "lastTask" (JSString prompt) memory);
          (* Add user message to conversation *)
          memory ← pushTurn memory (mkTurn "user" prompt);
          (* Detect language *)
          lang ← liftC (detectLanguage (JSString prompt));
          (* Prepare messages *)
          let messages := conversation memory in
          _ ← addInstruction messages (languageInstruction lang);
          (* Check if API key is set *)
          if apiKeyMissing w then mret configurationErrorResponse
          else
            data ← post w messages;
            let assistantReply := extractReply data in
            _ ← liftC (logReplyLength assistantReply);
            (* Clean response and save memory *)
            cleanText ← liftC (call_replace assistantReply);
            assistant ← alloc (mkTurn "assistant" cleanText);
            let memory :=
              mkMemory (fields memory)
                       (truncateHistory (conversation memory ++ [assistant])) in
            _ ← saveMemory w uid memory;
            mret (replyResponse cleanText (lookupProp "lastProject" (fields memory))
                    (length (conversation memory)) uid)
      end
  end.

(** The [catch] block: the answer for a thrown error. *)
Definition catchBlock (w : World) (error : JSError) : Response :=
  let '(errorMessage, statusCode, details) :=
    if bool_decide (response_status error = Some 401%Z) then
      ("API key is invalid or missing.", 401%Z,
       JSString "Check your DEEPSEEK_API_KEY environment variable")
    else if bool_decide (response_status error = Some 429%Z) then
      ("Rate limit exceeded. Please try again later.", 429%Z, JSNull)
    else if bool_decide (code error = Some "ECONNABORTED") then
      ("Request timeout. Please try again.", 408%Z, JSNull)
    else if includes (message error) "ENOENT" then
      ("File system error.", 500%Z, JSNull)
    else
      ("Server error. Please try again.", 500%Z, JSNull) in
  let details :=
    if truthy details then details
    else if bool_decide (NODE_ENV w = Some "development")
         then JSString (message error) else JSUndefined in
  mkResponse statusCode (errorJson errorMessage [("details", details)]).

Definition apiInfo : JSValue :=
  JSObject
    [("status", JSString "online");
     ("service", JSString "MaxMovies AI Assistant");
     ("version", JSString "1.0.0");
     ("endpoints", JSObject
        [("generate", JSObject
            [("method", JSString "POST");
             ("description", JSString "Chat with the AI");
             ("body", JSObject
                [("prompt", JSString "string (required)");
                 ("userId", JSString "string (optional, default: 'default')");
                 ("project", JSString "string (optional)")])])])].

(** What one invocation of the handler leaves behind. *)
Record Outcome : Type := mkOutcome {
  response : Response;
  filesAfter : gmap string FileContent;
  upstreamCalls : list (list JSValue);
  fileWrites : list (string * JSValue);
}.

Definition handler {rt : Runtime} (w : World) (req : Request) (fs : gmap string FileContent)
  : Outcome :=
  if String.eqb (method req) "OPTIONS" then
    mkOutcome (mkResponse 200 None) fs [] []
  else if String.eqb (method req) "GET" then
    mkOutcome (mkResponse 200 (Some apiInfo)) fs [] []
  else if negb (String.eqb (method req) "POST") then
    mkOutcome
      (mkResponse 405
         (errorJson ("Method " +:+ method req +:+ " not allowed. Use POST or GET for testing.")
            [("allowed", JSArray [JSString "POST"; JSString "GET"; JSString "OPTIONS"])]))
      fs [] []
  else
    let '(result, sys) := tryBlock w req (mkSys [] fs [] []) in
    let response :=
      match result with
      | Normal r => r
      | Throw error => catchBlock w error
      end in
    mkOutcome response (files sys) (posts sys) (writes sys).

(** The files after a series of requests, each in its own world. *)
Definition serve {rt : Runtime} (fs : gmap string FileContent) (reqs : list (World * Request))
  : gmap string FileContent :=
  foldl (fun fs '(w, req) => filesAfter (handler w req fs)) fs reqs.

(* ===================================================================== *)
(** ** Specification vocabulary                                          *)
(* ===================================================================== *)

(** [Hits lower words n]: [n] of the terms of [words] occur in [lower] as
    substrings (a term listed twice is counted twice). *)
Inductive Hits (lower : string) : list string -> nat -> Prop :=
| Hits_nil : Hits lower [] 0
| Hits_occurs w words n :
    Substring w lower -> Hits lower words n -> Hits lower (w :: words) (S n)
| Hits_absent w words n :
    ~ Substring w lower -> Hits lower words n -> Hits lower (w :: words) n.

(** The text is made of entries of [table], one after the other. *)
Inductive MadeOf (table : list string) : string -> Prop :=
| MadeOf_empty : MadeOf table ""
| MadeOf_more ws s : ws ∈ table -> MadeOf table s -> MadeOf table (ws +:+ s).

(** The text is empty or made of white space only. *)
Definition Blank (s : string) : Prop := MadeOf whiteSpace s.

(** The reply clean-up. *)

(** [m] reads "as an ai" or "language model", letter case ignored. *)
Definition isDisclaimer (m : string) : Prop := lowerAscii m ∈ disclaimers.

(** [reply] is [pre], then an occurrence [m] of a phrase, then [post]. *)
Definition Occurrence (reply pre m post : string) : Prop :=
  reply = pre +:+ m +:+ post /\ isDisclaimer m.

(** The positions of the occurrence that starts behind [pre]. *)
Definition within (pre m : string) (i : nat) : Prop :=
  String.length pre <= i < String.length pre + String.length m.

(** Character [i] of the reply lies in some occurrence of a phrase. *)
Definition covered (reply : string) (i : nat) : Prop :=
  exists pre m post, Occurrence reply pre m post /\ within pre m i.

(** No occurrence starts inside another one. *)
Definition NoOverlap (reply : string) : Prop :=
  forall pre1 m1 post1 pre2 m2 post2,
    Occurrence reply pre1 m1 post1 -> Occurrence reply pre2 m2 post2 ->
    String.length pre1 < String.length pre2 ->
    String.length pre1 + String.length m1 <= String.length pre2.

(** The reply without the characters that [removed] marks. *)
Fixpoint erase (removed : list bool) (s : string) : string :=
  match s, removed with
  | String c s', b :: removed' =>
      if b then erase removed' s' else String c (erase removed' s')
  | _, _ => s
  end.

(** The clean-up as the specification words it: every character that
    lies in an occurrence of a phrase is removed, every other character
    stays, in its place. *)
Definition RemovesEveryOccurrence (reply out : string) : Prop :=
  exists removed : list bool,
    length removed = String.length reply /\
    out = erase removed reply /\
    forall i, i < String.length reply ->
      (removed !! i = Some true <-> covered reply i).

(** The characters the scan of [replaceFrom] passes over. *)
Fixpoint removedFrom (skip : nat) (s : string) : list bool :=
  match s with
  | EmptyString => []
  | String c s' =>
      match skip with
      | S k => true :: removedFrom k s'
      | O =>
          match matchAt s with
          | Some p => true :: removedFrom (String.length p - 1) s'
          | None => false :: removedFrom 0 s'
          end
      end
  end.

(** What one left-to-right scan removes. *)
Definition ScanRemoves (reply : string) (removed : list bool) : Prop :=
  (forall i, removed !! i = Some true ->
     exists pre m post,
       Occurrence reply pre m post /\ within pre m i /\
       forall k, within pre m k -> removed !! k = Some true) /\
  (forall pre m post,
     Occurrence reply pre m post ->
     (forall k, within pre m k -> removed !! k = Some true) \/
     (exists pre' m' post',
        Occurrence reply pre' m' post' /\
        String.length pre' < String.length pre < String.length pre' + String.length m' /\
        forall k, within pre' m' k -> removed !! k = Some true)).

(** The properties an object has in its JSON form. *)
Definition jsonProps (props : list (string * JSValue)) : list (string * JSValue) :=
  match jsonValue (JSObject props) with
  | JSObject kept => kept
  | _ => []
  end.

(** Induction on values, their elements and properties included. *)
Section ValueInduction.

Variable P : JSValue -> Prop.
Hypothesis Hundefined : P JSUndefined.
Hypothesis Hnull : P JSNull.
Hypothesis Hboolean : forall b, P (JSBoolean b).
Hypothesis Hnumber : forall x, P (JSNumber x).
Hypothesis Hstring : forall s, P (JSString s).
Hypothesis Harray : forall elems, Forall P elems -> P (JSArray elems).
Hypothesis Hobject : forall props, Forall (fun kv => P kv.2) props -> P (JSObject props).

Fixpoint JSValue_nested_ind (v : JSValue) : P v :=
  match v with
  | JSUndefined => Hundefined
  | JSNull => Hnull
  | JSBoolean b => Hboolean b
  | JSNumber x => Hnumber x
  | JSString s => Hstring s
  | JSArray elems =>
      Harray elems
        ((fix all (elems : list JSValue) : Forall P elems :=
            match elems with
            | [] => Forall_nil_2 P
            | x :: rest => Forall_cons_2 P x rest (JSValue_nested_ind x) (all rest)
            end) elems)
  | JSObject props =>
      Hobject props
        ((fix all (props : list (string * JSValue)) : Forall (fun kv => P kv.2) props :=
            match props with
            | [] => Forall_nil_2 _
            | kv :: rest =>
                Forall_cons_2 (fun kv => P kv.2) kv rest
                  (JSValue_nested_ind kv.2) (all rest)
            end) props)
  end.

End ValueInduction.

(** The steps of one POST request. *)

Definition systemTurn : JSValue := mkTurn "system" PERSONA_PREAMBLE.

(** The elements of the conversation array of a record. *)
Definition conversationOf (record : JSValue) : list JSValue :=
  match getProp record "conversation" with
  | JSArray elems => elems
  | _ => []
  end.

(** The value [loadMemory] returns for the file [path]: what the file
    holds, or the default memory. *)
Definition storedValue (fs : gmap string FileContent) (path : string) (uid : JSValue)
  : JSValue :=
  match fs !! path with
  | Some (Json v) => v
  | Some Garbage | None => defaultMemory uid
  end.

(** The loaded value after [memory.lastProject = project] (for a truthy
    project), [memory.lastTask = prompt] and the push of the user turn:
    the properties of the record and the turns of its conversation; or
    the error thrown on the way, when the value is no object with a
    conversation array. *)
Definition opened {rt : Runtime} (project : JSValue) (p : string) (v : JSValue)
  : Completion (list (string * JSValue) * list JSValue) :=
  match recordOf v with
  | Some (props, turns) =>
      Normal (setProp "lastTask" (JSString p)
                (if truthy project then setProp "lastProject" project props else props),
              turns ++ [mkTurn "user" p])
  | None =>
      cbind (if truthy project then setFieldOf "lastProject" project v else Normal v)
        (fun v1 =>
      cbind (setFieldOf "lastTask" (JSString p) v1) (fun v2 => Throw (pushError v2)))
  end.

(** The turns once the instruction is appended to a leading system turn. *)
Definition withInstruction {rt : Runtime} (instruction : string) (turns : list JSValue)
  : Completion (list JSValue) :=
  match turns with
  | t :: rest =>
      if isSystem t
      then cbind (appended t ("

" +:+ instruction)) (fun t' => Normal (t' :: rest))
      else Normal turns
  | [] => Normal []
  end.

(** What a request with the usable prompt [p] has at hand when it comes
    to the check of the API key: the properties of the record and the
    message list of the outbound call. *)
Definition prepared {rt : Runtime} (fs : gmap string FileContent) (path p : string)
    (project uid : JSValue) (lang : string)
  : Completion (list (string * JSValue) * list JSValue) :=
  cbind (opened project p (storedValue fs path uid)) (fun '(props, turns) =>
  cbind (withInstruction (languageInstruction lang) turns) (fun sent =>
    Normal (props, sent))).

(** The record handed to [saveMemory]: the messages sent, the assistant
    turn appended, the history limit applied. *)
Definition writtenRecord (props : list (string * JSValue)) (sent : list JSValue)
    (cleanText : string) : JSValue :=
  JSObject
    (setProp "conversation"
       (JSArray (truncateHistory (sent ++ [mkTurn "assistant" cleanText]))) props).

(** The cleaned reply: the log line of its length, then the clean-up. *)
Definition cleaned {rt : Runtime} (assistantReply : JSValue) : Completion string :=
  cbind (logReplyLength assistantReply) (fun _ => call_replace assistantReply).

(** What a POST request with a usable prompt leads to, the heap
    reasoning done. *)
Definition promptOutcome {rt : Runtime} (w : World) (fs : gmap string FileContent)
    (p : string) (project uid : JSValue) (path lang : string) : Outcome :=
  match prepared fs path p project uid lang with
  | Throw error => mkOutcome (catchBlock w error) fs [] []
  | Normal (props, sent) =>
      if apiKeyMissing w then mkOutcome configurationErrorResponse fs [] []
      else
        match axios_post w sent with
        | Rejected error => mkOutcome (catchBlock w error) fs [sent] []
        | Resolved data =>
            match cleaned (extractReply data) with
            | Throw error => mkOutcome (catchBlock w error) fs [sent] []
            | Normal cleanText =>
                let record := writtenRecord props sent cleanText in
                let turns := truncateHistory (sent ++ [mkTurn "assistant" cleanText]) in
                mkOutcome
                  (replyResponse cleanText (lookupProp "lastProject" props)
                     (length turns) uid)
                  (written w path record fs)
                  [sent] [(path, record)]
            end
        end
  end.

(** [req] is a POST request whose body carries the usable prompt [p]
    (a string that is not empty once trimmed), with [project] and [uid]
    read from the same body; the user id can be converted to a string,
    and [path] is the memory file it names. *)
Definition Prompted {rt : Runtime} (w : World) (req : Request) (p : string)
    (project uid : JSValue) (path : string) : Prop :=
  method req = "POST" /\
  exists body,
    parseBody w req = Some body /\
    destructure body = Normal (JSString p, project, uid) /\
    filePath uid = Normal path /\
    trim p <> "".

(** The steps of the [try] block up to the prompt check: an answer given
    at once, the request's prompt, or an error thrown. *)
Definition validate {rt : Runtime} (w : World) (req : Request)
  : Completion (Response + string * JSValue * JSValue) :=
  match parseBody w req with
  | None => Normal (inl invalidJsonResponse)
  | Some body =>
      cbind (destructure body) (fun '(prompt, project, uid) =>
      cbind (logUserId uid) (fun _ =>
      cbind (logPrompt prompt) (fun _ =>
      cbind (checkPrompt prompt) (fun checked =>
        match checked with
        | None => Normal (inl missingPromptResponse)
        | Some p => Normal (inr (p, project, uid))
        end))))
  end.

(** The system turn. *)

(** The first turn is a system turn whose content starts with the persona
    preamble. *)
Definition systemFirst (turns : list JSValue) : Prop :=
  exists t suffix,
    head turns = Some t /\ getProp t "role" = JSString "system" /\
    getProp t "content" = JSString (PERSONA_PREAMBLE +:+ suffix).

(** Every conversation record among the files has the system turn
    first. *)
Definition recordsOk (fs : gmap string FileContent) : Prop :=
  forall path v props turns,
    fs !! path = Some (Json v) -> recordOf v = Some (props, turns) -> systemFirst turns.

(** Further vocabulary. *)

(** The number of hits of a text: the sum [swCount + shCount]. *)
Definition hits {rt : Runtime} (text : string) : nat :=
  countIncluded swahiliWords (toLowerCase text)
  + countIncluded shengWords (toLowerCase text).

(** The three answers of the heuristic, from formal to informal. *)
Definition rank (lang : string) : nat :=
  if String.eqb lang "english" then 0
  else if String.eqb lang "mixed" then 1 else 2.

(** The reply used when the upstream answer holds no content. *)
Definition fallbackReply : string :=
  "I apologize, but I couldn't generate a response. Please try again.".

(** The same world, with the outcome of writing a file chosen. *)
Definition withWriteResult (result : WriteResult) (w : World) : World :=
  mkWorld (DEEPSEEK_API_KEY w) (NODE_ENV w) (JSON_parse w) (axios_post w)
          (fun _ => result).

(** The statuses the [catch] block can answer with. *)
Definition errorStatuses : list Z := [401; 429; 408; 500]%Z.

(** Worlds and requests for the examples. *)

(** A runtime for the examples: their texts are ASCII, and no example
    prints a number. *)
Definition exampleRuntime : Runtime.
Proof.
  refine {| toLowerCase := lowerAscii; Number_toString := fun _ => "0" |}.
  intros pre m post _. exists (lowerAscii pre), (lowerAscii post).
  split; [|split; intros ->; reflexivity].
  induction pre as [|c pre IH]; simpl; [|by rewrite IH].
  induction m as [|c m IH]; simpl; [done | by rewrite IH].
Defined.

Definition replyData (text : string) : JSValue :=
  JSObject
    [("choices",
      JSArray [JSObject [("index", number 0);
                         ("message", JSObject [("role", JSString "assistant");
                                               ("content", JSString text)])]])].

Definition exampleWorld (key : option string) (answer : AxiosResult) : World :=
  mkWorld key None (fun _ => None) (fun _ => answer) (fun _ => Written).

Definition examplePost (prompt : string) : Request :=
  mkRequest "POST" (JSObject [("prompt", JSString prompt)]).

(** A memory directory with one record of 20 turns. *)
Definition twentyTurns : list JSValue :=
  systemTurn :: replicate 19 (mkTurn "user" "more").

Definition fullMemory : gmap string FileContent :=
  {[ "/tmp/memory/memory_default.json" :=
       Json (JSObject [("userId", JSString "default");
                       ("lastProject", JSNull);
                       ("lastTask", JSString "more");
                       ("conversation", JSArray twentyTurns)]) ]}.

(* ===================================================================== *)
(** ** Two other revisions of the endpoint                               *)
(* ===================================================================== *)

(** The first revision of the heuristic: no guard, shorter lists. *)
Module Part000.

Definition swahiliWords : list string :=
  ["habari"; "sasa"; "niko"; "kwani"; "basi"; "ndio"; "karibu"; "asante"].

Definition shengWords : list string :=
  ["bro"; "maze"; "manze"; "noma"; "fiti"; "safi"; "buda"; "msee"; "mwana"; "poa"].

Definition detectLanguage {rt : Runtime} (text : JSValue) : Completion string :=
  cbind (call_toLowerCase text) (fun lower =>
    let swCount := countIncluded swahiliWords lower in
    let shCount := countIncluded shengWords lower in
    if (swCount + shCount =? 0)%nat then Normal "english"
    else if (swCount + shCount <? 3)%nat then Normal "mixed"
    else Normal "swahili").

End Part000.

(** The revision that answers with a fallback reply when the upstream
    call fails. Its handler has no [try] around the whole body and no
    log lines before the prompt check: an error thrown outside the two
    inner [try] blocks leaves the handler. *)
Module Part001.

(** [if (!req.body) body = {}; else if (typeof req.body === 'string')
    body = JSON.parse(req.body); else body = req.body;], [None] when
    JSON.parse throws. *)
Definition parseBody (w : World) (req : Request) : option JSValue :=
  if negb (truthy (body req)) then Some (JSObject [])
  else
    match body req with
    | JSString s => JSON_parse w s
    | b => Some b
    end.

Definition missingPromptResponse : Response :=
  mkResponse 400
    (errorJson "Missing or empty prompt parameter."
       [("example",
         JSObject [("prompt", JSString "Recommend movies");
                   ("userId", JSString "optional_user_id")])]).

Definition configurationErrorResponse : Response :=
  mkResponse 500
    (errorJson "Server configuration error: DEEPSEEK_API_KEY not set" []).

Definition fallbackReply : string := "I couldn't generate a response.".

(** The reply of the revision for an upstream answer. *)
Definition replyOf (answer : AxiosResult) : JSValue :=
  match answer with
  | Resolved data =>
      if truthy (replyContent data) then replyContent data
      else JSString fallbackReply
  | Rejected _ => JSString fallbackReply
  end.

(** [try { const r = await axios.post(...); assistantReply =
    r.data?.choices?.[0]?.message?.content || assistantReply; }
    catch (err) { console.warn(...) }] *)
Definition tryPost (w : World) (messages : list loc) : M JSValue := fun sys =>
  match post w messages sys with
  | (Normal data, sys') => (Normal (replyOf (Resolved data)), sys')
  | (Throw error, sys') => (Normal (replyOf (Rejected error)), sys')
  end.

(** The handler of a POST request. *)
Definition servePost {rt : Runtime} (w : World) (req : Request) : M Response :=
  match parseBody w req with
  | None => mret invalidJsonResponse
  | Some body =>
      '(prompt, project, uid) ← liftC (destructure body);
      checked ← liftC (checkPrompt prompt);
      match checked with
      | None => mret missingPromptResponse
      | Some prompt =>
          memory ← loadMemory uid;
          memory ← liftC (if truthy project
                          then setField "lastProject" project memory
                          else Normal memory);
          memory ← liftC (setField "lastTask" (JSString prompt) memory);
          memory ← pushTurn memory (mkTurn "user" prompt);
          lang ← liftC (detectLanguage (JSString prompt));
          let messages := conversation memory in
          _ ← addInstruction messages (languageInstruction lang);
          if apiKeyMissing w then mret configurationErrorResponse
          else
            assistantReply ← tryPost w messages;
            cleanText ← liftC (call_replace assistantReply);
            assistant ← alloc (mkTurn "assistant" cleanText);
            let memory :=
              mkMemory (fields memory)
                       (truncateHistory (conversation memory ++ [assistant])) in
            _ ← saveMemory w uid memory;
            mret (replyResponse cleanText (lookupProp "lastProject" (fields memory))
                    (length (conversation memory)) uid)
      end
  end.

(** What one invocation leaves behind; [answer] is the response sent, or
    the error that left the handler. *)
Record Outcome : Type := mkOutcome {
  answer : Completion Response;
  filesAfter : gmap string FileContent;
  upstreamCalls : list (list JSValue);
  fileWrites : list (string * JSValue);
}.

Definition handler {rt : Runtime} (w : World) (req : Request)
    (fs : gmap string FileContent) : Outcome :=
  if String.eqb (method req) "OPTIONS" then
    mkOutcome (Normal (mkResponse 200 None)) fs [] []
  else if String.eqb (method req) "GET" then
    mkOutcome (Normal (mkResponse 200 (Some apiInfo))) fs [] []
  else if negb (String.eqb (method req) "POST") then
    mkOutcome
      (Normal (mkResponse 405
         (errorJson ("Method " +:+ method req +:+ " not allowed. Use POST or GET.")
            [("allowed", JSArray [JSString "POST"; JSString "GET"; JSString "OPTIONS"])])))
      fs [] []
  else
    let '(result, sys) := servePost w req (mkSys [] fs [] []) in
    mkOutcome result (files sys) (posts sys) (writes sys).

(** What a POST request with a usable prompt leads to in this revision,
    the heap reasoning done. *)
Definition promptOutcome {rt : Runtime} (w : World) (fs : gmap string FileContent)
    (p : string) (project uid : JSValue) (path lang : string) : Outcome :=
  match prepared fs path p project uid lang with
  | Throw error => mkOutcome (Throw error) fs [] []
  | Normal (props, sent) =>
      if apiKeyMissing w then mkOutcome (Normal configurationErrorResponse) fs [] []
      else
        match call_replace (replyOf (axios_post w sent)) with
        | Throw error => mkOutcome (Throw error) fs [sent] []
        | Normal cleanText =>
            let record := writtenRecord props sent cleanText in
            let turns := truncateHistory (sent ++ [mkTurn "assistant" cleanText]) in
            mkOutcome
              (Normal (replyResponse cleanText (lookupProp "lastProject" props)
                         (length turns) uid))
              (written w path record fs)
              [sent] [(path, record)]
        end
  end.

End Part001.

(* ===================================================================== *)
(** ** Facts about strings                                               *)
(* ===================================================================== *)

#[local] Arguments PERSONA_PREAMBLE : simpl never.

Section StringFacts.

Implicit Types (s w pre post : string) (c d : ascii).

Lemma append_empty_r s : s +:+ "" = s.
Proof. induction s as [|c s IH]; simpl; [done | by rewrite IH]. Qed.

Lemma append_assoc s1 s2 s3 : (s1 +:+ s2) +:+ s3 = s1 +:+ (s2 +:+ s3).
Proof. induction s1 as [|c s1 IH]; simpl; [done | by rewrite IH]. Qed.

Lemma length_append s1 s2 :
  String.length (s1 +:+ s2) = String.length s1 + String.length s2.
Proof. induction s1 as [|c s1 IH]; simpl; [done | by rewrite IH]. Qed.

Lemma startsWith_spec s w : startsWith s w = true <-> exists post, s = w +:+ post.
Proof.
  revert s. induction w as [|d w IH]; intros s; simpl.
  - split; [intros _; by exists s | done].
  - destruct s as [|c s].
    + split; [done | intros [post H]; discriminate].
    + rewrite andb_true_iff, Ascii.eqb_eq, IH. split.
      * intros [-> [post ->]]. by exists post.
      * intros [post H]. injection H as -> ->. eauto.
Qed.

Lemma includes_spec s w : includes s w = true <-> Substring w s.
Proof.
  unfold Substring. induction s as [|c s IH]; simpl.
  - rewrite orb_false_r, startsWith_spec. split.
    + intros [post H]. by exists "", post.
    + intros [pre [post H]]. destruct pre; [by exists post | discriminate].
  - rewrite orb_true_iff, startsWith_spec, IH. split.
    + intros [[post H] | [pre [post H]]].
      * by exists "", post.
      * exists (String c pre), post. simpl. by rewrite H.
    + intros [[|c' pre] [post H]].
      * left. by exists post.
      * right. simpl in H. injection H as _ ->. by exists pre, post.
Qed.

Lemma lowerAscii_append s1 s2 :
  lowerAscii (s1 +:+ s2) = lowerAscii s1 +:+ lowerAscii s2.
Proof. induction s1 as [|c s1 IH]; simpl; [done | by rewrite IH]. Qed.

Lemma lowerAscii_length s : String.length (lowerAscii s) = String.length s.
Proof. induction s as [|c s IH]; simpl; [done | by rewrite IH]. Qed.

(** A lower-case ASCII term that occurs in a text occurs in the
    lower-cased text, whatever the engine. *)
Lemma Substring_toLowerCase {rt : Runtime} w s :
  isAscii w = true -> lowerAscii w = w ->
  Substring w s -> Substring w (toLowerCase s).
Proof.
  intros Hascii Hw [pre [post ->]].
  destruct (toLowerCase_ascii pre w post Hascii) as (pre' & post' & -> & _).
  exists pre', post'. by rewrite Hw.
Qed.

Lemma toLowerCase_empty {rt : Runtime} : toLowerCase "" = "".
Proof.
  destruct (toLowerCase_ascii "" "" "" eq_refl) as (pre' & post' & E & Hpre & Hpost).
  simpl in E. by rewrite E, Hpre, Hpost.
Qed.

End StringFacts.

(* ===================================================================== *)
(** ** The language heuristic                                            *)
(* ===================================================================== *)

Section DetectLanguage.

Context {rt : Runtime}.
Implicit Types (text lower w : string) (words : list string).

(** The count of the code is the count of the specification. *)
Lemma countIncluded_Hits lower words : Hits lower words (countIncluded words lower).
Proof.
  unfold countIncluded. induction words as [|w words IH]; simpl.
  - constructor.
  - destruct (includes lower w) eqn:E; simpl.
    + apply Hits_occurs; [by apply includes_spec | done].
    + apply Hits_absent; [|done].
      rewrite <- includes_spec. by rewrite E.
Qed.

Lemma Hits_unique lower words n m : Hits lower words n -> Hits lower words m -> n = m.
Proof.
  intros Hn. revert m.
  induction Hn as [|w words n Hw _ IH|w words n Hw _ IH]; intros m Hm;
    inversion Hm; subst; try done.
  - f_equal. by apply IH.
  - by apply IH.
Qed.

Lemma Hits_countIncluded lower words n :
  Hits lower words n -> n = countIncluded words lower.
Proof. intros H. eapply Hits_unique; [done | apply countIncluded_Hits]. Qed.

Lemma Hits_le lower words n : Hits lower words n -> n <= length words.
Proof. induction 1; simpl; lia. Qed.

Lemma detectLanguage_string text :
  detectLanguage (JSString text) =
    let hits := countIncluded swahiliWords (toLowerCase text)
                + countIncluded shengWords (toLowerCase text) in
    Normal (if (hits =? 0)%nat then "english"
            else if (hits <? 3)%nat then "mixed" else "swahili").
Proof.
  unfold detectLanguage. destruct text as [|c text].
  - rewrite toLowerCase_empty. reflexivity.
  - simpl truthy. simpl typeof. cbv beta iota delta [negb orb String.eqb Ascii.eqb].
    change (String.eqb "string" "string") with true. simpl.
    repeat case_match; done.
Qed.

End DetectLanguage.

Section DetectLanguageClaims.

Context {rt : Runtime}.
Implicit Types (text lower w : string) (words : list string).

Lemma Hits_total lower words : exists n, Hits lower words n.
Proof. eexists. apply countIncluded_Hits. Qed.

Lemma detectLanguage_never_throws (text : JSValue) :
  exists lang, detectLanguage text = Normal lang.
Proof.
  destruct text as [| |b|x|s|xs|ps]; try (by eexists).
  - unfold detectLanguage. simpl. destruct b; by eexists.
  - unfold detectLanguage. destruct x; by eexists.
  - rewrite detectLanguage_string. by eexists.
Qed.

(** A value that is no string does not get past the guard. *)
Lemma detectLanguage_not_string (v : JSValue) :
  (forall s, v <> JSString s) -> detectLanguage v = Normal "english".
Proof.
  intros Hv. destruct v as [| |b|x|s|xs|ps]; try reflexivity.
  - unfold detectLanguage. simpl. by destruct b.
  - unfold detectLanguage. by destruct x.
  - by destruct (Hv s).
Qed.

(** C1. For every input text the heuristic lower-cases the text and counts
    the terms of the Swahili list and of the Sheng list that occur in it
    as substrings; with [hits = matchesA + matchesB] it answers "english"
    when [hits = 0], "mixed" when [1 <= hits < 3] and "swahili" when
    [hits >= 3]. *)
Theorem detectLanguage_classifies text matchesA matchesB :
  Hits (toLowerCase text) swahiliWords matchesA ->
  Hits (toLowerCase text) shengWords matchesB ->
  let hits := matchesA + matchesB in
  (hits = 0 -> detectLanguage (JSString text) = Normal "english") /\
  (1 <= hits < 3 -> detectLanguage (JSString text) = Normal "mixed") /\
  (3 <= hits -> detectLanguage (JSString text) = Normal "swahili").
Proof.
  intros HA HB hits. subst hits.
  rewrite detectLanguage_string.
  rewrite <- (Hits_countIncluded _ _ _ HA), <- (Hits_countIncluded _ _ _ HB).
  cbv zeta. split; [|split]; intros H.
  - by rewrite H.
  - destruct (Nat.eqb_spec (matchesA + matchesB) 0); [lia|].
    destruct (Nat.ltb_spec (matchesA + matchesB) 3); [done | lia].
  - destruct (Nat.eqb_spec (matchesA + matchesB) 0); [lia|].
    destruct (Nat.ltb_spec (matchesA + matchesB) 3); [lia | done].
Qed.

(** C9. On the empty string, on [null], on [undefined] and on every value
    that is not a string the heuristic answers "english"; it does not
    throw. *)
Theorem detectLanguage_guard (text : JSValue) :
  text = JSString "" \/ text = JSNull \/ text = JSUndefined \/
    typeof text <> "string" ->
  detectLanguage text = Normal "english".
Proof.
  intros H. destruct text as [| |b|x|s|xs|ps]; try reflexivity.
  - unfold detectLanguage. simpl. by destruct b.
  - unfold detectLanguage. by destruct x.
  - destruct H as [H|[H|[H|H]]]; try discriminate.
    + by injection H as ->.
    + by destruct H.
Qed.

End DetectLanguageClaims.

Section DetectLanguageExamples.

#[local] Existing Instance exampleRuntime.

Example detectLanguage_examples :
  detectLanguage (JSString "Hello, what should I watch tonight?") = Normal "english" /\
  detectLanguage (JSString "That was NOMA") = Normal "mixed" /\
  detectLanguage (JSString "bro that movie was noma and safi") = Normal "swahili".
Proof. repeat split. Qed.

Lemma detectLanguage_classifies_witness :
  let text := "bro that movie was noma and safi" in
  Hits (toLowerCase text) swahiliWords 0 /\
  Hits (toLowerCase text) shengWords 3 /\
  detectLanguage (JSString text) = Normal "swahili".
Proof.
  intros text.
  assert (HA : Hits (toLowerCase text) swahiliWords 0)
    by exact (countIncluded_Hits (toLowerCase text) swahiliWords).
  assert (HB : Hits (toLowerCase text) shengWords 3)
    by exact (countIncluded_Hits (toLowerCase text) shengWords).
  split; [exact HA | split; [exact HB |]].
  apply (detectLanguage_classifies text 0 3 HA HB). simpl. lia.
Defined.

Lemma detectLanguage_guard_witness :
  detectLanguage JSNull = Normal "english" /\
  detectLanguage JSUndefined = Normal "english" /\
  detectLanguage (JSString "") = Normal "english" /\
  detectLanguage (JSArray [JSString "poa"]) = Normal "english".
Proof.
  split; [|split; [|split]].
  - apply (detectLanguage_guard JSNull). right; left; reflexivity.
  - apply (detectLanguage_guard JSUndefined). right; right; left; reflexivity.
  - apply (detectLanguage_guard (JSString "")). left; reflexivity.
  - apply (detectLanguage_guard (JSArray [JSString "poa"])).
    right; right; right. simpl. discriminate.
Defined.

End DetectLanguageExamples.

Section Poa.

Context {rt : Runtime}.
Implicit Types (text lower w : string) (words sub : list string).

(** Distinct listed terms that all occur are all counted. *)
Lemma countIncluded_ge lower words sub :
  NoDup sub ->
  (forall w, w ∈ sub -> w ∈ words /\ includes lower w = true) ->
  length sub <= countIncluded words lower.
Proof.
  intros Hnd Hsub. unfold countIncluded.
  apply submseteq_length, NoDup_submseteq; [done|].
  intros w Hw. destruct (Hsub w Hw) as [Hin Hinc].
  apply list_elem_of_In, filter_In. split; [by apply list_elem_of_In | done].
Qed.

(** When one term only occurs, the count is the number of times it is
    listed. *)
Lemma countIncluded_only lower words w0 :
  (forall w, w ∈ words -> includes lower w = true <-> w = w0) ->
  countIncluded words lower = length (List.filter (String.eqb w0) words).
Proof.
  intros H. unfold countIncluded. f_equal.
  apply List.filter_ext_in. intros w Hw%list_elem_of_In.
  specialize (H w Hw).
  destruct (includes lower w), (String.eqb_spec w0 w); try done.
  - destruct H as [H _]. by rewrite H in n.
  - destruct H as [_ H]. by discriminate H.
Qed.

(** The listed terms are lower-case ASCII words. *)
Lemma listed_lower_case w :
  w ∈ swahiliWords ++ shengWords -> isAscii w = true /\ lowerAscii w = w.
Proof.
  intros H. apply list_elem_of_In in H. simpl in H.
  repeat (destruct H as [<-|H]; [split; reflexivity|]). done.
Qed.

Lemma listed_included text w :
  w ∈ swahiliWords ++ shengWords -> Substring w text ->
  includes (toLowerCase text) w = true.
Proof.
  intros Hw H. destruct (listed_lower_case w Hw) as [Ha Hl].
  by apply includes_spec, Substring_toLowerCase.
Qed.

Lemma poa_included text : Substring "poa" text -> includes (toLowerCase text) "poa" = true.
Proof. apply listed_included, list_elem_of_In. simpl. tauto. Qed.

(** C10. "poa" is a term of both lists, so a text that contains it has
    at least two hits; when no other listed term occurs the hits are
    exactly two (one per list) and the answer is "mixed"; when one more
    listed term occurs the hits reach three and the answer is
    "swahili". *)
Theorem poa_counts_twice :
  ("poa" ∈ swahiliWords /\ "poa" ∈ shengWords) /\
  (forall text matchesA matchesB,
     Substring "poa" text ->
     Hits (toLowerCase text) swahiliWords matchesA ->
     Hits (toLowerCase text) shengWords matchesB ->
     1 <= matchesA /\ 1 <= matchesB /\ 2 <= matchesA + matchesB) /\
  (forall text,
     Substring "poa" text ->
     (forall w, w ∈ swahiliWords ++ shengWords -> w <> "poa" ->
                ~ Substring w (toLowerCase text)) ->
     Hits (toLowerCase text) swahiliWords 1 /\
     Hits (toLowerCase text) shengWords 1 /\
     detectLanguage (JSString text) = Normal "mixed") /\
  (forall text w matchesA matchesB,
     Substring "poa" text ->
     w ∈ swahiliWords ++ shengWords -> w <> "poa" -> Substring w text ->
     Hits (toLowerCase text) swahiliWords matchesA ->
     Hits (toLowerCase text) shengWords matchesB ->
     3 <= matchesA + matchesB /\
     detectLanguage (JSString text) = Normal "swahili").
Proof.
  assert (HinA : "poa" ∈ swahiliWords) by (apply list_elem_of_In; simpl; tauto).
  assert (HinB : "poa" ∈ shengWords) by (apply list_elem_of_In; simpl; tauto).
  assert (Hone : forall text words, Substring "poa" text -> "poa" ∈ words ->
                   1 <= countIncluded words (toLowerCase text)).
  { intros text words Hpoa Hin.
    apply (countIncluded_ge _ _ ["poa"]).
    - apply NoDup_singleton.
    - intros w ->%list_elem_of_singleton. split; [done | by apply poa_included]. }
  split; [done | split; [|split]].
  - intros text a b Hpoa HA HB.
    rewrite (Hits_countIncluded _ _ _ HA), (Hits_countIncluded _ _ _ HB).
    pose proof (Hone text _ Hpoa HinA). pose proof (Hone text _ Hpoa HinB). lia.
  - intros text Hpoa Honly.
    assert (Hiff : forall words w, (forall v, v ∈ words -> v ∈ swahiliWords ++ shengWords) ->
              w ∈ words -> includes (toLowerCase text) w = true <-> w = "poa").
    { intros words w Hsub Hw. split.
      - intros Hinc. destruct (decide (w = "poa")) as [|Hne]; [done|].
        destruct (Honly w (Hsub w Hw) Hne). by apply includes_spec.
      - intros ->. by apply poa_included. }
    assert (EA : countIncluded swahiliWords (toLowerCase text) = 1).
    { rewrite (countIncluded_only _ _ "poa"); [done|].
      intros w Hw. apply (Hiff swahiliWords); [|done].
      intros v Hv. apply elem_of_app. by left. }
    assert (EB : countIncluded shengWords (toLowerCase text) = 1).
    { rewrite (countIncluded_only _ _ "poa"); [done|].
      intros w Hw. apply (Hiff shengWords); [|done].
      intros v Hv. apply elem_of_app. by right. }
    split; [|split].
    + rewrite <- EA. apply countIncluded_Hits.
    + rewrite <- EB. apply countIncluded_Hits.
    + rewrite detectLanguage_string, EA, EB. reflexivity.
  - intros text w a b Hpoa Hw Hne Hsub HA HB.
    rewrite (Hits_countIncluded _ _ _ HA), (Hits_countIncluded _ _ _ HB).
    assert (Hinc : includes (toLowerCase text) w = true).
    { by apply listed_included. }
    assert (Htwo : forall words, "poa" ∈ words -> w ∈ words ->
                     2 <= countIncluded words (toLowerCase text)).
    { intros words Hp Hin. apply (countIncluded_ge _ _ ["poa"; w]).
      - apply NoDup_cons. split; [|apply NoDup_singleton].
        intros Heq%list_elem_of_singleton. by apply Hne.
      - intros v Hv. apply elem_of_cons in Hv as [->| ->%list_elem_of_singleton].
        + split; [done | by apply poa_included].
        + done. }
    assert (Hge : 3 <= countIncluded swahiliWords (toLowerCase text)
                       + countIncluded shengWords (toLowerCase text)).
    { apply elem_of_app in Hw as [Hw|Hw].
      - pose proof (Htwo _ HinA Hw). pose proof (Hone text _ Hpoa HinB). lia.
      - pose proof (Htwo _ HinB Hw). pose proof (Hone text _ Hpoa HinA). lia. }
    split; [done|].
    rewrite detectLanguage_string. cbv zeta.
    destruct (Nat.eqb_spec (countIncluded swahiliWords (toLowerCase text)
                            + countIncluded shengWords (toLowerCase text)) 0); [lia|].
    destruct (Nat.ltb_spec (countIncluded swahiliWords (toLowerCase text)
                            + countIncluded shengWords (toLowerCase text)) 3); [lia|done].
Qed.

End Poa.

Section PoaExamples.

#[local] Existing Instance exampleRuntime.

Lemma poa_counts_twice_witness :
  detectLanguage (JSString "poa") = Normal "mixed" /\
  detectLanguage (JSString "niko poa") = Normal "swahili".
Proof.
  destruct poa_counts_twice as (_ & _ & Hmixed & Hswahili).
  split.
  - apply Hmixed.
    + by exists "", "".
    + intros w Hw Hne Hsub. apply includes_spec in Hsub.
      apply list_elem_of_In in Hw. simpl in Hw.
      repeat (destruct Hw as [<-|Hw]; [first [discriminate Hsub | by apply Hne]|]).
      done.
  - apply (Hswahili "niko poa" "niko" 2 1).
    + by exists "niko ", "".
    + apply list_elem_of_In. simpl. tauto.
    + discriminate.
    + by exists "", " poa".
    + exact (countIncluded_Hits (toLowerCase "niko poa") swahiliWords).
    + exact (countIncluded_Hits (toLowerCase "niko poa") shengWords).
Defined.

End PoaExamples.

(* ===================================================================== *)
(** ** The reply clean-up: what is removed                               *)
(* ===================================================================== *)

Section CleanUp.

Implicit Types (s m pre post rest p : string) (c d : ascii) (removed : list bool).

Lemma replaceFrom_erase skip s : replaceFrom skip s = erase (removedFrom skip s) s.
Proof.
  revert skip. induction s as [|c s IH]; intros skip; [done|].
  simpl. destruct skip as [|k]; [|apply IH].
  destruct (matchAt (String c s)); [apply IH | by rewrite IH].
Qed.

Lemma length_removedFrom skip s : length (removedFrom skip s) = String.length s.
Proof.
  revert skip. induction s as [|c s IH]; intros skip; [done|].
  simpl. destruct skip as [|k]; [|simpl; by rewrite IH].
  destruct (matchAt (String c s)); simpl; by rewrite IH.
Qed.

Lemma eqb_ci_spec c d : eqb_ci c d = true <-> lower_char c = lower_char d.
Proof. unfold eqb_ci. apply Ascii.eqb_eq. Qed.

Lemma lower_char_idem c : lower_char (lower_char c) = lower_char c.
Proof. destruct c as [[] [] [] [] [] [] [] []]; reflexivity. Qed.

Lemma lowerAscii_idem s : lowerAscii (lowerAscii s) = lowerAscii s.
Proof. induction s as [|c s IH]; simpl; [done | by rewrite lower_char_idem, IH]. Qed.

Lemma startsWith_ci_spec s p :
  startsWith_ci s p = true <->
  exists m rest, s = m +:+ rest /\ lowerAscii m = lowerAscii p.
Proof.
  revert s. induction p as [|d p IH]; intros s; simpl.
  - split; [intros _; by exists "", s | done].
  - destruct s as [|c s].
    + split; [done|]. intros [[|c m] [rest [H1 H2]]]; discriminate.
    + rewrite andb_true_iff, eqb_ci_spec, IH. split.
      * intros [Hc [m [rest [-> Hm]]]].
        exists (String c m), rest. simpl. by rewrite Hc, Hm.
      * intros [[|c' m] [rest [H1 H2]]]; [discriminate|].
        simpl in H1, H2. injection H1 as -> ->. injection H2 as Hc Hm. eauto.
Qed.

Lemma matchAt_Some s p :
  matchAt s = Some p ->
  exists m rest, s = m +:+ rest /\ isDisclaimer m /\ String.length m = String.length p.
Proof.
  unfold matchAt. intros H. apply find_some in H as [Hin Hp].
  apply startsWith_ci_spec in Hp as [m [rest [-> Hm]]].
  assert (Hlow : lowerAscii p = p).
  { simpl in Hin. destruct Hin as [<-|[<-|[]]]; reflexivity. }
  exists m, rest. split; [done|]. split.
  - unfold isDisclaimer. rewrite Hm, Hlow. by apply list_elem_of_In.
  - by rewrite <- (lowerAscii_length m), Hm, Hlow.
Qed.

Lemma matchAt_None s m rest : matchAt s = None -> s = m +:+ rest -> ~ isDisclaimer m.
Proof.
  unfold matchAt, isDisclaimer. intros H -> Hm.
  apply list_elem_of_In in Hm.
  pose proof (find_none _ _ H _ Hm) as Hf. simpl in Hf.
  assert (Ht : startsWith_ci (m +:+ rest) (lowerAscii m) = true).
  { apply startsWith_ci_spec. exists m, rest. by rewrite lowerAscii_idem. }
  by rewrite Ht in Hf.
Qed.

End CleanUp.

Section Scan.

Implicit Types (s m pre post rest p : string) (c d : ascii) (removed : list bool).

Lemma isDisclaimer_lengths m :
  isDisclaimer m -> String.length m = 8 \/ String.length m = 14.
Proof.
  unfold isDisclaimer. intros H. rewrite <- lowerAscii_length.
  apply list_elem_of_In in H. simpl in H.
  destruct H as [<-|[<-|[]]]; simpl; auto.
Qed.

Lemma isDisclaimer_length m : isDisclaimer m -> 1 <= String.length m.
Proof. intros H. destruct (isDisclaimer_lengths m H); lia. Qed.

Lemma Occurrence_cons c s pre m post :
  Occurrence s pre m post -> Occurrence (String c s) (String c pre) m post.
Proof. intros [-> Hm]. by split. Qed.

Lemma Occurrence_inv c s pre m post :
  Occurrence (String c s) pre m post ->
  (pre = "" /\ String c s = m +:+ post) \/
  (exists pre0, pre = String c pre0 /\ Occurrence s pre0 m post).
Proof.
  intros [H Hm]. destruct pre as [|c' pre0].
  - by left.
  - right. simpl in H. injection H as <- ->. by exists pre0.
Qed.

Lemma Occurrence_bound s pre m post :
  Occurrence s pre m post -> String.length pre + String.length m <= String.length s.
Proof. intros [-> _]. rewrite !length_append. lia. Qed.

(** The characters of the match being passed are removed. *)
Lemma removedFrom_skip skip s i :
  i < skip -> i < String.length s -> removedFrom skip s !! i = Some true.
Proof.
  revert skip i. induction s as [|c s IH]; intros skip i Hi Hlen; simpl in *; [lia|].
  destruct skip as [|k]; [lia|].
  destruct i as [|i]; [done|]. simpl. apply IH; lia.
Qed.

(** Whatever is removed lies in an occurrence that is removed whole, or
    in the match being passed. *)
Lemma removedFrom_sound skip s i :
  removedFrom skip s !! i = Some true ->
  i < skip \/
  exists pre m post,
    Occurrence s pre m post /\ within pre m i /\
    forall k, within pre m k -> removedFrom skip s !! k = Some true.
Proof.
  revert skip i. induction s as [|c s IH]; intros skip i H; [done|].
  assert (Hshift : forall skip' b,
            (exists pre m post,
               Occurrence s pre m post /\ within pre m (pred i) /\
               forall k, within pre m k -> removedFrom skip' s !! k = Some true) ->
            0 < i ->
            exists pre m post,
              Occurrence (String c s) pre m post /\ within pre m i /\
              forall k, within pre m k ->
                        (b :: removedFrom skip' s) !! k = Some true).
  { intros skip' b (pre & m & post & Hocc & Hin & Hall) Hi.
    exists (String c pre), m, post. split; [by apply Occurrence_cons|].
    unfold within in *. simpl. split; [lia|].
    intros [|k] Hk; [lia|]. simpl. apply Hall. lia. }
  simpl in H. destruct skip as [|k].
  - destruct (matchAt (String c s)) as [p|] eqn:Hmatch.
    + right. destruct (matchAt_Some _ _ Hmatch) as (m & rest & Hs & Hm & Hlen).
      assert (Hwhole : forall j, within "" m j ->
                removedFrom 0 (String c s) !! j = Some true).
      { intros [|j] [_ Hj]; simpl; rewrite Hmatch; [done|]. simpl in *.
        apply removedFrom_skip; [lia|].
        assert (String.length (String c s) = String.length m + String.length rest)
          by (by rewrite Hs, length_append).
        simpl in *. lia. }
      destruct i as [|i].
      * exists "", m, rest. split; [by split|]. split; [|done].
        pose proof (isDisclaimer_length _ Hm). unfold within. simpl. lia.
      * simpl in H. destruct (IH _ _ H) as [Hi|Hocc].
        -- exists "", m, rest. split; [by split|]. split; [|done].
           unfold within. simpl. lia.
        -- simpl. rewrite Hmatch. apply (Hshift _ true); [done | lia].
    + right. destruct i as [|i]; [done|]. simpl in H.
      destruct (IH _ _ H) as [Hi|Hocc]; [lia|].
      simpl. rewrite Hmatch. apply (Hshift _ false); [done | lia].
  - destruct i as [|i]; [left; lia|]. simpl in H.
    destruct (IH _ _ H) as [Hi|Hocc]; [left; lia|].
    right. simpl. apply (Hshift _ true); [done | lia].
Qed.

(** The first character of every occurrence is removed. *)
Lemma removedFrom_complete skip s pre m post :
  Occurrence s pre m post ->
  removedFrom skip s !! String.length pre = Some true.
Proof.
  revert skip pre. induction s as [|c s IH]; intros skip pre Hocc.
  - pose proof (Occurrence_bound _ _ _ _ Hocc) as Hb.
    pose proof (isDisclaimer_length m (proj2 Hocc)). simpl in Hb. lia.
  - destruct (Occurrence_inv _ _ _ _ _ Hocc) as [[-> Hs]|(pre0 & -> & Hocc0)].
    + simpl. destruct skip as [|k]; [|done].
      destruct (matchAt (String c s)) eqn:Hmatch; [done|].
      destruct (matchAt_None _ _ _ Hmatch Hs (proj2 Hocc)).
    + simpl. destruct skip as [|k]; [|by apply IH].
      destruct (matchAt (String c s)); by apply IH.
Qed.

(** Two occurrences that start at the same place have the same length:
    the phrases start with different letters. *)
Lemma Occurrence_same_start s pre1 m1 post1 pre2 m2 post2 :
  Occurrence s pre1 m1 post1 -> Occurrence s pre2 m2 post2 ->
  String.length pre1 = String.length pre2 ->
  String.length m1 = String.length m2.
Proof.
  intros [H1 Hm1] [H2 Hm2] Hlen.
  assert (Htail : m1 +:+ post1 = m2 +:+ post2).
  { subst s. clear Hm1 Hm2. revert pre2 H2 Hlen.
    induction pre1 as [|c pre1 IH]; intros [|d pre2] H2 Hlen; simpl in *;
      try done; try lia.
    injection H2 as _ H2. apply (IH pre2); [done | lia]. }
  unfold isDisclaimer in Hm1, Hm2.
  rewrite <- (lowerAscii_length m1), <- (lowerAscii_length m2).
  apply list_elem_of_In in Hm1, Hm2. simpl in Hm1, Hm2.
  destruct m1 as [|c1 m1], m2 as [|c2 m2];
    try (destruct Hm1 as [Hm1|[Hm1|[]]]; discriminate Hm1);
    try (destruct Hm2 as [Hm2|[Hm2|[]]]; discriminate Hm2).
  simpl in Htail. injection Htail as <- _.
  destruct Hm1 as [Hm1|[Hm1|[]]], Hm2 as [Hm2|[Hm2|[]]];
    rewrite <- Hm1, <- Hm2; try reflexivity;
    simpl in Hm1, Hm2; congruence.
Qed.

End Scan.

Section CleanUpClaims.

Implicit Types (reply s m pre post : string) (removed : list bool).

Lemma removedFrom_ScanRemoves reply : ScanRemoves reply (removedFrom 0 reply).
Proof.
  split.
  - intros i Hi. destruct (removedFrom_sound 0 reply i Hi) as [?|H]; [lia | done].
  - intros pre m post Hocc.
    pose proof (removedFrom_complete 0 _ _ _ _ Hocc) as Hfirst.
    destruct (removedFrom_sound 0 reply _ Hfirst) as [?|H]; [lia|].
    destruct H as (pre' & m' & post' & Hocc' & [Hlo Hhi] & Hall).
    destruct (decide (String.length pre' = String.length pre)) as [Heq|Hne].
    + left. intros k [Hk1 Hk2]. apply Hall.
      pose proof (Occurrence_same_start _ _ _ _ _ _ _ Hocc' Hocc Heq).
      unfold within. lia.
    + right. exists pre', m', post'. repeat (split; [done || lia|]). done.
Qed.

Lemma NoOverlap_small reply : String.length reply <= 8 -> NoOverlap reply.
Proof.
  intros Hlen pre1 m1 post1 pre2 m2 post2 H1 H2 Hlt.
  pose proof (Occurrence_bound _ _ _ _ H2).
  destruct (isDisclaimer_lengths m2 (proj2 H2)); lia.
Qed.

(** C7 (amended). For every reply the clean-up removes whole occurrences
    of "as an ai" and "language model" (letter case ignored) and nothing
    else, the other characters staying in their order. It scans once from
    left to right: an occurrence is removed unless it starts inside an
    occurrence that is removed; so when no two occurrences of the reply
    overlap, every occurrence is removed. "As an AI language model, ..."
    loses both phrases and keeps the text around them. *)
Theorem removeDisclaimers_removes reply :
  (exists removed,
     length removed = String.length reply /\
     removeDisclaimers reply = erase removed reply /\
     ScanRemoves reply removed) /\
  (NoOverlap reply -> RemovesEveryOccurrence reply (removeDisclaimers reply)) /\
  removeDisclaimers "Sure. As an AI language model, I like films."
    = "Sure.  , I like films.".
Proof.
  pose proof (removedFrom_ScanRemoves reply) as Hscan.
  split; [|split].
  - exists (removedFrom 0 reply).
    split; [apply length_removedFrom|]. split; [apply replaceFrom_erase | done].
  - intros Hno. exists (removedFrom 0 reply).
    split; [apply length_removedFrom|]. split; [apply replaceFrom_erase|].
    destruct Hscan as [Hsound Hcomplete]. intros i Hi. split.
    + intros H. destruct (Hsound i H) as (pre & m & post & Hocc & Hin & _).
      by exists pre, m, post.
    + intros (pre & m & post & Hocc & Hin).
      destruct (Hcomplete _ _ _ Hocc) as [Hall|H]; [by apply Hall|].
      destruct H as (pre' & m' & post' & Hocc' & [Hlo Hhi] & _).
      pose proof (Hno _ _ _ _ _ _ Hocc' Hocc Hlo). lia.
  - reflexivity.
Qed.

Lemma removeDisclaimers_removes_witness :
  NoOverlap "As an AI" /\
  RemovesEveryOccurrence "As an AI" "".
Proof.
  assert (H : NoOverlap "As an AI") by (apply NoOverlap_small; simpl; lia).
  split; [exact H|].
  exact (proj1 (proj2 (removeDisclaimers_removes "As an AI")) H).
Defined.

(** C7 as the specification states it fails where two occurrences
    overlap: "language model" ends with the letter it starts with, and of
    two occurrences that share this letter only the first is removed. Nor
    is the result scanned again: removing a phrase can bring the pieces
    of another one together. *)
Lemma removeDisclaimers_not_every_occurrence :
  ~ RemovesEveryOccurrence "language modelanguage model"
      (removeDisclaimers "language modelanguage model") /\
  removeDisclaimers "language modelanguage model" = "anguage model" /\
  removeDisclaimers "as an as an aiai" = "as an ai".
Proof.
  split; [|split; reflexivity].
  intros (removed & Hlen & Hout & Hcov).
  assert (Hall : forall i, i < 27 -> removed !! i = Some true).
  { intros i Hi. apply Hcov; [simpl; lia|].
    destruct (decide (i < 14)).
    - exists "", "language model", "anguage model".
      split; [split; [reflexivity | apply list_elem_of_In; simpl; tauto]|].
      unfold within. simpl. lia.
    - exists "language mode", "language model", "".
      split; [split; [reflexivity | apply list_elem_of_In; simpl; tauto]|].
      unfold within. simpl. lia. }
  assert (Hrem : removed = replicate 27 true).
  { apply list_eq. intros i. destruct (decide (i < 27)).
    - rewrite Hall by done. symmetry. by apply lookup_replicate_2.
    - rewrite !lookup_ge_None_2; [done | rewrite length_replicate; lia |].
      rewrite Hlen. simpl. lia. }
  subst removed. vm_compute in Hout. discriminate.
Qed.

End CleanUpClaims.

(* ===================================================================== *)
(** ** The history limit: what is kept                                   *)
(* ===================================================================== *)

Section Truncation.

Context {A : Type}.
Implicit Types (conversation older recent : list A).

Lemma slice_last conversation :
  19 <= length conversation ->
  slice (-19) conversation = drop (length conversation - 19) conversation.
Proof.
  intros H. unfold slice. simpl.
  replace (Z.to_nat (Z.max (Z.of_nat (length conversation) + -19) 0))
    with (length conversation - 19) by lia.
  done.
Qed.

Lemma slice_fmap {B} (f : A -> B) start conversation :
  f <$> slice start conversation = slice start (f <$> conversation).
Proof. unfold slice. by rewrite length_fmap, fmap_drop. Qed.

Lemma truncateHistory_fmap {B} (f : A -> B) conversation :
  f <$> truncateHistory conversation = truncateHistory (f <$> conversation).
Proof.
  unfold truncateHistory. rewrite length_fmap, <- slice_fmap.
  destruct (20 <? length conversation)%nat; [|done].
  by destruct conversation as [|x xs].
Qed.

Lemma truncateHistory_short conversation :
  length conversation <= 20 -> truncateHistory conversation = conversation.
Proof.
  intros H. unfold truncateHistory.
  by destruct (Nat.ltb_spec 20 (length conversation)); [lia|].
Qed.

Lemma truncateHistory_long conversation :
  20 < length conversation ->
  exists systemMessage older recent,
    conversation = systemMessage :: older ++ recent /\
    length recent = 19 /\
    truncateHistory conversation = systemMessage :: recent.
Proof.
  intros H. unfold truncateHistory.
  destruct (Nat.ltb_spec 20 (length conversation)); [|lia].
  rewrite slice_last by lia.
  destruct conversation as [|x xs]; [simpl in H; lia|]. simpl in *.
  replace (length xs - 18) with (S (length xs - 19)) by lia. simpl.
  exists x, (take (length xs - 19) xs), (drop (length xs - 19) xs).
  split; [by rewrite take_drop|]. split; [|done].
  rewrite length_drop. lia.
Qed.

(** Turn 0 stays turn 0. *)
Lemma truncateHistory_head conversation :
  head (truncateHistory conversation) = head conversation.
Proof.
  destruct (decide (length conversation <= 20)) as [H|H].
  - by rewrite truncateHistory_short.
  - destruct (truncateHistory_long conversation) as (x & o & r & -> & _ & ->); [lia|done].
Qed.

Lemma truncateHistory_length conversation :
  length (truncateHistory conversation) = Nat.min (length conversation) 20.
Proof.
  destruct (decide (length conversation <= 20)) as [H|H].
  - rewrite truncateHistory_short by done. lia.
  - destruct (truncateHistory_long conversation) as (x & o & r & E & Hr & ->); [lia|].
    simpl. lia.
Qed.

End Truncation.
(** The history limit on a list: of more than 20 turns it leaves exactly
    20, turn 0 as it is and then the last 19 turns in their order; 20
    turns or fewer are left as they are. *)
Theorem truncateHistory_keeps {A} (conversation : list A) :
  (20 < length conversation ->
     exists systemMessage older recent,
       conversation = systemMessage :: older ++ recent /\
       length recent = 19 /\
       truncateHistory conversation = systemMessage :: recent /\
       length (truncateHistory conversation) = 20) /\
  (length conversation <= 20 -> truncateHistory conversation = conversation).
Proof.
  split.
  - intros H.
    destruct (truncateHistory_long conversation H) as (x & o & r & E & Hr & Ht).
    exists x, o, r. repeat (split; [done|]). rewrite Ht. simpl. lia.
  - apply truncateHistory_short.
Qed.

Lemma truncateHistory_keeps_witness :
  truncateHistory (seq 0 22) = 0 :: seq 3 19 /\
  truncateHistory (seq 0 20) = seq 0 20.
Proof.
  destruct (truncateHistory_keeps (seq 0 22)) as [Hlong _].
  destruct (truncateHistory_keeps (seq 0 20)) as [_ Hshort].
  split.
  - destruct Hlong as (x & o & r & E & Hr & Ht & _); [simpl; lia|]. reflexivity.
  - apply Hshort. simpl. lia.
Defined.
(* ===================================================================== *)
(** ** Objects, their JSON form, and paths                               *)
(* ===================================================================== *)

Section Objects.

Implicit Types (k key : string) (v x : JSValue) (props : list (string * JSValue)).

Lemma Normal_inj {A} (a b : A) : Normal a = Normal b -> a = b.
Proof. by intros [= ->]. Qed.

Lemma lookupProp_setProp_eq key v props : lookupProp key (setProp key v props) = v.
Proof.
  induction props as [|[k x] props IH]; simpl.
  - by rewrite String.eqb_refl.
  - destruct (String.eqb key k) eqn:E; simpl; by rewrite E.
Qed.

Lemma lookupProp_setProp_ne key k v props :
  key <> k -> lookupProp key (setProp k v props) = lookupProp key props.
Proof.
  intros Hne. induction props as [|[k' x] props IH]; simpl.
  - by destruct (String.eqb_spec key k).
  - destruct (String.eqb_spec k k') as [<-|Hk]; simpl.
    + by destruct (String.eqb_spec key k).
    + by rewrite IH.
Qed.

(** Setting a property to the value it has changes nothing. *)
Lemma setProp_same key v props :
  lookupProp key props = v -> v <> JSUndefined -> setProp key v props = props.
Proof.
  intros H Hv. induction props as [|[k x] props IH]; simpl in *; [congruence|].
  destruct (String.eqb_spec key k) as [->|Hne]; [by rewrite H|].
  by rewrite IH.
Qed.

Lemma recordOf_Some v props turns :
  recordOf v = Some (props, turns) ->
  v = JSObject props /\ lookupProp "conversation" props = JSArray turns.
Proof.
  unfold recordOf. destruct v as [| | | | | |ps]; try done.
  destruct (lookupProp "conversation" ps) eqn:E; try done.
  by intros [= <- <-].
Qed.

Lemma recordOf_object props turns :
  lookupProp "conversation" props = JSArray turns ->
  recordOf (JSObject props) = Some (props, turns).
Proof. intros H. unfold recordOf. by rewrite H. Qed.

Lemma conversationOf_recordOf v props turns :
  recordOf v = Some (props, turns) -> conversationOf v = turns.
Proof.
  intros [-> H]%recordOf_Some. unfold conversationOf. simpl. by rewrite H.
Qed.

Lemma conversationOf_writtenRecord props sent cleanText :
  conversationOf (writtenRecord props sent cleanText)
  = truncateHistory (sent ++ [mkTurn "assistant" cleanText]).
Proof.
  unfold conversationOf, writtenRecord. simpl. by rewrite lookupProp_setProp_eq.
Qed.

Lemma recordOf_writtenRecord props sent cleanText :
  recordOf (writtenRecord props sent cleanText)
  = Some (setProp "conversation"
            (JSArray (truncateHistory (sent ++ [mkTurn "assistant" cleanText]))) props,
          truncateHistory (sent ++ [mkTurn "assistant" cleanText])).
Proof. apply recordOf_object, lookupProp_setProp_eq. Qed.

Lemma jsonValue_object props : jsonValue (JSObject props) = JSObject (jsonProps props).
Proof. reflexivity. Qed.

Lemma jsonProps_cons k x props :
  jsonProps ((k, x) :: props) =
    match x with
    | JSUndefined => jsonProps props
    | _ => (k, jsonValue x) :: jsonProps props
    end.
Proof. by destruct x. Qed.

(** A property that holds a value is there in the JSON form, with the
    JSON form of the value. *)
Lemma lookupProp_jsonProps key v props :
  lookupProp key props = v -> v <> JSUndefined ->
  lookupProp key (jsonProps props) = jsonValue v.
Proof.
  intros H Hv. induction props as [|[k x] props IH]; simpl in H; [congruence|].
  rewrite jsonProps_cons.
  destruct (String.eqb_spec key k) as [->|Hne].
  - subst x. destruct v; try done; simpl; by rewrite String.eqb_refl.
  - destruct x; try (by apply IH); simpl;
      destruct (String.eqb_spec key k); try done; by apply IH.
Qed.

Lemma recordOf_jsonValue v props turns :
  recordOf v = Some (props, turns) ->
  recordOf (jsonValue v) = Some (jsonProps props, jsonValue <$> turns).
Proof.
  intros [-> H]%recordOf_Some. rewrite jsonValue_object.
  apply recordOf_object. by rewrite (lookupProp_jsonProps _ _ _ H).
Qed.

Lemma getProp_jsonValue_string t key s :
  getProp t key = JSString s -> getProp (jsonValue t) key = JSString s.
Proof.
  destruct t as [| | | | | |props]; try done. simpl getProp at 1. intros H.
  rewrite jsonValue_object. simpl. by rewrite (lookupProp_jsonProps _ _ _ H).
Qed.

End Objects.

Section JsonForm.

Lemma jsonProps_cons_json k x props :
  jsonProps ((k, jsonValue x) :: props) = (k, jsonValue (jsonValue x)) :: jsonProps props.
Proof.
  rewrite jsonProps_cons. destruct x as [| |b|y|s|elems|ps]; try reflexivity.
  by destruct y.
Qed.

(** The JSON form of a value is its own JSON form: what was read from a
    file is written back as it is. *)
Lemma jsonValue_idempotent v : jsonValue (jsonValue v) = jsonValue v.
Proof.
  induction v as [| |b|x|s|elems IH|props IH] using JSValue_nested_ind;
    try reflexivity.
  - by destruct x.
  - simpl. f_equal. induction IH as [|x rest Hx _ IHrest]; simpl; [done|].
    by rewrite Hx, IHrest.
  - rewrite !jsonValue_object. f_equal.
    induction IH as [|[k x] rest Hx _ IHrest]; [done|].
    simpl in Hx.
    assert (E : x = JSUndefined \/
                jsonProps ((k, x) :: rest) = (k, jsonValue x) :: jsonProps rest)
      by (rewrite jsonProps_cons; destruct x; auto).
    destruct E as [->|E]; [exact IHrest|].
    by rewrite E, jsonProps_cons_json, Hx, IHrest.
Qed.

End JsonForm.

Section Paths.

(** The memory file of the user "default". *)
Lemma fileName_default : fileName "default" = "/tmp/memory/memory_default.json".
Proof. reflexivity. Qed.

(** A user id that climbs out of its directory names the file of another
    user. *)
Lemma fileName_normalised :
  fileName "x/../memory_default" = fileName "default".
Proof. reflexivity. Qed.

Lemma filePath_string {rt : Runtime} name : filePath (JSString name) = Normal (fileName name).
Proof. reflexivity. Qed.

Lemma filePath_Normal {rt : Runtime} uid path :
  filePath uid = Normal path -> logUserId uid = Normal tt.
Proof.
  unfold filePath, logUserId. by destruct (ToString uid).
Qed.

End Paths.

(* ===================================================================== *)
(** ** One POST request, step by step                                    *)
(* ===================================================================== *)

Section Steps.

Context {rt : Runtime}.
Implicit Types (h ts turns : list JSValue) (fs : gmap string FileContent)
  (ps : list (list JSValue)) (ws : list (string * JSValue)).

Lemma bind_run {A B} (m : M A) (k : A -> M B) sys :
  (m ≫= k) sys =
    match m sys with
    | (Normal a, sys') => k a sys'
    | (Throw e, sys') => (Throw e, sys')
    end.
Proof. reflexivity. Qed.

Lemma allocAll_run ts h fs ps ws :
  allocAll ts (mkSys h fs ps ws) =
    (Normal (seq (length h) (length ts)), mkSys (h ++ ts) fs ps ws).
Proof.
  revert h. induction ts as [|t ts IH]; intros h; simpl.
  - by rewrite app_nil_r.
  - rewrite bind_run. simpl. rewrite bind_run, IH. simpl.
    rewrite length_app, <- app_assoc. simpl.
    by replace (length h + 1) with (S (length h)) by lia.
Qed.

Lemma lookup_total_seq h : (fun l => h !!! l) <$> seq 0 (length h) = h.
Proof.
  apply list_eq. intros i. rewrite list_lookup_fmap.
  destruct (decide (i < length h)) as [Hi|Hi].
  - rewrite lookup_seq_lt by done. simpl.
    by rewrite list_lookup_lookup_total_lt.
  - rewrite lookup_seq_ge by lia. simpl. symmetry. apply lookup_ge_None. lia.
Qed.

Lemma hold_run v fs :
  hold v (mkSys [] fs [] []) =
    match recordOf v with
    | Some (props, turns) =>
        (Normal (WithConversation (mkMemory props (seq 0 (length turns)))),
         mkSys turns fs [] [])
    | None => (Normal (Other v), mkSys [] fs [] [])
    end.
Proof.
  unfold hold. destruct (recordOf v) as [[props turns]|]; [|reflexivity].
  rewrite bind_run, allocAll_run. reflexivity.
Qed.

Lemma loadMemory_run uid path fs :
  filePath uid = Normal path ->
  loadMemory uid (mkSys [] fs [] []) = hold (storedValue fs path uid) (mkSys [] fs [] []).
Proof.
  intros Hpath. unfold loadMemory. rewrite bind_run. unfold liftC. rewrite Hpath.
  unfold readMemory, storedValue. simpl.
  by destruct (fs !! path) as [[v|]|].
Qed.

Lemma withInstruction_length instruction turns sent :
  withInstruction instruction turns = Normal sent -> length sent = length turns.
Proof.
  destruct turns as [|t rest]; simpl; [by intros [= <-]|].
  destruct (isSystem t); [|by intros [= <-]].
  destruct (appended t _); simpl; [|done]. by intros [= <-].
Qed.

Lemma addInstruction_run instruction turns fs ps ws :
  turns <> [] ->
  addInstruction (seq 0 (length turns)) instruction (mkSys turns fs ps ws) =
    match withInstruction instruction turns with
    | Normal sent => (Normal tt, mkSys sent fs ps ws)
    | Throw error => (Throw error, mkSys turns fs ps ws)
    end.
Proof.
  intros Hne. destruct turns as [|t rest]; [done|].
  unfold addInstruction. simpl. rewrite bind_run. simpl.
  destruct (isSystem t); [|reflexivity].
  rewrite bind_run. unfold liftC.
  destruct (appended t _); reflexivity.
Qed.

Lemma trim_nonempty p : trim p <> "" -> p <> "".
Proof. by intros H ->. Qed.

Lemma checkPrompt_string p : trim p <> "" -> checkPrompt (JSString p) = Normal (Some p).
Proof.
  intros Htrim. unfold checkPrompt. simpl truthy.
  destruct (String.eqb_spec p ""); [by destruct (trim_nonempty p Htrim)|].
  simpl. by destruct (String.eqb_spec (trim p) "").
Qed.

(** Loading the memory, the two assignments and the push of the user
    turn, from the files alone. *)
Lemma open_run uid path fs project p :
  filePath uid = Normal path ->
  (memory ← loadMemory uid;
   memory ← liftC (if truthy project
                   then setField "lastProject" project memory
                   else Normal memory);
   memory ← liftC (setField "lastTask" (JSString p) memory);
   pushTurn memory (mkTurn "user" p)) (mkSys [] fs [] []) =
    match opened project p (storedValue fs path uid) with
    | Normal (props, turns) =>
        (Normal (mkMemory props (seq 0 (length turns))), mkSys turns fs [] [])
    | Throw error => (Throw error, mkSys [] fs [] [])
    end.
Proof.
  intros Hpath. rewrite bind_run, (loadMemory_run _ _ _ Hpath), hold_run.
  unfold opened.
  destruct (recordOf (storedValue fs path uid)) as [[props turns]|] eqn:Hrec.
  - destruct (truthy project); rewrite bind_run; unfold liftC, setField;
      cbn [fields conversation]; rewrite bind_run; cbn [fields conversation];
      unfold pushTurn; rewrite bind_run; unfold alloc; cbn [heap files posts writes];
      rewrite length_app, seq_app; reflexivity.
  - set (v := storedValue fs path uid).
    destruct (truthy project).
    + rewrite bind_run. unfold liftC, setField.
      destruct (setFieldOf "lastProject" project v) as [v1|e]; [|reflexivity].
      cbn [cbind]. rewrite bind_run.
      destruct (setFieldOf "lastTask" (JSString p) v1) as [v2|e]; reflexivity.
    + rewrite bind_run. unfold liftC, setField. rewrite bind_run.
      cbn [cbind].
      destruct (setFieldOf "lastTask" (JSString p) v) as [v2|e]; reflexivity.
Qed.

Lemma opened_nonempty project p v props turns :
  opened project p v = Normal (props, turns) -> turns <> [].
Proof.
  unfold opened. destruct (recordOf v) as [[ps ts]|].
  - intros [= _ <-]. by destruct ts.
  - destruct (truthy project).
    + destruct (setFieldOf "lastProject" project v); [|done]. simpl.
      by destruct (setFieldOf "lastTask" (JSString p) a).
    + simpl. by destruct (setFieldOf "lastTask" (JSString p) v).
Qed.

End Steps.

Section HandlerRuns.

Context {rt : Runtime}.
Implicit Types (w : World) (req : Request) (fs : gmap string FileContent).

Lemma handler_post w req fs :
  method req = "POST" ->
  handler w req fs =
    let '(result, sys) := tryBlock w req (mkSys [] fs [] []) in
    mkOutcome (match result with Normal r => r | Throw error => catchBlock w error end)
              (files sys) (posts sys) (writes sys).
Proof. intros H. unfold handler. rewrite H. reflexivity. Qed.

Lemma handler_prompt w req fs body p project uid path lang :
  method req = "POST" ->
  parseBody w req = Some body ->
  destructure body = Normal (JSString p, project, uid) ->
  filePath uid = Normal path ->
  trim p <> "" ->
  detectLanguage (JSString p) = Normal lang ->
  handler w req fs = promptOutcome w fs p project uid path lang.
Proof.
  intros Hm Hparse Hd Hpath Htrim Hlang.
  rewrite handler_post by done. unfold tryBlock. rewrite Hparse.
  rewrite bind_run. unfold liftC at 1. rewrite Hd. cbv beta iota.
  rewrite bind_run. unfold liftC at 1. rewrite (filePath_Normal _ _ Hpath). cbv beta iota.
  rewrite bind_run. unfold liftC at 1. simpl logPrompt. cbv beta iota.
  rewrite bind_run. unfold liftC at 1. rewrite (checkPrompt_string p Htrim). cbv beta iota.
  pose proof (open_run uid path fs project p Hpath) as Hopen.
  unfold promptOutcome, prepared.
  destruct (opened project p (storedValue fs path uid)) as [[props turns]|error] eqn:Hopened.
  - pose proof (opened_nonempty _ _ _ _ _ Hopened) as Hne.
    rewrite bind_run in Hopen. rewrite bind_run.
    destruct (loadMemory uid (mkSys [] fs [] [])) as [[loaded|e0] sys0];
      [|discriminate Hopen].
    rewrite bind_run in Hopen. rewrite bind_run.
    destruct (liftC (if truthy project then setField "lastProject" project loaded
                     else Normal loaded) sys0) as [[m1|e1] sys1];
      [|discriminate Hopen].
    rewrite bind_run in Hopen. rewrite bind_run.
    destruct (liftC (setField "lastTask" (JSString p) m1) sys1) as [[m2|e2] sys2];
      [|discriminate Hopen].
    rewrite bind_run.
    rewrite Hopen. cbn [fields conversation].
    rewrite bind_run. unfold liftC at 1. rewrite Hlang. cbv beta iota.
    rewrite bind_run, addInstruction_run by done. cbn [cbind].
    destruct (withInstruction (languageInstruction lang) turns) as [sent|error] eqn:Hsent;
      [|reflexivity].
    pose proof (withInstruction_length _ _ _ Hsent) as Hlen.
    cbn [cbind]. destruct (apiKeyMissing w); [reflexivity|].
    rewrite bind_run. unfold post at 1. cbn [heap files posts writes].
    rewrite <- Hlen, lookup_total_seq.
    destruct (axios_post w sent) as [data|error]; [|reflexivity].
    rewrite bind_run. unfold liftC at 1.
    unfold cleaned.
    destruct (logReplyLength (extractReply data)) as [[]|error]; [|reflexivity].
    cbn [cbind]. rewrite bind_run. unfold liftC at 1.
    destruct (call_replace (extractReply data)) as [cleanText|error]; [|reflexivity].
    rewrite bind_run. unfold alloc at 1. cbn [heap files posts writes].
    rewrite bind_run. unfold saveMemory. rewrite bind_run. unfold liftC at 1.
    rewrite Hpath. unfold writeMemory, stringify.
    cbn [heap files posts writes fields conversation].
    assert (Hlocs : seq 0 (length sent) ++ [length sent]
                    = seq 0 (length (sent ++ [mkTurn "assistant" cleanText])))
      by (by rewrite length_app, Nat.add_1_r, seq_S).
    rewrite truncateHistory_fmap, Hlocs, lookup_total_seq.
    rewrite !truncateHistory_length, !length_app, !length_seq.
    reflexivity.
  - rewrite bind_run in Hopen. rewrite bind_run.
    destruct (loadMemory uid (mkSys [] fs [] [])) as [[loaded|e0] sys0];
      [|by injection Hopen as -> ->].
    rewrite bind_run in Hopen. rewrite bind_run.
    destruct (liftC (if truthy project then setField "lastProject" project loaded
                     else Normal loaded) sys0) as [[m1|e1] sys1];
      [|by injection Hopen as -> ->].
    rewrite bind_run in Hopen. rewrite bind_run.
    destruct (liftC (setField "lastTask" (JSString p) m1) sys1) as [[m2|e2] sys2];
      [|by injection Hopen as -> ->].
    rewrite bind_run. by rewrite Hopen.
Qed.

End HandlerRuns.

(* ===================================================================== *)
(** ** The handler, case by case                                         *)
(* ===================================================================== *)

Section HandlerCases.

Context {rt : Runtime}.
Implicit Types (w : World) (req : Request) (fs : gmap string FileContent)
  (error : JSError).

Lemma checkPrompt_Some prompt p :
  checkPrompt prompt = Normal (Some p) -> prompt = JSString p /\ trim p <> "".
Proof.
  unfold checkPrompt. destruct (truthy prompt); [|done].
  destruct prompt; try done. simpl.
  destruct (String.eqb_spec (trim s) ""); [done|]. intros [= ->]. done.
Qed.

Lemma logUserId_Normal uid :
  logUserId uid = Normal tt -> exists path, filePath uid = Normal path.
Proof.
  unfold logUserId, filePath. destruct (ToString uid) as [name|]; [|done].
  intros _. by eexists.
Qed.

Lemma validate_Prompted w req p project uid :
  method req = "POST" ->
  validate w req = Normal (inr (p, project, uid)) ->
  exists path, Prompted w req p project uid path.
Proof.
  intros Hm. unfold validate. destruct (parseBody w req) as [body|] eqn:Hp; [|done].
  destruct (destructure body) as [[[prompt project'] uid']|] eqn:Hd; [|done]. simpl.
  destruct (logUserId uid') as [[]|] eqn:Hu; [|done]. simpl.
  destruct (logPrompt prompt); [|done]. simpl.
  destruct (checkPrompt prompt) as [[p'|]|] eqn:Hc; try done. simpl.
  intros [= -> -> ->]. apply checkPrompt_Some in Hc as [-> Htrim].
  destruct (logUserId_Normal _ Hu) as [path Hpath].
  exists path. split; [done|]. by exists body.
Qed.

(** A request that does not get past the prompt check has no effect. *)
Lemma handler_rejected w req fs :
  method req = "POST" ->
  match validate w req with
  | Normal (inl r) => handler w req fs = mkOutcome r fs [] []
  | Throw error => handler w req fs = mkOutcome (catchBlock w error) fs [] []
  | Normal (inr _) => True
  end.
Proof.
  intros Hm. unfold validate. rewrite handler_post by done. unfold tryBlock.
  destruct (parseBody w req) as [body|]; [|reflexivity].
  rewrite bind_run. unfold liftC at 1.
  destruct (destructure body) as [[[prompt project] uid]|]; [|reflexivity]. simpl.
  rewrite bind_run. unfold liftC at 1.
  destruct (logUserId uid); [|reflexivity]. simpl.
  rewrite bind_run. unfold liftC at 1.
  destruct (logPrompt prompt); [|reflexivity]. simpl.
  rewrite bind_run. unfold liftC at 1.
  destruct (checkPrompt prompt) as [[p|]|]; simpl; first [reflexivity | exact I].
Qed.

Lemma detectLanguage_total (text : JSValue) :
  exists lang, detectLanguage text = Normal lang.
Proof. apply detectLanguage_never_throws. Qed.

Lemma handler_Prompted w req fs p project uid path :
  Prompted w req p project uid path ->
  exists lang,
    detectLanguage (JSString p) = Normal lang /\
    handler w req fs = promptOutcome w fs p project uid path lang.
Proof.
  intros (Hm & body & Hp & Hd & Hpath & Ht).
  destruct (detectLanguage_total (JSString p)) as [lang Hlang].
  exists lang. split; [done|]. by eapply handler_prompt.
Qed.

(** The language of a prompt is determined. *)
Lemma handler_Prompted_lang w req fs p project uid path lang :
  Prompted w req p project uid path ->
  detectLanguage (JSString p) = Normal lang ->
  handler w req fs = promptOutcome w fs p project uid path lang.
Proof.
  intros HP Hlang. destruct (handler_Prompted w req fs _ _ _ _ HP) as (lang' & Hlang' & ->).
  by assert (lang' = lang) as -> by congruence.
Qed.

(** A request other than POST has no effect. *)
Lemma handler_other_method w req fs :
  method req <> "POST" ->
  filesAfter (handler w req fs) = fs /\
  upstreamCalls (handler w req fs) = [] /\
  fileWrites (handler w req fs) = [].
Proof.
  intros Hm. unfold handler.
  destruct (String.eqb (method req) "OPTIONS"); [done|].
  destruct (String.eqb (method req) "GET"); [done|].
  destruct (String.eqb_spec (method req) "POST"); done.
Qed.

Lemma catchBlock_status w error : status (catchBlock w error) ∈ errorStatuses.
Proof.
  unfold catchBlock, errorStatuses.
  destruct (bool_decide (response_status error = Some 401%Z));
    [apply list_elem_of_In; simpl; tauto|].
  destruct (bool_decide (response_status error = Some 429%Z));
    [apply list_elem_of_In; simpl; tauto|].
  destruct (bool_decide (code error = Some "ECONNABORTED"));
    [apply list_elem_of_In; simpl; tauto|].
  destruct (includes (message error) "ENOENT"); apply list_elem_of_In; simpl; tauto.
Qed.

Lemma catchBlock_not_200 w error : status (catchBlock w error) <> 200%Z.
Proof.
  pose proof (catchBlock_status w error) as H. intros E. rewrite E in H.
  apply list_elem_of_In in H. simpl in H. intuition discriminate.
Qed.

Lemma catchBlock_not_400 w error : status (catchBlock w error) <> 400%Z.
Proof.
  pose proof (catchBlock_status w error) as H. intros E. rewrite E in H.
  apply list_elem_of_In in H. simpl in H. intuition discriminate.
Qed.

(** An error that is no answer of the upstream API and carries no code
    gets the 500 answer. *)
Lemma catchBlock_TypeError w msg : status (catchBlock w (TypeError msg)) = 500%Z.
Proof.
  unfold catchBlock, TypeError. simpl.
  by destruct (includes msg "ENOENT").
Qed.

(** What the preparation rests on: the stored value is a record, the
    properties are its properties with the two assignments done, and the
    messages are its turns and the user turn, the instruction added. *)
Lemma prepared_Normal fs path p project uid lang props sent :
  prepared fs path p project uid lang = Normal (props, sent) ->
  exists stored turns,
    recordOf (storedValue fs path uid) = Some (stored, turns) /\
    props = setProp "lastTask" (JSString p)
              (if truthy project then setProp "lastProject" project stored else stored) /\
    withInstruction (languageInstruction lang) (turns ++ [mkTurn "user" p]) = Normal sent.
Proof.
  unfold prepared, opened.
  destruct (recordOf (storedValue fs path uid)) as [[stored turns]|].
  - simpl. destruct (withInstruction _ _) as [sent'|] eqn:Hs; [|done]. simpl.
    intros [= <- <-]. by exists stored, turns.
  - destruct (truthy project).
    + destruct (setFieldOf "lastProject" project _) as [v1|]; [|done]. simpl.
      by destruct (setFieldOf "lastTask" (JSString p) v1).
    + simpl. by destruct (setFieldOf "lastTask" (JSString p) _).
Qed.

Lemma prepared_record fs path p project uid lang stored turns sent :
  recordOf (storedValue fs path uid) = Some (stored, turns) ->
  withInstruction (languageInstruction lang) (turns ++ [mkTurn "user" p]) = Normal sent ->
  prepared fs path p project uid lang =
    Normal (setProp "lastTask" (JSString p)
              (if truthy project then setProp "lastProject" project stored else stored),
            sent).
Proof.
  intros Hrec Hsent. unfold prepared, opened. rewrite Hrec. simpl. by rewrite Hsent.
Qed.

(** The reply is cleaned exactly when it is a string. *)
Lemma cleaned_Normal (assistantReply : JSValue) cleanText :
  cleaned assistantReply = Normal cleanText <->
  call_replace assistantReply = Normal cleanText.
Proof.
  unfold cleaned. destruct assistantReply; try done. simpl.
  by destruct (ToString _).
Qed.

(** The ways a request with a usable prompt can end. *)
Lemma promptOutcome_cases w fs p project uid path lang :
  let out := promptOutcome w fs p project uid path lang in
  (exists r, out = mkOutcome r fs [] [] /\ status r <> 200%Z /\ status r <> 400%Z) \/
  (apiKeyMissing w = false /\
   exists props sent,
     prepared fs path p project uid lang = Normal (props, sent) /\
     ((exists error, out = mkOutcome (catchBlock w error) fs [sent] []) \/
      (exists data cleanText,
         axios_post w sent = Resolved data /\
         call_replace (extractReply data) = Normal cleanText /\
         out = mkOutcome
                 (replyResponse cleanText (lookupProp "lastProject" props)
                    (length (truncateHistory (sent ++ [mkTurn "assistant" cleanText]))) uid)
                 (written w path (writtenRecord props sent cleanText) fs)
                 [sent] [(path, writtenRecord props sent cleanText)]))).
Proof.
  intros out. subst out. unfold promptOutcome.
  destruct (prepared fs path p project uid lang) as [[props sent]|error].
  - destruct (apiKeyMissing w).
    + left. eexists. split; [reflexivity|]. by split.
    + right. split; [done|]. exists props, sent. split; [done|].
      destruct (axios_post w sent) as [data|error]; [|left; by exists error].
      destruct (cleaned (extractReply data)) as [cleanText|error] eqn:Hrep;
        [|left; by exists error].
      right. apply cleaned_Normal in Hrep. by exists data, cleanText.
  - left. eexists. split; [reflexivity|].
    split; [apply catchBlock_not_200 | apply catchBlock_not_400].
Qed.

(** Every request ends without any effect, or it is a POST request with a
    usable prompt. *)
Lemma handler_cases w req fs :
  (exists r, handler w req fs = mkOutcome r fs [] [] /\
             (method req = "POST" -> status r <> 200%Z)) \/
  (exists p project uid path, Prompted w req p project uid path).
Proof.
  destruct (decide (method req = "POST")) as [Hm|Hm].
  - pose proof (handler_rejected w req fs Hm) as Hrej.
    destruct (validate w req) as [[r|[[p project] uid]]|error] eqn:Hv.
    + left. exists r. split; [done|]. intros _.
      unfold validate in Hv. destruct (parseBody w req); [|by injection Hv as <-].
      destruct (destructure j) as [[[prompt pr] u]|]; [|done]. simpl in Hv.
      destruct (logUserId u); [|done]. simpl in Hv.
      destruct (logPrompt prompt); [|done]. simpl in Hv.
      destruct (checkPrompt prompt) as [[?|]|]; try done. by injection Hv as <-.
    + right. destruct (validate_Prompted _ _ _ _ _ Hm Hv) as [path HP].
      by exists p, project, uid, path.
    + left. exists (catchBlock w error). split; [done|]. intros _.
      apply catchBlock_not_200.
  - left. unfold handler.
    destruct (String.eqb (method req) "OPTIONS"); [by eexists|].
    destruct (String.eqb (method req) "GET"); [by eexists|].
    destruct (String.eqb_spec (method req) "POST"); [done | by eexists].
Qed.

(** What [written] leaves of the files. *)
Lemma written_other w path record fs other :
  other <> path -> written w path record fs !! other = fs !! other.
Proof.
  intros Hne. unfold written.
  destruct (writeFileSync w path); [|done|]; by rewrite lookup_insert_ne.
Qed.

End HandlerCases.

(* ===================================================================== *)
(** ** The system turn                                                   *)
(* ===================================================================== *)

Section SystemTurn.

Context {rt : Runtime}.
Implicit Types (w : World) (req : Request) (fs : gmap string FileContent)
  (turns : list JSValue).

Lemma systemFirst_default : systemFirst [systemTurn].
Proof. exists systemTurn, "". by rewrite append_empty_r. Qed.

Lemma recordOf_defaultMemory uid :
  recordOf (defaultMemory uid)
  = Some ([("userId", uid); ("lastProject", JSNull); ("lastTask", JSNull);
           ("conversation", JSArray [systemTurn])], [systemTurn]).
Proof. reflexivity. Qed.

Lemma systemFirst_stored fs path uid stored turns :
  recordsOk fs ->
  recordOf (storedValue fs path uid) = Some (stored, turns) ->
  systemFirst turns.
Proof.
  intros Hok. unfold storedValue.
  destruct (fs !! path) as [[v|]|] eqn:E.
  - intros Hrec. by apply (Hok _ _ _ _ E Hrec).
  - rewrite recordOf_defaultMemory. intros [= _ <-]. apply systemFirst_default.
  - rewrite recordOf_defaultMemory. intros [= _ <-]. apply systemFirst_default.
Qed.

Lemma systemFirst_app turns more : systemFirst turns -> systemFirst (turns ++ more).
Proof.
  intros (t & suffix & Hhead & Hrole & Hcontent).
  destruct turns as [|t' rest]; [done|]. by exists t, suffix.
Qed.

Lemma getProp_isSystem t : getProp t "role" = JSString "system" -> isSystem t = true.
Proof.
  intros H. unfold isSystem, optProp. destruct t; try done. by rewrite H.
Qed.

(** The instruction is appended to a system turn whose content is a
    string. *)
Lemma appended_string t props c suffix :
  t = JSObject props -> lookupProp "content" props = JSString c ->
  appended t suffix = Normal (JSObject (setProp "content" (JSString (c +:+ suffix)) props)).
Proof. intros -> H. unfold appended. simpl. by rewrite H. Qed.

Lemma withInstruction_system instruction t rest c :
  getProp t "role" = JSString "system" ->
  getProp t "content" = JSString c ->
  exists props,
    t = JSObject props /\
    withInstruction instruction (t :: rest) =
      Normal (JSObject (setProp "content" (JSString (c +:+ "

" +:+ instruction)) props) :: rest).
Proof.
  intros Hrole Hcontent. destruct t as [| | | | | |props]; try done.
  exists props. split; [done|]. simpl withInstruction.
  rewrite (getProp_isSystem _ Hrole).
  by rewrite (appended_string _ props c _ eq_refl Hcontent).
Qed.

(** The same for a content of any kind that can be converted to a
    string. *)
Lemma withInstruction_converted instruction t rest c :
  lookupProp "role" t = JSString "system" ->
  ToString (lookupProp "content" t) = Normal c ->
  withInstruction instruction (JSObject t :: rest) =
    Normal (JSObject (setProp "content" (JSString (c +:+ "

" +:+ instruction)) t) :: rest).
Proof.
  intros Hrole Hcontent. simpl withInstruction.
  rewrite (getProp_isSystem (JSObject t) Hrole).
  unfold appended. cbn [getProp]. by rewrite Hcontent.
Qed.

Lemma systemFirst_withInstruction instruction turns sent :
  systemFirst turns ->
  withInstruction instruction turns = Normal sent ->
  systemFirst sent.
Proof.
  intros (t & suffix & Hhead & Hrole & Hcontent) Hsent.
  destruct turns as [|t' rest]; [done|]. injection Hhead as ->.
  destruct (withInstruction_system instruction t rest _ Hrole Hcontent)
    as (props & -> & E).
  rewrite E in Hsent. apply Normal_inj in Hsent as <-.
  eexists _, (suffix +:+ _). split; [reflexivity|]. cbn [getProp] in *. split.
  - by rewrite lookupProp_setProp_ne.
  - by rewrite lookupProp_setProp_eq, append_assoc.
Qed.

(** With the system turn first the instruction can be added. *)
Lemma withInstruction_systemFirst instruction turns :
  systemFirst turns -> exists sent, withInstruction instruction turns = Normal sent.
Proof.
  intros (t & suffix & Hhead & Hrole & Hcontent).
  destruct turns as [|t' rest]; [done|]. injection Hhead as ->.
  destruct (withInstruction_system instruction t rest _ Hrole Hcontent) as (props & _ & E).
  by eexists.
Qed.

Lemma systemFirst_truncate turns :
  systemFirst turns -> systemFirst (truncateHistory turns).
Proof.
  intros (t & suffix & Hhead & H). exists t, suffix.
  by rewrite truncateHistory_head.
Qed.

Lemma systemFirst_jsonValue turns :
  systemFirst turns -> systemFirst (jsonValue <$> turns).
Proof.
  intros (t & suffix & Hhead & Hrole & Hcontent).
  destruct turns as [|t' rest]; [done|]. injection Hhead as ->.
  exists (jsonValue t), suffix. split; [done|].
  split; by apply getProp_jsonValue_string.
Qed.

(** The record written for a request has the system turn first, and so
    have the files afterwards. *)
Lemma promptOutcome_recordsOk w fs p project uid path lang :
  recordsOk fs ->
  recordsOk (filesAfter (promptOutcome w fs p project uid path lang)) /\
  forall file m,
    (file, m) ∈ fileWrites (promptOutcome w fs p project uid path lang) ->
    systemFirst (conversationOf m).
Proof.
  intros Hok.
  destruct (promptOutcome_cases w fs p project uid path lang)
    as [(r & -> & _)|(_ & props & sent & Hprep & [(error & ->)|(data & clean & _ & _ & ->)])];
    cbn [filesAfter fileWrites];
    try (split; [done | by intros ?? ?%elem_of_nil]).
  destruct (prepared_Normal _ _ _ _ _ _ _ _ Hprep) as (stored & turns & Hrec & _ & Hsent).
  assert (Hfirst : systemFirst (truncateHistory (sent ++ [mkTurn "assistant" clean]))).
  { apply systemFirst_truncate, systemFirst_app.
    apply (systemFirst_withInstruction _ _ _ (systemFirst_app _ _
             (systemFirst_stored _ _ _ _ _ Hok Hrec)) Hsent). }
  split.
  - unfold written. destruct (writeFileSync w path); [|done|].
    + intros file v ps ts [[_ Heq]|[_ H]]%lookup_insert_Some Hv;
        [|by apply (Hok file v ps ts)].
      assert (v = jsonValue (writtenRecord props sent clean)) as -> by congruence.
      rewrite (recordOf_jsonValue _ _ _ (recordOf_writtenRecord props sent clean)) in Hv.
      assert (ts = jsonValue <$> truncateHistory (sent ++ [mkTurn "assistant" clean]))
        as -> by congruence.
      by apply systemFirst_jsonValue.
    + intros file v ps ts [[_ [=]]|[_ H]]%lookup_insert_Some Hv.
      by apply (Hok file v ps ts).
  - intros file m [= -> ->]%list_elem_of_singleton.
    by rewrite conversationOf_writtenRecord.
Qed.

Lemma handler_recordsOk w req fs :
  recordsOk fs ->
  recordsOk (filesAfter (handler w req fs)) /\
  forall file m,
    (file, m) ∈ fileWrites (handler w req fs) -> systemFirst (conversationOf m).
Proof.
  intros Hok.
  destruct (handler_cases w req fs) as [(r & -> & _)|(p & project & uid & path & HP)].
  - split; [done | by intros ?? ?%elem_of_nil].
  - destruct (handler_Prompted w req fs _ _ _ _ HP) as (lang & _ & ->).
    by apply promptOutcome_recordsOk.
Qed.

(** Whatever the requests, the records written from files whose records
    have the system turn first (an empty directory, for one) have the
    system turn first. *)
Lemma serve_recordsOk fs (reqs : list (World * Request)) :
  recordsOk fs -> recordsOk (serve fs reqs).
Proof.
  revert fs. induction reqs as [|[w req] reqs IH]; intros fs Hok; [done|].
  simpl. apply IH. by apply handler_recordsOk.
Qed.

Lemma recordsOk_empty : recordsOk ∅.
Proof. intros path v props turns H. by rewrite lookup_empty in H. Qed.

Lemma loadMemory_new_user fs uid path :
  filePath uid = Normal path ->
  fs !! path = None ->
  loadMemory uid (mkSys [] fs [] []) =
    (Normal (WithConversation
               (mkMemory [("userId", uid); ("lastProject", JSNull); ("lastTask", JSNull);
                          ("conversation", JSArray [mkTurn "system" PERSONA_PREAMBLE])]
                         [0])),
     mkSys [mkTurn "system" PERSONA_PREAMBLE] fs [] []).
Proof.
  intros Hpath H. rewrite (loadMemory_run _ _ _ Hpath), hold_run.
  unfold storedValue. by rewrite H.
Qed.

End SystemTurn.

(* ===================================================================== *)
(** ** Requests that reach the upstream call                             *)
(* ===================================================================== *)

Section Success.

Context {rt : Runtime}.
Implicit Types (w : World) (req : Request) (fs : gmap string FileContent).

Lemma handler_success w req fs p project uid path lang props sent data cleanText :
  Prompted w req p project uid path ->
  detectLanguage (JSString p) = Normal lang ->
  prepared fs path p project uid lang = Normal (props, sent) ->
  apiKeyMissing w = false ->
  axios_post w sent = Resolved data ->
  call_replace (extractReply data) = Normal cleanText ->
  handler w req fs =
    mkOutcome
      (replyResponse cleanText (lookupProp "lastProject" props)
         (length (truncateHistory (sent ++ [mkTurn "assistant" cleanText]))) uid)
      (written w path (writtenRecord props sent cleanText) fs)
      [sent] [(path, writtenRecord props sent cleanText)].
Proof.
  intros HP Hlang Hprep Hkey Hpost Hreplace%cleaned_Normal.
  rewrite (handler_Prompted_lang w req fs _ _ _ _ _ HP Hlang).
  unfold promptOutcome. by rewrite Hprep, Hkey, Hpost, Hreplace.
Qed.

Lemma handler_upstream_failure w req fs p project uid path lang props sent error :
  Prompted w req p project uid path ->
  detectLanguage (JSString p) = Normal lang ->
  prepared fs path p project uid lang = Normal (props, sent) ->
  apiKeyMissing w = false ->
  axios_post w sent = Rejected error ->
  handler w req fs = mkOutcome (catchBlock w error) fs [sent] [].
Proof.
  intros HP Hlang Hprep Hkey Hpost.
  rewrite (handler_Prompted_lang w req fs _ _ _ _ _ HP Hlang).
  unfold promptOutcome. by rewrite Hprep, Hkey, Hpost.
Qed.

Lemma handler_no_key w req fs p project uid path lang props sent :
  Prompted w req p project uid path ->
  detectLanguage (JSString p) = Normal lang ->
  prepared fs path p project uid lang = Normal (props, sent) ->
  apiKeyMissing w = true ->
  handler w req fs = mkOutcome configurationErrorResponse fs [] [].
Proof.
  intros HP Hlang Hprep Hkey.
  rewrite (handler_Prompted_lang w req fs _ _ _ _ _ HP Hlang).
  unfold promptOutcome. by rewrite Hprep, Hkey.
Qed.

(** A request whose preparation throws is answered by the [catch] block
    and has no effect. *)
Lemma handler_unprepared w req fs p project uid path lang error :
  Prompted w req p project uid path ->
  detectLanguage (JSString p) = Normal lang ->
  prepared fs path p project uid lang = Throw error ->
  handler w req fs = mkOutcome (catchBlock w error) fs [] [].
Proof.
  intros HP Hlang Hprep.
  rewrite (handler_Prompted_lang w req fs _ _ _ _ _ HP Hlang).
  unfold promptOutcome. by rewrite Hprep.
Qed.

(** The preparation from the default memory: a new user, or a file that
    cannot be read. *)
Lemma prepared_default fs path p project uid lang :
  fs !! path = None \/ fs !! path = Some Garbage ->
  prepared fs path p project uid lang =
    Normal (setProp "lastTask" (JSString p)
              (if truthy project
               then setProp "lastProject" project
                      [("userId", uid); ("lastProject", JSNull); ("lastTask", JSNull);
                       ("conversation", JSArray [systemTurn])]
               else [("userId", uid); ("lastProject", JSNull); ("lastTask", JSNull);
                     ("conversation", JSArray [systemTurn])]),
            [mkTurn "system" (PERSONA_PREAMBLE +:+ "

" +:+ languageInstruction lang);
             mkTurn "user" p]).
Proof.
  intros Hfile.
  assert (Hrec : recordOf (storedValue fs path uid)
                 = Some ([("userId", uid); ("lastProject", JSNull); ("lastTask", JSNull);
                          ("conversation", JSArray [systemTurn])], [systemTurn]))
    by (unfold storedValue; destruct Hfile as [-> | ->]; apply recordOf_defaultMemory).
  by rewrite (prepared_record fs path p project uid lang _ _ _ Hrec eq_refl).
Qed.

End Success.

(** A concrete request carries its prompt: every step computes. *)
Ltac prompted :=
  split; [reflexivity|]; eexists;
  split; [reflexivity|]; split; [reflexivity|];
  split; [reflexivity | by vm_compute].

(* ===================================================================== *)
(** ** Claims about the handler                                          *)
(* ===================================================================== *)

Section HandlerClaims.

Context {rt : Runtime}.
Implicit Types (w : World) (req : Request) (fs : gmap string FileContent).

(** C2. When the conversation, the assistant turn appended, has more than
    20 turns, the handler replaces it with exactly 20 turns: turn 0 as it
    is, then the last 19 turns of the sequence in their order; a sequence
    of 20 turns or fewer is left as it is. [sent] are the turns of the
    outbound call: the stored turns and the user turn. *)
Theorem handler_truncates w req fs p project uid path lang props sent data cleanText :
  Prompted w req p project uid path ->
  detectLanguage (JSString p) = Normal lang ->
  prepared fs path p project uid lang = Normal (props, sent) ->
  apiKeyMissing w = false ->
  axios_post w sent = Resolved data ->
  call_replace (extractReply data) = Normal cleanText ->
  let appended := sent ++ [mkTurn "assistant" cleanText] in
  exists record,
    fileWrites (handler w req fs) = [(path, record)] /\
    (20 < length appended ->
       exists systemMessage older recent,
         appended = systemMessage :: older ++ recent /\
         length recent = 19 /\
         conversationOf record = systemMessage :: recent /\
         length (conversationOf record) = 20) /\
    (length appended <= 20 -> conversationOf record = appended).
Proof.
  intros HP Hlang Hprep Hkey Hpost Hreplace appended.
  rewrite (handler_success w req fs _ _ _ _ _ _ _ _ _ HP Hlang Hprep Hkey Hpost Hreplace).
  exists (writtenRecord props sent cleanText). split; [done|].
  rewrite conversationOf_writtenRecord. fold appended. split.
  - intros Hlong.
    destruct (truncateHistory_long appended Hlong) as (x & o & r & E & Hr & Ht).
    exists x, o, r. repeat (split; [done|]). rewrite Ht. simpl. lia.
  - apply truncateHistory_short.
Qed.

(** C3. The record made for a new user starts with the system turn that
    holds the persona preamble; and if the records among the files start
    with a system turn whose content begins with the preamble, so does
    every record a request writes, and so do the records afterwards:
    truncation keeps turn 0 in its place. *)
Theorem system_turn_stays_first w req fs :
  recordsOk fs ->
  (forall uid path, filePath uid = Normal path -> fs !! path = None ->
     loadMemory uid (mkSys [] fs [] []) =
       (Normal (WithConversation
                  (mkMemory [("userId", uid); ("lastProject", JSNull);
                             ("lastTask", JSNull);
                             ("conversation", JSArray [mkTurn "system" PERSONA_PREAMBLE])]
                            [0])),
        mkSys [mkTurn "system" PERSONA_PREAMBLE] fs [] [])) /\
  (forall path m,
     (path, m) ∈ fileWrites (handler w req fs) -> systemFirst (conversationOf m)) /\
  recordsOk (filesAfter (handler w req fs)) /\
  (forall turns : list JSValue, head (truncateHistory turns) = head turns).
Proof.
  intros Hok. destruct (handler_recordsOk w req fs Hok) as [Hfiles Hwrites].
  split; [|split; [|split]].
  - intros uid path. by apply loadMemory_new_user.
  - exact Hwrites.
  - exact Hfiles.
  - apply truncateHistory_head.
Qed.

(** C4 (what the code does). The message list of the outbound call shares
    its turn objects with the stored conversation: the instruction
    appended to the system turn for the call is in the record that is
    written afterwards. [c] is the content of the stored system turn as
    a string. *)
Theorem instruction_is_persisted
    w req fs p project uid path lang stored t rest c data cleanText :
  Prompted w req p project uid path ->
  detectLanguage (JSString p) = Normal lang ->
  apiKeyMissing w = false ->
  recordOf (storedValue fs path uid) = Some (stored, JSObject t :: rest) ->
  lookupProp "role" t = JSString "system" ->
  ToString (lookupProp "content" t) = Normal c ->
  let sent := JSObject (setProp "content" (JSString (c +:+ "

" +:+ languageInstruction lang)) t) in
  axios_post w (sent :: rest ++ [mkTurn "user" p]) = Resolved data ->
  call_replace (extractReply data) = Normal cleanText ->
  exists record,
    upstreamCalls (handler w req fs) = [sent :: rest ++ [mkTurn "user" p]] /\
    fileWrites (handler w req fs) = [(path, record)] /\
    head (conversationOf record) = Some sent.
Proof.
  intros HP Hlang Hkey Hrec Hrole Hcontent sent Hpost Hreplace.
  assert (Hsent : withInstruction (languageInstruction lang)
                    ((JSObject t :: rest) ++ [mkTurn "user" p])
                  = Normal (sent :: rest ++ [mkTurn "user" p])).
  { exact (withInstruction_converted (languageInstruction lang) t
             (rest ++ [mkTurn "user" p]) c Hrole Hcontent). }
  pose proof (prepared_record fs path p project uid lang _ _ _ Hrec Hsent) as Hprep.
  rewrite (handler_success w req fs _ _ _ _ _ _ _ _ _ HP Hlang Hprep Hkey Hpost Hreplace).
  eexists. cbn [upstreamCalls fileWrites]. split; [done|]. split; [done|].
  by rewrite conversationOf_writtenRecord, truncateHistory_head.
Qed.

(** C5 (what the code does). A POST request without a body, or whose JSON
    body is [null], has no prompt; destructuring its body throws, and the
    answer is the 500 of the [catch] block, not the 400 of the prompt
    check. Nothing is read, written or sent. *)
Theorem handler_post_without_body w fs :
  let noBody := mkRequest "POST" JSUndefined in
  status (response (handler w noBody fs)) = 500%Z /\
  (exists details,
     json (response (handler w noBody fs))
       = errorJson "Server error. Please try again." [("details", details)]) /\
  filesAfter (handler w noBody fs) = fs /\
  upstreamCalls (handler w noBody fs) = [] /\
  fileWrites (handler w noBody fs) = [] /\
  status (response (handler w (mkRequest "POST" JSNull) fs)) = 500%Z /\
  (JSON_parse w "null" = Some JSNull ->
   status (response (handler w (mkRequest "POST" (JSString "null")) fs)) = 500%Z).
Proof.
  intros noBody. split; [reflexivity|]. split; [by eexists|].
  repeat (split; [reflexivity|]).
  intros Hparse.
  pose proof (handler_rejected w (mkRequest "POST" (JSString "null")) fs eq_refl) as H.
  unfold validate, parseBody in H. simpl in H. rewrite Hparse in H. simpl in H.
  by rewrite H.
Qed.

(** C6 (amended). A POST request with a usable prompt that comes to the
    check of the API key (its user id can be converted to a string, and
    its record is loaded and prepared for the call) gets, when the API
    key is not in the environment, the 500 answer that names the
    configuration; and without the API key no request whatever calls the
    upstream API or writes a file. *)
Theorem handler_without_api_key w req fs p project uid path lang props sent :
  Prompted w req p project uid path ->
  detectLanguage (JSString p) = Normal lang ->
  prepared fs path p project uid lang = Normal (props, sent) ->
  DEEPSEEK_API_KEY w = None ->
  response (handler w req fs)
    = mkResponse 500 (errorJson "Server configuration error"
                        [("message", JSString "API key is not configured")]) /\
  (forall req' fs',
     upstreamCalls (handler w req' fs') = [] /\
     fileWrites (handler w req' fs') = [] /\
     filesAfter (handler w req' fs') = fs').
Proof.
  intros HP Hlang Hprep Hkey.
  assert (Hmissing : apiKeyMissing w = true) by (unfold apiKeyMissing; by rewrite Hkey).
  split.
  - by rewrite (handler_no_key w req fs _ _ _ _ _ _ _ HP Hlang Hprep Hmissing).
  - intros req' fs'.
    destruct (handler_cases w req' fs') as [(r & -> & _)|(p' & pr' & u' & path' & HP')];
      [done|].
    destruct (handler_Prompted w req' fs' _ _ _ _ HP') as (lang' & _ & ->).
    destruct (promptOutcome_cases w fs' p' pr' u' path' lang')
      as [(r & -> & _)|(Hk & _)]; [done | congruence].
Qed.

End HandlerClaims.

Section HandlerExamples.

#[local] Existing Instance exampleRuntime.

Lemma handler_truncates_witness :
  let w := exampleWorld (Some "sk-1") (Resolved (replyData "Try Heat.")) in
  exists record,
    fileWrites (handler w (examplePost "hello") fullMemory)
      = [("/tmp/memory/memory_default.json", record)] /\
    length (conversationOf record) = 20 /\
    conversationOf record !! 19 = Some (mkTurn "assistant" "Try Heat.").
Proof.
  intros w.
  assert (HP : Prompted w (examplePost "hello") "hello" JSUndefined (JSString "default")
                 "/tmp/memory/memory_default.json") by prompted.
  destruct (handler_truncates w (examplePost "hello") fullMemory
              "hello" JSUndefined (JSString "default") _ "english" _ _
              (replyData "Try Heat.") "Try Heat." HP eq_refl eq_refl eq_refl eq_refl eq_refl)
    as (record & Hw & Hlong & _).
  exists record. split; [exact Hw|].
  destruct Hlong as (x & o & r & E & Hr & Hc & Hl).
  - vm_compute. lia.
  - split; [exact Hl|]. rewrite Hc.
    assert (Hlast : r !! 18 = Some (mkTurn "assistant" "Try Heat.")).
    { assert (Happ : (x :: o ++ r) !! 21 = Some (mkTurn "assistant" "Try Heat."))
        by (rewrite <- E; reflexivity).
      assert (Hlen : length (x :: o ++ r) = 22) by (rewrite <- E; reflexivity).
      simpl in Hlen. rewrite length_app in Hlen.
      change ((x :: o ++ r) !! 21) with ((o ++ r) !! 20) in Happ.
      rewrite lookup_app_r in Happ by lia.
      replace (20 - length o) with 18 in Happ by lia. exact Happ. }
    exact Hlast.
Defined.

Lemma recordsOk_fullMemory : recordsOk fullMemory.
Proof.
  intros path v props turns H Hv. unfold fullMemory in H.
  apply lookup_singleton_Some in H as [<- [= <-]].
  injection Hv as _ <-. apply systemFirst_default.
Qed.

Lemma system_turn_stays_first_witness :
  let w := exampleWorld (Some "sk-1") (Resolved (replyData "Try Heat.")) in
  recordsOk fullMemory /\
  recordsOk (filesAfter (handler w (examplePost "hello") fullMemory)).
Proof.
  intros w. split; [exact recordsOk_fullMemory|].
  exact (proj1 (proj2 (proj2
    (system_turn_stays_first w (examplePost "hello") fullMemory recordsOk_fullMemory)))).
Defined.

Lemma instruction_is_persisted_witness :
  let w := exampleWorld (Some "sk-1") (Resolved (replyData "Try Heat.")) in
  let persisted :=
    mkTurn "system"
      (PERSONA_PREAMBLE +:+ "

" +:+ "Respond in English, friendly Kenyan developer tone.") in
  exists record,
    fileWrites (handler w (examplePost "hello") ∅)
      = [("/tmp/memory/memory_default.json", record)] /\
    head (conversationOf record) = Some persisted /\
    getProp persisted "content" <> JSString PERSONA_PREAMBLE.
Proof.
  intros w persisted.
  assert (HP : Prompted w (examplePost "hello") "hello" JSUndefined (JSString "default")
                 "/tmp/memory/memory_default.json") by prompted.
  assert (Hrec : recordOf (storedValue ∅ "/tmp/memory/memory_default.json"
                             (JSString "default"))
                 = Some ([("userId", JSString "default"); ("lastProject", JSNull);
                          ("lastTask", JSNull); ("conversation", JSArray [systemTurn])],
                         [JSObject [("role", JSString "system");
                                    ("content", JSString PERSONA_PREAMBLE)]]))
    by reflexivity.
  destruct (instruction_is_persisted w (examplePost "hello") ∅
              "hello" JSUndefined (JSString "default") _ "english" _ _
              [] PERSONA_PREAMBLE (replyData "Try Heat.") "Try Heat."
              HP eq_refl eq_refl Hrec eq_refl eq_refl eq_refl eq_refl)
    as (record & _ & Hw & Hhead).
  exists record. split; [exact Hw|]. split; [exact Hhead|].
  intros Heq. injection Heq as Heq.
  apply (f_equal String.length) in Heq. vm_compute in Heq. discriminate.
Defined.

(** The same request twice: the system turn of the record has grown by
    two instructions. *)
Example instruction_accumulates :
  let w := exampleWorld (Some "sk-1") (Resolved (replyData "Try Heat.")) in
  let instruction := "

" +:+ "Respond in English, friendly Kenyan developer tone." in
  exists record,
    serve ∅ [(w, examplePost "hello"); (w, examplePost "hello")]
      !! "/tmp/memory/memory_default.json" = Some (Json record) /\
    flip getProp "content" <$> head (conversationOf record)
      = Some (JSString (PERSONA_PREAMBLE +:+ instruction +:+ instruction)).
Proof. intros w instruction. eexists. split; vm_compute; reflexivity. Qed.

Lemma handler_without_api_key_witness :
  let w := exampleWorld None (Rejected (TypeError "must not be called")) in
  status (response (handler w (examplePost "hello") ∅)) = 500%Z /\
  upstreamCalls (handler w (examplePost "hello") ∅) = [].
Proof.
  intros w.
  assert (HP : Prompted w (examplePost "hello") "hello" JSUndefined (JSString "default")
                 "/tmp/memory/memory_default.json") by prompted.
  pose proof (prepared_default ∅ "/tmp/memory/memory_default.json" "hello" JSUndefined
                (JSString "default") "english" (or_introl eq_refl)) as Hprep.
  destruct (handler_without_api_key w (examplePost "hello") ∅ _ _ _ _ "english" _ _
              HP eq_refl Hprep eq_refl) as (Hr & Hnone).
  split; [by rewrite Hr | apply Hnone].
Defined.

(** C6 as the specification states it fails for a request whose prompt
    is valid and whose user id cannot be converted to a string: the log
    line of the user id throws before the API key is looked at, and the
    answer is the general 500, not the one that names the
    configuration. *)
Lemma unconvertible_userId_without_api_key :
  let w := exampleWorld None (Rejected (TypeError "must not be called")) in
  let req := mkRequest "POST"
               (JSObject [("prompt", JSString "hello");
                          ("userId", JSObject [("toString", JSNull)])]) in
  checkPrompt (getProp (body req) "prompt") = Normal (Some "hello") /\
  DEEPSEEK_API_KEY w = None /\
  response (handler w req ∅)
    = mkResponse 500 (errorJson "Server error. Please try again."
                        [("details", JSUndefined)]) /\
  response (handler w req ∅) <> configurationErrorResponse.
Proof.
  intros w req.
  assert (H : response (handler w req ∅)
              = mkResponse 500 (errorJson "Server error. Please try again."
                                  [("details", JSUndefined)]))
    by (vm_compute; reflexivity).
  split; [by vm_compute|]. split; [reflexivity|].
  split; [exact H|]. rewrite H. discriminate.
Qed.

End HandlerExamples.

Section ErrorMapping.

Context {rt : Runtime}.
Implicit Types (w : World) (req : Request) (fs : gmap string FileContent)
  (error : JSError).

(** The answer of the [catch] block, branch by branch. *)
Lemma catchBlock_mapping w error :
  let r := catchBlock w error in
  (response_status error = Some 401%Z ->
     status r = 401%Z /\
     json r = errorJson "API key is invalid or missing."
                [("details", JSString "Check your DEEPSEEK_API_KEY environment variable")]) /\
  (response_status error = Some 429%Z ->
     status r = 429%Z /\
     exists details,
       json r = errorJson "Rate limit exceeded. Please try again later."
                  [("details", details)]) /\
  (response_status error <> Some 401%Z -> response_status error <> Some 429%Z ->
   code error = Some "ECONNABORTED" ->
     status r = 408%Z /\
     exists details,
       json r = errorJson "Request timeout. Please try again." [("details", details)]) /\
  (response_status error <> Some 401%Z -> response_status error <> Some 429%Z ->
   code error <> Some "ECONNABORTED" ->
     status r = 500%Z /\
     exists details,
       json r = errorJson (if includes (message error) "ENOENT"
                           then "File system error."
                           else "Server error. Please try again.")
                  [("details", details)]).
Proof.
  intros r. subst r. unfold catchBlock.
  split; [|split; [|split]].
  - intros H. rewrite bool_decide_eq_true_2 by done. done.
  - intros H. rewrite bool_decide_eq_false_2 by (rewrite H; discriminate).
    rewrite bool_decide_eq_true_2 by done. simpl. eauto.
  - intros H1 H2 H3. rewrite !bool_decide_eq_false_2 by done.
    rewrite bool_decide_eq_true_2 by done. simpl. eauto.
  - intros H1 H2 H3. rewrite !bool_decide_eq_false_2 by done.
    destruct (includes (message error) "ENOENT"); simpl; eauto.
Qed.

(** C8 (amended). When the upstream call fails, the handler answers
    according to the failure: 401 with a hint to check the credentials
    when the upstream answered 401, 429 when it answered 429, 408 when
    the wait ran out ([ECONNABORTED]); for any other failure 500, with
    the message "File system error." when the error's message contains
    "ENOENT" and the general "Server error. Please try again."
    otherwise. Nothing is written. The upstream call is the one of a
    request with a usable prompt whose record is loaded and prepared,
    with the API key set. *)
Theorem upstream_failure_mapping w req fs p project uid path lang props sent error :
  Prompted w req p project uid path ->
  detectLanguage (JSString p) = Normal lang ->
  prepared fs path p project uid lang = Normal (props, sent) ->
  apiKeyMissing w = false ->
  axios_post w sent = Rejected error ->
  let r := response (handler w req fs) in
  upstreamCalls (handler w req fs) = [sent] /\
  fileWrites (handler w req fs) = [] /\
  filesAfter (handler w req fs) = fs /\
  (response_status error = Some 401%Z ->
     status r = 401%Z /\
     json r = errorJson "API key is invalid or missing."
                [("details", JSString "Check your DEEPSEEK_API_KEY environment variable")]) /\
  (response_status error = Some 429%Z ->
     status r = 429%Z /\
     exists details,
       json r = errorJson "Rate limit exceeded. Please try again later."
                  [("details", details)]) /\
  (response_status error <> Some 401%Z -> response_status error <> Some 429%Z ->
   code error = Some "ECONNABORTED" ->
     status r = 408%Z /\
     exists details,
       json r = errorJson "Request timeout. Please try again." [("details", details)]) /\
  (response_status error <> Some 401%Z -> response_status error <> Some 429%Z ->
   code error <> Some "ECONNABORTED" ->
     status r = 500%Z /\
     exists details,
       json r = errorJson (if includes (message error) "ENOENT"
                           then "File system error."
                           else "Server error. Please try again.")
                  [("details", details)]).
Proof.
  intros HP Hlang Hprep Hkey Hpost r. subst r.
  rewrite (handler_upstream_failure w req fs _ _ _ _ _ _ _ error HP Hlang Hprep Hkey Hpost).
  cbn [response upstreamCalls fileWrites filesAfter].
  repeat (split; [reflexivity|]). apply catchBlock_mapping.
Qed.

End ErrorMapping.

Section ErrorMappingExamples.

#[local] Existing Instance exampleRuntime.

Lemma upstream_failure_mapping_witness :
  let unauthorized := mkError (Some 401%Z) (Some "ERR_BAD_REQUEST")
                        "Request failed with status code 401" in
  let w := exampleWorld (Some "sk-1") (Rejected unauthorized) in
  status (response (handler w (examplePost "hello") ∅)) = 401%Z.
Proof.
  intros unauthorized w.
  assert (HP : Prompted w (examplePost "hello") "hello" JSUndefined (JSString "default")
                 "/tmp/memory/memory_default.json") by prompted.
  pose proof (prepared_default ∅ "/tmp/memory/memory_default.json" "hello" JSUndefined
                (JSString "default") "english" (or_introl eq_refl)) as Hprep.
  destruct (upstream_failure_mapping w (examplePost "hello") ∅ _ _ _ _ "english" _ _
              unauthorized HP eq_refl Hprep eq_refl eq_refl)
    as (_ & _ & _ & H401 & _).
  exact (proj1 (H401 eq_refl)).
Defined.

(** C8 as the specification states it fails for a failure that is none of
    the three named ones and whose message contains "ENOENT": the answer
    is 500, but its message is "File system error.", not the general
    one. *)
Lemma enoent_failure_not_generic :
  let error := mkError None (Some "ENOENT") "connect ENOENT /var/run/proxy.sock" in
  let w := exampleWorld (Some "sk-1") (Rejected error) in
  response_status error <> Some 401%Z /\
  response_status error <> Some 429%Z /\
  code error <> Some "ECONNABORTED" /\
  response (handler w (examplePost "hello") ∅)
    = mkResponse 500 (errorJson "File system error." [("details", JSUndefined)]) /\
  response (handler w (examplePost "hello") ∅)
    <> mkResponse 500 (errorJson "Server error. Please try again."
                         [("details", JSUndefined)]).
Proof.
  intros error w. repeat (split; [discriminate|]).
  assert (H : response (handler w (examplePost "hello") ∅)
              = mkResponse 500 (errorJson "File system error." [("details", JSUndefined)]))
    by (vm_compute; reflexivity).
  split; [exact H|]. rewrite H. discriminate.
Qed.

End ErrorMappingExamples.

(* ===================================================================== *)
(** ** [trim] and blank texts                                            *)
(* ===================================================================== *)

Section Dropping.

Variable table : list string.
Hypothesis nonempty : forall ws, ws ∈ table -> ws <> "".
Hypothesis prefix_free :
  forall ws ws', ws ∈ table -> ws' ∈ table -> startsWith ws ws' = true -> ws = ws'.

Implicit Types (s t ws : string).

Lemma skipChars_append ws s : skipChars (String.length ws) (ws +:+ s) = s.
Proof. induction ws as [|c ws IH]; [by destruct s | exact IH]. Qed.

Lemma startsWith_skip s ws :
  startsWith s ws = true -> s = ws +:+ skipChars (String.length ws) s.
Proof.
  intros [post ->]%startsWith_spec. by rewrite skipChars_append.
Qed.

Lemma startsWith_append ws s : startsWith (ws +:+ s) ws = true.
Proof. apply startsWith_spec. by exists s. Qed.

Lemma leading_Some s ws :
  leading table s = Some ws -> ws ∈ table /\ startsWith s ws = true.
Proof.
  unfold leading. intros [Hin H]%List.find_some. split; [|done].
  by apply list_elem_of_In.
Qed.

Lemma leading_found s ws : ws ∈ table -> startsWith s ws = true -> leading table s <> None.
Proof.
  intros Hin H Hnone. unfold leading in Hnone.
  pose proof (List.find_none _ _ Hnone ws (proj1 (list_elem_of_In _ _) Hin)) as Hf.
  congruence.
Qed.

Lemma leading_empty : leading table "" = None.
Proof using nonempty.
  destruct (leading table "") as [ws|] eqn:E; [|done].
  apply leading_Some in E as [Hin H]. destruct ws; [|done].
  by destruct (nonempty "" Hin).
Qed.

(** Two texts that start the same text: one starts the other. *)
Lemma startsWith_comparable a b x y :
  a +:+ x = b +:+ y -> startsWith a b = true \/ startsWith b a = true.
Proof.
  revert b. induction a as [|c a IH]; intros [|d b] H; simpl; try tauto.
  simpl in H. injection H as -> H.
  destruct (IH b H) as [E|E]; [left | right]; rewrite E;
    by destruct (Ascii.eqb_spec d d).
Qed.

(** What is dropped down to nothing was made of entries. *)
Lemma dropLeading_MadeOf fuel s : dropLeading table fuel s = "" -> MadeOf table s.
Proof.
  revert s. induction fuel as [|fuel IH]; intros s; simpl.
  - intros ->. constructor.
  - destruct (leading table s) as [ws|] eqn:E.
    + apply leading_Some in E as [Hin H]. intros Hrest%IH.
      rewrite (startsWith_skip _ _ H). by constructor.
    + intros ->. constructor.
Qed.

(** A text made of entries is dropped down to nothing. *)
Lemma MadeOf_dropLeading fuel s :
  MadeOf table s -> String.length s <= fuel -> dropLeading table fuel s = "".
Proof using nonempty prefix_free.
  revert s. induction fuel as [|fuel IH]; intros s Hs Hlen.
  - by destruct s; [|simpl in Hlen; lia].
  - simpl. destruct Hs as [|ws r Hin Hr]; [by rewrite leading_empty|].
    destruct (leading table (ws +:+ r)) as [ws'|] eqn:E;
      [|by destruct (leading_found (ws +:+ r) ws Hin (startsWith_append ws r))].
    apply leading_Some in E as [Hin' H'].
    apply startsWith_spec in H' as [post Hpost].
    assert (ws = ws') as <-.
    { destruct (startsWith_comparable _ _ _ _ Hpost) as [E|E];
        [by apply prefix_free | symmetry; by apply prefix_free]. }
    rewrite skipChars_append. apply IH; [done|].
    assert (1 <= String.length ws)
      by (pose proof (nonempty ws Hin); destruct ws; [done | simpl; lia]).
    rewrite length_append in Hlen. lia.
Qed.

(** With fuel enough, what is left does not start with an entry. *)
Lemma dropLeading_done fuel s :
  String.length s <= fuel -> leading table (dropLeading table fuel s) = None.
Proof using nonempty.
  revert s. induction fuel as [|fuel IH]; intros s Hlen.
  - destruct s; [apply leading_empty | simpl in Hlen; lia].
  - simpl. destruct (leading table s) as [ws|] eqn:E; [|done].
    apply leading_Some in E as [Hin H]. apply IH.
    assert (1 <= String.length ws)
      by (pose proof (nonempty ws Hin); destruct ws; [done | simpl; lia]).
    rewrite (startsWith_skip _ _ H), length_append in Hlen. lia.
Qed.

Lemma MadeOf_app s t : MadeOf table s -> MadeOf table t -> MadeOf table (s +:+ t).
Proof.
  intros Hs Ht. induction Hs as [|ws r Hin Hr IH]; [done|].
  rewrite append_assoc. by constructor.
Qed.

Lemma MadeOf_leading s : MadeOf table s -> s <> "" -> leading table s <> None.
Proof.
  intros [|ws r Hin Hr] Hne; [done|].
  by apply (leading_found _ ws), startsWith_append.
Qed.

End Dropping.

Section Trim.

Implicit Types (s t ws : string).

Lemma reverse_append s t : reverse (s +:+ t) = reverse t +:+ reverse s.
Proof.
  induction s as [|c s IH]; simpl; [by rewrite append_empty_r|].
  by rewrite IH, append_assoc.
Qed.

Lemma reverse_involutive s : reverse (reverse s) = s.
Proof.
  induction s as [|c s IH]; simpl; [done|]. by rewrite reverse_append, IH.
Qed.

Lemma reverse_empty s : reverse s = "" -> s = "".
Proof. intros H. by rewrite <- (reverse_involutive s), H. Qed.

Lemma MadeOf_reverse table s :
  MadeOf (List.map reverse table) s -> MadeOf table (reverse s).
Proof.
  intros Hs. induction Hs as [|rws r Hin Hr IH]; [constructor|].
  rewrite reverse_append. apply MadeOf_app; [done|].
  apply list_elem_of_In, List.in_map_iff in Hin as (ws & <- & Hin).
  rewrite reverse_involutive, <- (append_empty_r ws).
  constructor; [by apply list_elem_of_In | constructor].
Qed.

Lemma whiteSpace_nonempty ws : ws ∈ whiteSpace -> ws <> "".
Proof.
  intros Hin ->. apply list_elem_of_In in Hin. simpl in Hin.
  repeat (destruct Hin as [Hin|Hin]; [discriminate Hin|]). done.
Qed.

Lemma whiteSpace_prefix_free ws ws' :
  ws ∈ whiteSpace -> ws' ∈ whiteSpace -> startsWith ws ws' = true -> ws = ws'.
Proof.
  assert (H : forallb (fun a => forallb (fun b => implb (startsWith a b) (String.eqb a b))
                                  whiteSpace) whiteSpace = true)
    by (vm_compute; reflexivity).
  intros Hin Hin' Hs. apply list_elem_of_In in Hin, Hin'.
  rewrite forallb_forall in H. specialize (H ws Hin).
  rewrite forallb_forall in H. specialize (H ws' Hin').
  rewrite Hs in H. simpl in H. by apply String.eqb_eq.
Qed.

Lemma trimStart_Blank s : trimStart s = "" <-> Blank s.
Proof.
  split.
  - apply dropLeading_MadeOf.
  - intros H. apply MadeOf_dropLeading;
      [apply whiteSpace_nonempty | apply whiteSpace_prefix_free | done | done].
Qed.

(** [trim] leaves nothing exactly of the blank texts. *)
Lemma trim_Blank s : trim s = "" <-> Blank s.
Proof.
  split.
  - intros H. unfold trim, trimEnd in H. apply reverse_empty in H.
    apply dropLeading_MadeOf, MadeOf_reverse in H. rewrite reverse_involutive in H.
    apply trimStart_Blank.
    destruct (decide (trimStart s = "")) as [|Hne]; [done|].
    destruct (MadeOf_leading _ _ H Hne).
    apply dropLeading_done; [apply whiteSpace_nonempty | done].
  - intros H. unfold trim. apply trimStart_Blank in H. by rewrite H.
Qed.

End Trim.

(* ===================================================================== *)
(** ** Further properties of the handler                                 *)
(* ===================================================================== *)

Section EffectClaims.

Context {rt : Runtime}.
Implicit Types (w : World) (req : Request) (fs : gmap string FileContent).

(** X1. Whatever the request, the handler calls the upstream API at most
    once and tries to write at most one file; it calls upstream only for a
    POST request with the API key set, and writes only after an upstream
    call, when it answers 200; a file that it does not write is left as
    it was. *)
Theorem handler_effects w req fs :
  let out := handler w req fs in
  length (upstreamCalls out) <= 1 /\
  length (fileWrites out) <= 1 /\
  (upstreamCalls out <> [] -> method req = "POST" /\ apiKeyMissing w = false) /\
  (fileWrites out <> [] -> status (response out) = 200%Z /\ upstreamCalls out <> []) /\
  (forall path, (forall m, (path, m) ∉ fileWrites out) ->
                filesAfter out !! path = fs !! path).
Proof.
  intros out. subst out.
  destruct (handler_cases w req fs) as [(r & -> & _)|(p & project & uid & path & HP)].
  { simpl. repeat split; try lia; try done. }
  destruct (handler_Prompted w req fs _ _ _ _ HP) as (lang & _ & ->).
  destruct (promptOutcome_cases w fs p project uid path lang)
    as [(r & -> & _)
       |(Hkey & props & sent & _ & [(error & ->)|(data & clean & _ & _ & ->)])];
    cbn [upstreamCalls fileWrites filesAfter response].
  - simpl. repeat split; try lia; try done.
  - simpl. repeat split; try lia; try done. apply HP.
  - simpl. repeat split; try lia; try done; [apply HP|].
    intros other Hother. apply written_other. intros ->.
    apply (Hother (writtenRecord props sent clean)).
    by apply list_elem_of_singleton.
Qed.

(** X2. A POST request is answered 200 exactly when the conversation
    record was handed to [saveMemory]; every other answer to a POST
    request leaves no trace of the request. *)
Theorem post_200_iff_saved w req fs :
  method req = "POST" ->
  (status (response (handler w req fs)) = 200%Z <-> fileWrites (handler w req fs) <> []) /\
  (status (response (handler w req fs)) <> 200%Z -> filesAfter (handler w req fs) = fs).
Proof.
  intros Hm.
  destruct (handler_cases w req fs) as [(r & -> & Hr)|(p & project & uid & path & HP)].
  { simpl. specialize (Hr Hm). split; [split; done | done]. }
  destruct (handler_Prompted w req fs _ _ _ _ HP) as (lang & _ & ->).
  destruct (promptOutcome_cases w fs p project uid path lang)
    as [(r & -> & Hr & _)
       |(Hkey & props & sent & _ & [(error & ->)|(data & clean & _ & _ & ->)])];
    cbn [upstreamCalls fileWrites filesAfter response].
  - split; [split; done | done].
  - pose proof (catchBlock_not_200 w error). split; [split; done | done].
  - simpl. split; [split; done | done].
Qed.

(** How a request ends, whatever becomes of the write. *)
Lemma handler_withWriteResult w req fs :
  (exists r calls, forall result,
     handler (withWriteResult result w) req fs = mkOutcome r fs calls []) \/
  (exists r sent path record, forall result,
     handler (withWriteResult result w) req fs =
       mkOutcome r
         (match result with
          | Written => <[path := Json (jsonValue record)]> fs
          | NotOpened => fs
          | Interrupted => <[path := Garbage]> fs
          end)
         [sent] [(path, record)]).
Proof.
  destruct (decide (method req = "POST")) as [Hm|Hm].
  - destruct (validate w req) as [[r|[[p project] uid]]|e] eqn:Hv.
    + left. exists r, []. intros result.
      pose proof (handler_rejected (withWriteResult result w) req fs Hm) as H.
      change (validate (withWriteResult result w) req) with (validate w req) in H.
      by rewrite Hv in H.
    + destruct (validate_Prompted _ _ _ _ _ Hm Hv) as [path HP].
      destruct (detectLanguage_total (JSString p)) as [lang Hlang].
      assert (Hout : forall result,
                handler (withWriteResult result w) req fs
                = promptOutcome (withWriteResult result w) fs p project uid path lang).
      { intros result. by apply handler_Prompted_lang. }
      unfold promptOutcome in Hout.
      destruct (prepared fs path p project uid lang) as [[props sent]|error].
      * change (forall result,
                  handler (withWriteResult result w) req fs =
                    if apiKeyMissing w then mkOutcome configurationErrorResponse fs [] []
                    else match axios_post w sent with
                         | Rejected error => mkOutcome (catchBlock w error) fs [sent] []
                         | Resolved data =>
                             match cleaned (extractReply data) with
                             | Throw error => mkOutcome (catchBlock w error) fs [sent] []
                             | Normal cleanText =>
                                 mkOutcome
                                   (replyResponse cleanText (lookupProp "lastProject" props)
                                      (length (truncateHistory
                                                 (sent ++ [mkTurn "assistant" cleanText])))
                                      uid)
                                   (match result with
                                    | Written =>
                                        <[path := Json (jsonValue
                                                    (writtenRecord props sent cleanText))]> fs
                                    | NotOpened => fs
                                    | Interrupted => <[path := Garbage]> fs
                                    end)
                                   [sent] [(path, writtenRecord props sent cleanText)]
                             end
                         end) in Hout.
        destruct (apiKeyMissing w); [left; by eexists _, _|].
        destruct (axios_post w sent) as [data|error]; [|left; by eexists _, _].
        destruct (cleaned (extractReply data)) as [cleanText|error];
          [|left; by eexists _, _].
        right. by eexists _, _, _, _.
      * left. by exists (catchBlock w error), [].
    + left. exists (catchBlock w e), []. intros result.
      pose proof (handler_rejected (withWriteResult result w) req fs Hm) as H.
      change (validate (withWriteResult result w) req) with (validate w req) in H.
      by rewrite Hv in H.
  - left. unfold handler.
    destruct (String.eqb (method req) "OPTIONS"); [by eexists _, _|].
    destruct (String.eqb (method req) "GET"); [by eexists _, _|].
    destruct (String.eqb_spec (method req) "POST") as [E|_]; [contradiction|].
    by eexists _, _.
Qed.

(** X3. A failure of [fs.writeFileSync] is swallowed by [saveMemory]: the
    answer, the upstream call and the record handed over are those of the
    run in which the write works. When the file could not be opened the
    files stay as they were; when the write breaks off after the file was
    opened, the file that was to be written is the only one that
    changes, and what it holds can no longer be read. *)
Theorem save_failure_is_swallowed w req fs :
  let working := handler (withWriteResult Written w) req fs in
  (forall result,
     let failing := handler (withWriteResult result w) req fs in
     response failing = response working /\
     upstreamCalls failing = upstreamCalls working /\
     fileWrites failing = fileWrites working) /\
  filesAfter (handler (withWriteResult NotOpened w) req fs) = fs /\
  (forall path,
     filesAfter (handler (withWriteResult Interrupted w) req fs) !! path = fs !! path \/
     (exists record, fileWrites working = [(path, record)]) /\
     filesAfter (handler (withWriteResult Interrupted w) req fs) !! path = Some Garbage).
Proof.
  intros working. subst working.
  destruct (handler_withWriteResult w req fs)
    as [(r & calls & H)|(r & sent & path & record & H)].
  - split; [|split].
    + intros result. cbv zeta. by rewrite (H result), (H Written).
    + by rewrite (H NotOpened).
    + intros path. left. by rewrite (H Interrupted).
  - split; [|split].
    + intros result. cbv zeta. by rewrite (H result), (H Written).
    + by rewrite (H NotOpened).
    + intros other. rewrite (H Interrupted), (H Written).
      cbn [filesAfter fileWrites].
      destruct (decide (other = path)) as [->|Hne].
      * right. split; [by eexists|]. by rewrite lookup_insert_eq.
      * left. by rewrite lookup_insert_ne.
Qed.

End EffectClaims.

Section EffectExamples.

#[local] Existing Instance exampleRuntime.

Lemma post_200_iff_saved_witness :
  let w := exampleWorld (Some "sk-1") (Resolved (replyData "Try Heat.")) in
  status (response (handler w (examplePost "hello") ∅)) = 200%Z /\
  fileWrites (handler w (examplePost "hello") ∅) <> [] /\
  filesAfter (handler w (examplePost "   ") ∅) = ∅.
Proof.
  intros w.
  destruct (post_200_iff_saved w (examplePost "hello") ∅ eq_refl) as [Hiff _].
  destruct (post_200_iff_saved w (examplePost "   ") ∅ eq_refl) as [_ Hkeep].
  split; [reflexivity|]. split.
  - apply Hiff. reflexivity.
  - apply Hkeep. discriminate.
Defined.

(** A write that breaks off leaves a file that cannot be read. *)
Example interrupted_write_empties_the_file :
  let w := withWriteResult Interrupted
             (exampleWorld (Some "sk-1") (Resolved (replyData "Try Heat."))) in
  status (response (handler w (examplePost "hello") fullMemory)) = 200%Z /\
  filesAfter (handler w (examplePost "hello") fullMemory)
    !! "/tmp/memory/memory_default.json" = Some Garbage.
Proof. intros w. split; reflexivity. Qed.

End EffectExamples.

Section MemoryClaims.

Context {rt : Runtime}.
Implicit Types (w : World) (req : Request) (fs : gmap string FileContent)
  (h : list JSValue) (memory : Memory).

Lemma recordOf_stringify h memory :
  recordOf (stringify h memory)
  = Some (setProp "conversation" (JSArray ((fun l => h !!! l) <$> conversation memory))
            (fields memory),
          (fun l => h !!! l) <$> conversation memory).
Proof. apply recordOf_object, lookupProp_setProp_eq. Qed.

Lemma saveMemory_run w uid path memory sys :
  filePath uid = Normal path ->
  saveMemory w uid memory sys =
    (Normal tt,
     mkSys (heap sys) (written w path (stringify (heap sys) memory) (files sys))
           (posts sys) (writes sys ++ [(path, stringify (heap sys) memory)])).
Proof.
  intros H. unfold saveMemory. rewrite bind_run. unfold liftC. by rewrite H.
Qed.

(** X4. What [saveMemory] writes for a user, [loadMemory] reads back for
    that user: the file holds the JSON text of the record, and the memory
    loaded from it is that record as JSON gives it back (a number that is
    not finite has become [null], a property that was [undefined] is
    gone). Writing what was loaded changes nothing any more; and the
    files of the other paths are not touched. *)
Theorem save_then_load w uid path memory h fs ps ws :
  filePath uid = Normal path ->
  writeFileSync w path = Written ->
  let saved := files (saveMemory w uid memory (mkSys h fs ps ws)).2 in
  saved !! path = Some (Json (jsonValue (stringify h memory))) /\
  (exists again h',
     loadMemory uid (mkSys [] saved [] [])
       = (Normal (WithConversation again), mkSys h' saved [] []) /\
     stringify h' again = jsonValue (stringify h memory) /\
     jsonValue (stringify h' again) = stringify h' again) /\
  (forall other, other <> path -> saved !! other = fs !! other).
Proof.
  intros Hpath Hw saved. subst saved. rewrite (saveMemory_run _ _ _ _ _ Hpath).
  cbn [snd files heap]. unfold written. rewrite Hw.
  split; [by rewrite lookup_insert_eq|]. split.
  - rewrite (loadMemory_run _ _ _ Hpath), hold_run.
    unfold storedValue. rewrite lookup_insert_eq.
    rewrite (recordOf_jsonValue _ _ _ (recordOf_stringify h memory)).
    eexists _, _. split; [reflexivity|].
    assert (E : stringify (jsonValue <$> ((fun l => h !!! l) <$> conversation memory))
                  (mkMemory
                     (jsonProps (setProp "conversation"
                                   (JSArray ((fun l => h !!! l) <$> conversation memory))
                                   (fields memory)))
                     (seq 0 (length (jsonValue <$>
                                       ((fun l => h !!! l) <$> conversation memory)))))
                = jsonValue (stringify h memory)).
    { unfold stringify at 1. cbn [fields conversation]. rewrite lookup_total_seq.
      unfold stringify. rewrite jsonValue_object. f_equal.
      apply setProp_same; [|done].
      by rewrite (lookupProp_jsonProps _ _ _ (lookupProp_setProp_eq _ _ _)). }
    split; [exact E|]. rewrite E. apply jsonValue_idempotent.
  - intros other Hne. by rewrite lookup_insert_ne.
Qed.

(** X5. When the memory file of the user is missing or cannot be parsed,
    the request starts from the default record: a successful request
    writes the JSON text of a record of three turns (the system turn with
    the instruction, the user turn, the assistant turn), which replaces
    the unreadable file. *)
Theorem unreadable_file_starts_afresh w req fs p project uid path lang data cleanText :
  Prompted w req p project uid path ->
  detectLanguage (JSString p) = Normal lang ->
  apiKeyMissing w = false ->
  fs !! path = None \/ fs !! path = Some Garbage ->
  axios_post w [mkTurn "system" (PERSONA_PREAMBLE +:+ "

" +:+ languageInstruction lang);
                mkTurn "user" p] = Resolved data ->
  call_replace (extractReply data) = Normal cleanText ->
  writeFileSync w path = Written ->
  filesAfter (handler w req fs) !! path =
    Some (Json (jsonValue (JSObject
      [("userId", uid);
       ("lastProject", if truthy project then project else JSNull);
       ("lastTask", JSString p);
       ("conversation",
        JSArray [mkTurn "system" (PERSONA_PREAMBLE +:+ "

" +:+ languageInstruction lang);
                 mkTurn "user" p;
                 mkTurn "assistant" cleanText])]))).
Proof.
  intros HP Hlang Hkey Hfile Hpost Hreplace Hwrite.
  pose proof (prepared_default fs path p project uid lang Hfile) as Hprep.
  rewrite (handler_success w req fs _ _ _ _ _ _ _ _ _ HP Hlang Hprep Hkey Hpost Hreplace).
  cbn [filesAfter]. unfold written. rewrite Hwrite, lookup_insert_eq.
  by destruct (truthy project).
Qed.

End MemoryClaims.

Section MemoryExamples.

#[local] Existing Instance exampleRuntime.

Lemma save_then_load_witness :
  let w := exampleWorld None (Resolved JSNull) in
  let h := [mkTurn "assistant" "unused"; systemTurn; mkTurn "user" "hi"] in
  let memory := mkMemory [("userId", JSString "ann"); ("lastProject", JSUndefined);
                          ("lastTask", JSNumber S754_nan); ("conversation", JSArray [])]
                         [1; 2] in
  files (saveMemory w (JSString "ann") memory (mkSys h ∅ [] [])).2
    !! "/tmp/memory/memory_ann.json"
  = Some (Json (JSObject [("userId", JSString "ann"); ("lastTask", JSNull);
                          ("conversation", JSArray [systemTurn; mkTurn "user" "hi"])])).
Proof.
  intros w h memory.
  destruct (save_then_load w (JSString "ann") "/tmp/memory/memory_ann.json" memory h ∅ [] []
              eq_refl eq_refl) as (Hfile & _).
  rewrite Hfile. reflexivity.
Defined.

Lemma unreadable_file_starts_afresh_witness :
  let w := exampleWorld (Some "sk-1") (Resolved (replyData "Try Heat.")) in
  let fs : gmap string FileContent := {[ "/tmp/memory/memory_default.json" := Garbage ]} in
  filesAfter (handler w (examplePost "sasa") fs) !! "/tmp/memory/memory_default.json"
  = Some (Json (JSObject
      [("userId", JSString "default"); ("lastProject", JSNull);
       ("lastTask", JSString "sasa");
       ("conversation",
        JSArray [mkTurn "system" (PERSONA_PREAMBLE +:+ "

" +:+ languageInstruction "mixed");
                 mkTurn "user" "sasa"; mkTurn "assistant" "Try Heat."])])).
Proof.
  intros w fs.
  assert (HP : Prompted w (examplePost "sasa") "sasa" JSUndefined (JSString "default")
                 "/tmp/memory/memory_default.json") by prompted.
  rewrite (unreadable_file_starts_afresh w (examplePost "sasa") fs
             "sasa" JSUndefined (JSString "default") _ "mixed"
             (replyData "Try Heat.") "Try Heat."
             HP eq_refl eq_refl (or_intror eq_refl) eq_refl eq_refl eq_refl).
  reflexivity.
Defined.

End MemoryExamples.

Section Window.

Context {A : Type}.
Implicit Types (l front tail : list A).

(** The truncated list, written out. *)
Lemma truncateHistory_unfold_long x l :
  20 <= length l ->
  truncateHistory (x :: l) = x :: drop (length l - 19) l.
Proof.
  intros H. unfold truncateHistory.
  destruct (Nat.ltb_spec 20 (length (x :: l))) as [_|Hlt]; [|simpl in Hlt; lia].
  rewrite slice_last by (simpl; lia). simpl.
  replace (length l - 18) with (S (length l - 19)) by lia. done.
Qed.

(** A tail of at most 19 turns survives truncation. *)
Lemma truncateHistory_keeps_tail l tail :
  length tail <= 19 ->
  exists front, truncateHistory (l ++ tail) = front ++ tail.
Proof.
  intros Ht. destruct (decide (length (l ++ tail) <= 20)) as [H|H].
  - exists l. by apply truncateHistory_short.
  - rewrite length_app in H.
    destruct l as [|x l]; [simpl in H; lia|]. simpl in H.
    change ((x :: l) ++ tail) with (x :: (l ++ tail)).
    rewrite truncateHistory_unfold_long by (rewrite length_app; lia).
    rewrite length_app, drop_app_le by lia.
    by exists (x :: drop (length l + length tail - 19) l).
Qed.

(** X6. Truncation composes with itself: applied twice it does what it
    does once; its result has at most 20 turns, and the last turn of the
    conversation is the last turn of the result. *)
Theorem truncateHistory_idempotent l :
  truncateHistory (truncateHistory l) = truncateHistory l /\
  length (truncateHistory l) <= 20 /\
  last (truncateHistory l) = last l.
Proof.
  split; [|split].
  - apply truncateHistory_short. rewrite truncateHistory_length. lia.
  - rewrite truncateHistory_length. lia.
  - destruct (decide (length l <= 20)) as [H|H].
    + by rewrite truncateHistory_short.
    + destruct (truncateHistory_long l) as (x & older & recent & -> & Hr & ->); [lia|].
      destruct recent as [|y recent]; [simpl in Hr; lia|].
      rewrite last_cons_cons.
      change (x :: older ++ y :: recent) with ((x :: older) ++ y :: recent).
      by rewrite last_app_cons.
Qed.

End Window.

Section ConversationClaims.

Context {rt : Runtime}.
Implicit Types (w : World) (req : Request) (fs : gmap string FileContent).

(** The user turn is the last of the messages sent. *)
Lemma withInstruction_tail instruction turns p sent :
  withInstruction instruction (turns ++ [mkTurn "user" p]) = Normal sent ->
  exists front, sent = front ++ [mkTurn "user" p].
Proof.
  destruct turns as [|t rest]; simpl.
  - intros [= <-]. by exists [].
  - destruct (isSystem t); [|intros [= <-]; by exists (t :: rest)].
    destruct (appended t _) as [t'|]; simpl; [|done].
    intros [= <-]. by exists (t' :: rest).
Qed.

Lemma prepared_tail fs path p project uid lang props sent :
  prepared fs path p project uid lang = Normal (props, sent) ->
  exists front, sent = front ++ [mkTurn "user" p].
Proof.
  intros (stored & turns & _ & _ & Hsent)%prepared_Normal.
  by eapply withInstruction_tail.
Qed.

(** The record written ends with the exchange. *)
Lemma writtenRecord_tail fs path p project uid lang props sent cleanText :
  prepared fs path p project uid lang = Normal (props, sent) ->
  exists front,
    conversationOf (writtenRecord props sent cleanText)
    = front ++ [mkTurn "user" p; mkTurn "assistant" cleanText].
Proof.
  intros [front0 ->]%prepared_tail.
  destruct (truncateHistory_keeps_tail front0
              [mkTurn "user" p; mkTurn "assistant" cleanText]) as [front Hfront];
    [simpl; lia|].
  exists front. rewrite conversationOf_writtenRecord, <- app_assoc. exact Hfront.
Qed.

Lemma getProp_writtenRecord key props sent cleanText :
  key <> "conversation" ->
  getProp (writtenRecord props sent cleanText) key = lookupProp key props.
Proof. intros Hne. unfold writtenRecord. simpl. by apply lookupProp_setProp_ne. Qed.

(** X7. The record of a successful request ends with the user turn that
    holds the prompt and the assistant turn that holds the cleaned reply;
    it has between 2 and 20 turns, and the answer carries the cleaned
    reply and this number of turns. *)
Theorem persisted_conversation_ends_with_exchange
    w req fs p project uid path lang props sent data cleanText :
  Prompted w req p project uid path ->
  detectLanguage (JSString p) = Normal lang ->
  prepared fs path p project uid lang = Normal (props, sent) ->
  apiKeyMissing w = false ->
  axios_post w sent = Resolved data ->
  call_replace (extractReply data) = Normal cleanText ->
  exists record front,
    fileWrites (handler w req fs) = [(path, record)] /\
    conversationOf record = front ++ [mkTurn "user" p; mkTurn "assistant" cleanText] /\
    2 <= length (conversationOf record) <= 20 /\
    json (response (handler w req fs)) =
      Some (JSObject
        [("reply", JSString cleanText);
         ("memory", JSObject
            [("lastProject", getProp record "lastProject");
             ("conversationLength", number (length (conversationOf record)));
             ("userId", uid)])]).
Proof.
  intros HP Hlang Hprep Hkey Hpost Hreplace.
  rewrite (handler_success w req fs _ _ _ _ _ _ _ _ _ HP Hlang Hprep Hkey Hpost Hreplace).
  cbn [fileWrites response json replyResponse].
  destruct (writtenRecord_tail _ _ _ _ _ _ _ _ cleanText Hprep) as [front Hfront].
  exists (writtenRecord props sent cleanText), front.
  split; [done|]. split; [exact Hfront|]. split.
  - split.
    + rewrite Hfront, length_app. simpl. lia.
    + rewrite conversationOf_writtenRecord, truncateHistory_length. lia.
  - by rewrite getProp_writtenRecord, conversationOf_writtenRecord.
Qed.

(** X8. The record of a successful request has the prompt as [lastTask]
    and keeps the [userId] of the loaded record; [lastProject] is replaced
    by the request's project only when that is truthy (a missing or empty
    project leaves the stored one). *)
Theorem persisted_metadata w req fs p project uid path lang props sent data cleanText :
  Prompted w req p project uid path ->
  detectLanguage (JSString p) = Normal lang ->
  prepared fs path p project uid lang = Normal (props, sent) ->
  apiKeyMissing w = false ->
  axios_post w sent = Resolved data ->
  call_replace (extractReply data) = Normal cleanText ->
  exists record,
    fileWrites (handler w req fs) = [(path, record)] /\
    getProp record "lastTask" = JSString p /\
    getProp record "userId" = getProp (storedValue fs path uid) "userId" /\
    (truthy project = true -> getProp record "lastProject" = project) /\
    (truthy project = false ->
       getProp record "lastProject" = getProp (storedValue fs path uid) "lastProject").
Proof.
  intros HP Hlang Hprep Hkey Hpost Hreplace.
  rewrite (handler_success w req fs _ _ _ _ _ _ _ _ _ HP Hlang Hprep Hkey Hpost Hreplace).
  eexists. split; [reflexivity|].
  destruct (prepared_Normal _ _ _ _ _ _ _ _ Hprep) as (stored & turns & Hrec & -> & _).
  apply recordOf_Some in Hrec as [-> _]. cbn [getProp].
  rewrite !getProp_writtenRecord by done.
  split; [apply lookupProp_setProp_eq|].
  rewrite !lookupProp_setProp_ne by done.
  split; [|split]; intros; try (intros ->).
  - destruct (truthy project); [by rewrite lookupProp_setProp_ne|done].
  - by rewrite H, lookupProp_setProp_eq.
  - by rewrite H.
Qed.

End ConversationClaims.

Section ConversationExamples.

#[local] Existing Instance exampleRuntime.

Lemma persisted_conversation_ends_with_exchange_witness :
  let w := exampleWorld (Some "sk-1") (Resolved (replyData "As an AI, I say: Heat.")) in
  exists record front,
    fileWrites (handler w (examplePost "hello") fullMemory)
      = [("/tmp/memory/memory_default.json", record)] /\
    conversationOf record
      = front ++ [mkTurn "user" "hello"; mkTurn "assistant" ", I say: Heat."] /\
    length (conversationOf record) <= 20.
Proof.
  intros w.
  assert (HP : Prompted w (examplePost "hello") "hello" JSUndefined (JSString "default")
                 "/tmp/memory/memory_default.json") by prompted.
  destruct (persisted_conversation_ends_with_exchange w (examplePost "hello") fullMemory
              "hello" JSUndefined (JSString "default") _ "english" _ _
              (replyData "As an AI, I say: Heat.") ", I say: Heat."
              HP eq_refl eq_refl eq_refl eq_refl eq_refl)
    as (record & front & Hw & Hc & [_ Hl] & _).
  exists record, front. split; [exact Hw|]. split; [exact Hc | exact Hl].
Defined.

Lemma persisted_metadata_witness :
  let w := exampleWorld (Some "sk-1") (Resolved (replyData "Try Heat.")) in
  let req := mkRequest "POST"
               (JSObject [("prompt", JSString "hello"); ("project", JSString "")]) in
  let fs : gmap string FileContent :=
    {[ "/tmp/memory/memory_default.json" :=
         Json (JSObject [("userId", JSString "default");
                         ("lastProject", JSString "watchlist");
                         ("lastTask", JSNull);
                         ("conversation", JSArray [systemTurn])]) ]} in
  exists record,
    fileWrites (handler w req fs) = [("/tmp/memory/memory_default.json", record)] /\
    getProp record "lastTask" = JSString "hello" /\
    getProp record "lastProject" = JSString "watchlist".
Proof.
  intros w req fs.
  assert (HP : Prompted w req "hello" (JSString "") (JSString "default")
                 "/tmp/memory/memory_default.json") by prompted.
  destruct (persisted_metadata w req fs "hello" (JSString "") (JSString "default") _
              "english" _ _ (replyData "Try Heat.") "Try Heat."
              HP eq_refl eq_refl eq_refl eq_refl eq_refl)
    as (record & Hw & Ht & _ & _ & Hp).
  exists record. split; [exact Hw|]. split; [exact Ht|].
  rewrite Hp by reflexivity. reflexivity.
Defined.

End ConversationExamples.

Section HistoryClaims.

Context {rt : Runtime}.
Implicit Types (w : World) (req : Request) (fs : gmap string FileContent).

(** X9. The conversation is carried from one request to the next: after a
    successful request whose record was written, the next request for the
    same file (the same user, or a user id that [path.join] leads to the
    same path) loads the turns of that record as JSON gives them back,
    and sends them upstream followed by its own user turn, its
    instruction appended to a leading system turn. With the system turn
    first in the stored records, that appending cannot fail. *)
Theorem history_is_carried_over
    w1 req1 fs p1 project1 uid1 path lang1 props1 sent1 data1 clean1
    w2 req2 p2 project2 uid2 lang2 :
  Prompted w1 req1 p1 project1 uid1 path ->
  detectLanguage (JSString p1) = Normal lang1 ->
  prepared fs path p1 project1 uid1 lang1 = Normal (props1, sent1) ->
  apiKeyMissing w1 = false ->
  axios_post w1 sent1 = Resolved data1 ->
  call_replace (extractReply data1) = Normal clean1 ->
  writeFileSync w1 path = Written ->
  Prompted w2 req2 p2 project2 uid2 path ->
  detectLanguage (JSString p2) = Normal lang2 ->
  apiKeyMissing w2 = false ->
  exists record,
    fileWrites (handler w1 req1 fs) = [(path, record)] /\
    upstreamCalls (handler w2 req2 (filesAfter (handler w1 req1 fs))) =
      match withInstruction (languageInstruction lang2)
              (conversationOf (jsonValue record) ++ [mkTurn "user" p2]) with
      | Normal sent2 => [sent2]
      | Throw _ => []
      end /\
    (recordsOk fs ->
     exists sent2,
       withInstruction (languageInstruction lang2)
         (conversationOf (jsonValue record) ++ [mkTurn "user" p2]) = Normal sent2).
Proof.
  intros HP1 Hlang1 Hprep1 Hkey1 Hpost1 Hrep1 Hwrite HP2 Hlang2 Hkey2.
  pose proof (handler_recordsOk w1 req1 fs) as Hok.
  rewrite (handler_success w1 req1 fs _ _ _ _ _ _ _ _ _ HP1 Hlang1 Hprep1 Hkey1 Hpost1 Hrep1)
    in Hok |- *.
  cbn [fileWrites filesAfter] in Hok |- *. unfold written in Hok |- *.
  rewrite Hwrite in Hok |- *.
  set (record := writtenRecord props1 sent1 clean1) in *.
  set (fs1 := <[path := Json (jsonValue record)]> fs) in *.
  exists record. split; [reflexivity|].
  pose proof (recordOf_jsonValue _ _ _ (recordOf_writtenRecord props1 sent1 clean1)) as Hrec.
  fold record in Hrec.
  rewrite (conversationOf_recordOf _ _ _ Hrec).
  set (turns := jsonValue <$> truncateHistory (sent1 ++ [mkTurn "assistant" clean1])) in *.
  split.
  - rewrite (handler_Prompted_lang w2 req2 fs1 _ _ _ _ _ HP2 Hlang2).
    unfold promptOutcome, prepared, opened, storedValue. subst fs1.
    rewrite lookup_insert_eq, Hrec. cbn [cbind].
    destruct (withInstruction (languageInstruction lang2) (turns ++ [mkTurn "user" p2]))
      as [sent2|error]; cbn [cbind]; [|reflexivity].
    rewrite Hkey2. destruct (axios_post w2 sent2) as [data|error]; [|reflexivity].
    by destruct (cleaned (extractReply data)).
  - intros Hfs. destruct (Hok Hfs) as [Hok1 _].
    apply withInstruction_systemFirst, systemFirst_app.
    eapply (Hok1 path (jsonValue record)); [|exact Hrec].
    subst fs1. by rewrite lookup_insert_eq.
Qed.

(** X10. Once the stored conversation has 20 turns, a successful request
    keeps it at 20: the system turn stays (with the instruction
    appended), the two oldest of the other turns are dropped, and the new
    user and assistant turns come last. *)
Theorem full_history_slides
    w req fs p project uid path lang stored t c rest data cleanText :
  Prompted w req p project uid path ->
  detectLanguage (JSString p) = Normal lang ->
  apiKeyMissing w = false ->
  recordOf (storedValue fs path uid) = Some (stored, JSObject t :: rest) ->
  lookupProp "role" t = JSString "system" ->
  ToString (lookupProp "content" t) = Normal c ->
  length rest = 19 ->
  let system := JSObject (setProp "content" (JSString (c +:+ "

" +:+ languageInstruction lang)) t) in
  axios_post w (system :: rest ++ [mkTurn "user" p]) = Resolved data ->
  call_replace (extractReply data) = Normal cleanText ->
  exists record,
    fileWrites (handler w req fs) = [(path, record)] /\
    conversationOf record =
      system :: drop 2 rest ++ [mkTurn "user" p; mkTurn "assistant" cleanText] /\
    length (conversationOf record) = 20.
Proof.
  intros HP Hlang Hkey Hrec Hrole Hcontent Hlen system Hpost Hreplace.
  assert (Hsent : withInstruction (languageInstruction lang)
                    ((JSObject t :: rest) ++ [mkTurn "user" p])
                  = Normal (system :: rest ++ [mkTurn "user" p])).
  { exact (withInstruction_converted (languageInstruction lang) t
             (rest ++ [mkTurn "user" p]) c Hrole Hcontent). }
  pose proof (prepared_record fs path p project uid lang _ _ _ Hrec Hsent) as Hprep.
  rewrite (handler_success w req fs _ _ _ _ _ _ _ _ _ HP Hlang Hprep Hkey Hpost Hreplace).
  eexists. split; [reflexivity|].
  rewrite conversationOf_writtenRecord.
  assert (Hconv : truncateHistory ((system :: rest ++ [mkTurn "user" p])
                                   ++ [mkTurn "assistant" cleanText])
                  = system :: drop 2 rest
                      ++ [mkTurn "user" p; mkTurn "assistant" cleanText]).
  { cbn [app]. rewrite <- app_assoc. cbn [app].
    rewrite truncateHistory_unfold_long by (rewrite length_app; simpl; lia).
    rewrite length_app, Hlen. simpl length.
    by rewrite drop_app_le by lia. }
  split; [exact Hconv|]. rewrite Hconv. simpl.
  rewrite length_app, length_drop, Hlen. reflexivity.
Qed.

End HistoryClaims.

Section HistoryExamples.

#[local] Existing Instance exampleRuntime.

Lemma history_is_carried_over_witness :
  let w := exampleWorld (Some "sk-1") (Resolved (replyData "Try Heat.")) in
  exists record sent2,
    fileWrites (handler w (examplePost "hello") ∅)
      = [("/tmp/memory/memory_default.json", record)] /\
    withInstruction "Respond fully in Swahili or Sheng naturally depending on tone."
      (conversationOf record ++ [mkTurn "user" "niko poa"]) = Normal sent2 /\
    upstreamCalls (handler w (examplePost "niko poa")
                     (filesAfter (handler w (examplePost "hello") ∅))) = [sent2].
Proof.
  intros w.
  assert (HP1 : Prompted w (examplePost "hello") "hello" JSUndefined (JSString "default")
                  "/tmp/memory/memory_default.json") by prompted.
  assert (HP2 : Prompted w (examplePost "niko poa") "niko poa" JSUndefined
                  (JSString "default") "/tmp/memory/memory_default.json") by prompted.
  pose proof (prepared_default ∅ "/tmp/memory/memory_default.json" "hello" JSUndefined
                (JSString "default") "english" (or_introl eq_refl)) as Hprep.
  destruct (history_is_carried_over
              w (examplePost "hello") ∅ "hello" JSUndefined (JSString "default") _
              "english" _ _ (replyData "Try Heat.") "Try Heat."
              w (examplePost "niko poa") "niko poa" JSUndefined (JSString "default")
              "swahili"
              HP1 eq_refl Hprep eq_refl eq_refl eq_refl eq_refl HP2 eq_refl eq_refl)
    as (record & Hw & Hcalls & Hsent).
  destruct (Hsent recordsOk_empty) as [sent2 Hsent2].
  rewrite Hsent2 in Hcalls.
  exists record, sent2. split; [exact Hw|]. split; [|exact Hcalls].
  rewrite <- Hsent2. injection Hw as <-. reflexivity.
Defined.

Lemma full_history_slides_witness :
  let w := exampleWorld (Some "sk-1") (Resolved (replyData "Try Heat.")) in
  exists record system,
    fileWrites (handler w (examplePost "hello") fullMemory)
      = [("/tmp/memory/memory_default.json", record)] /\
    conversationOf record
      = system :: replicate 17 (mkTurn "user" "more")
        ++ [mkTurn "user" "hello"; mkTurn "assistant" "Try Heat."].
Proof.
  intros w.
  assert (HP : Prompted w (examplePost "hello") "hello" JSUndefined (JSString "default")
                 "/tmp/memory/memory_default.json") by prompted.
  assert (Hrec : recordOf (storedValue fullMemory "/tmp/memory/memory_default.json"
                             (JSString "default"))
                 = Some ([("userId", JSString "default"); ("lastProject", JSNull);
                          ("lastTask", JSString "more");
                          ("conversation", JSArray twentyTurns)],
                         JSObject [("role", JSString "system");
                                   ("content", JSString PERSONA_PREAMBLE)]
                         :: replicate 19 (mkTurn "user" "more")))
    by reflexivity.
  destruct (full_history_slides w (examplePost "hello") fullMemory
              "hello" JSUndefined (JSString "default") _ "english" _ _
              PERSONA_PREAMBLE _ (replyData "Try Heat.") "Try Heat."
              HP eq_refl eq_refl Hrec eq_refl eq_refl eq_refl eq_refl eq_refl)
    as (record & Hw & Hc & _).
  exists record. eexists. split; [exact Hw|]. rewrite Hc. reflexivity.
Defined.

End HistoryExamples.

Section ValidationClaims.

Context {rt : Runtime}.
Implicit Types (w : World) (req : Request) (fs : gmap string FileContent)
  (s : string).

Lemma promptOutcome_not_400 w fs p project uid path lang :
  status (response (promptOutcome w fs p project uid path lang)) <> 400%Z.
Proof.
  destruct (promptOutcome_cases w fs p project uid path lang)
    as [(r & -> & _ & Hr)
       |(Hkey & props & sent & _ & [(error & ->)|(data & clean & _ & _ & ->)])];
    [done | apply catchBlock_not_400 | done].
Qed.

(** The user id that cannot be converted: the error thrown. *)
Lemma ToString_Throw (v : JSValue) error :
  ToString v = Throw error ->
  error = TypeError "Cannot convert object to primitive value".
Proof.
  revert error. induction v as [| | b | x | s | elems IH | props IH]
    using JSValue_nested_ind; try done.
  - induction IH as [|x rest Hx _ IHrest]; intros error; [done|].
    change (ToString (JSArray (x :: rest))) with
      (cbind (match x with
              | JSUndefined | JSNull => Normal ""
              | _ => ToString x
              end)
         (fun s => match rest with
                   | [] => Normal s
                   | _ :: _ => cbind (ToString (JSArray rest))
                                 (fun r => Normal (s +:+ "," +:+ r))
                   end)).
    destruct (match x with
              | JSUndefined | JSNull => Normal ""
              | _ => ToString x
              end) as [sx|ex] eqn:Ex; cbn [cbind].
    + destruct rest as [|y rest']; [done|].
      destruct (ToString (JSArray (y :: rest'))) as [r|er] eqn:Hjoin; [done|].
      cbn [cbind]. intros [= <-]. by apply IHrest.
    + intros [= <-]. destruct x; try done; by apply Hx.
  - intros error. simpl. destruct (hasOwn "toString" props); [|done]. by intros [= <-].
Qed.

(** A prompt that is missing, [null], empty or blank is refused with the
    400 answer, when the body can be destructured and the user id can be
    converted. *)
Lemma handler_missing_prompt w req fs body prompt project uid path :
  method req = "POST" ->
  parseBody w req = Some body ->
  destructure body = Normal (prompt, project, uid) ->
  filePath uid = Normal path ->
  prompt = JSUndefined \/ prompt = JSNull \/ (exists s, prompt = JSString s /\ Blank s) ->
  handler w req fs = mkOutcome missingPromptResponse fs [] [].
Proof.
  intros Hm Hp Hd Hpath Hprompt.
  pose proof (handler_rejected w req fs Hm) as Hrej.
  unfold validate in Hrej. rewrite Hp, Hd in Hrej. cbn [cbind] in Hrej.
  unfold logUserId in Hrej. unfold filePath in Hpath.
  destruct (ToString uid) as [name|]; [|done]. cbn [cbind] in Hrej.
  destruct Hprompt as [->|[->|(s & -> & Hs%trim_Blank)]]; [done | done |].
  cbn [cbind logPrompt] in Hrej. unfold checkPrompt in Hrej. rewrite Hs in Hrej.
  by destruct (negb (truthy (JSString s))).
Qed.

(** X11. For a user id that can be converted to a string, a prompt that
    is a string is refused with the 400 answer exactly when it is empty
    or made of white space only. *)
Theorem string_prompt_refused_iff_blank w req fs body s project uid path :
  method req = "POST" ->
  parseBody w req = Some body ->
  destructure body = Normal (JSString s, project, uid) ->
  filePath uid = Normal path ->
  (response (handler w req fs) = missingPromptResponse <-> Blank s).
Proof.
  intros Hm Hp Hd Hpath. split.
  - intros Hr. apply trim_Blank.
    destruct (decide (trim s = "")) as [|Hne]; [done|]. exfalso.
    assert (HP : Prompted w req s project uid path).
    { split; [done|]. by exists body. }
    destruct (handler_Prompted w req fs _ _ _ _ HP) as (lang & _ & E).
    rewrite E in Hr. apply (promptOutcome_not_400 w fs s project uid path lang).
    by rewrite Hr.
  - intros Hs.
    rewrite (handler_missing_prompt w req fs body (JSString s) project uid path); eauto.
Qed.

(** X12. A prompt that is neither missing nor a string (a number, a
    boolean, an array, an object) is answered with the 500 of the [catch]
    block, also [0] and [false], and nothing is read, sent or written:
    the log line of the prompt throws before the prompt check, unless the
    log line of the user id has thrown before it. *)
Theorem non_string_prompt_is_server_error w req fs body prompt project uid :
  method req = "POST" ->
  parseBody w req = Some body ->
  destructure body = Normal (prompt, project, uid) ->
  prompt <> JSUndefined -> prompt <> JSNull -> (forall s, prompt <> JSString s) ->
  status (response (handler w req fs)) = 500%Z /\
  filesAfter (handler w req fs) = fs /\
  upstreamCalls (handler w req fs) = [] /\
  fileWrites (handler w req fs) = [] /\
  (forall path, filePath uid = Normal path ->
     response (handler w req fs)
       = catchBlock w (TypeError "prompt?.substring is not a function")).
Proof.
  intros Hm Hp Hd Hu Hn Hs.
  pose proof (handler_rejected w req fs Hm) as Hrej.
  unfold validate in Hrej. rewrite Hp, Hd in Hrej. cbn [cbind] in Hrej.
  unfold logUserId in Hrej. unfold filePath.
  destruct (ToString uid) as [name|error] eqn:Hname; cbn [cbind] in Hrej.
  - assert (Hlog : logPrompt prompt
                   = Throw (TypeError "prompt?.substring is not a function")).
    { destruct prompt as [| | b | x | s | xs | ps]; try done. by destruct (Hs s). }
    rewrite Hlog in Hrej. cbn [cbind] in Hrej. rewrite Hrej.
    cbn [response filesAfter upstreamCalls fileWrites].
    split; [apply catchBlock_TypeError|]. by repeat split.
  - rewrite Hrej. cbn [response filesAfter upstreamCalls fileWrites].
    rewrite (ToString_Throw _ _ Hname).
    split; [apply catchBlock_TypeError|]. by repeat split.
Qed.

(** X13. A body that arrives as a string is parsed: when JSON.parse
    rejects it the answer is 400 "Invalid JSON in request body" and
    nothing happens; when it parses to a value that is not a string, the
    request is handled as if that value had been the body. *)
Theorem string_body_is_parsed w req fs text :
  body req = JSString text ->
  (JSON_parse w text = None ->
     method req = "POST" ->
     handler w req fs = mkOutcome invalidJsonResponse fs [] []) /\
  (forall v, JSON_parse w text = Some v -> (forall t, v <> JSString t) ->
     handler w req fs = handler w (mkRequest (method req) v) fs).
Proof.
  intros Hb. split.
  - intros Hparse Hm.
    pose proof (handler_rejected w req fs Hm) as Hrej.
    unfold validate, parseBody in Hrej. by rewrite Hb, Hparse in Hrej.
  - intros v Hparse Hv.
    assert (Hsame : parseBody w req = parseBody w (mkRequest (method req) v)).
    { unfold parseBody. rewrite Hb, Hparse. simpl. destruct v; try done.
      by destruct (Hv s). }
    unfold handler, tryBlock. cbn [method]. by rewrite Hsame.
Qed.

(** X14. A request without [userId] is served from the record of the user
    "default": whatever it writes goes to the file
    /tmp/memory/memory_default.json. *)
Theorem missing_userId_uses_default_file w req fs props :
  parseBody w req = Some (JSObject props) ->
  lookupProp "userId" props = JSUndefined ->
  forall path m,
    (path, m) ∈ fileWrites (handler w req fs) ->
    path = "/tmp/memory/memory_default.json".
Proof.
  intros Hp Hu path m Hin.
  destruct (handler_cases w req fs) as [(r & E & _)|(p & project & uid & file & HP)].
  { rewrite E in Hin. by apply elem_of_nil in Hin. }
  assert (file = "/tmp/memory/memory_default.json") as ->.
  { destruct HP as (_ & body & Hp' & Hd & Hpath & _). rewrite Hp in Hp'.
    injection Hp' as <-. simpl in Hd. rewrite Hu in Hd. injection Hd as _ _ <-.
    rewrite filePath_string, fileName_default in Hpath. by injection Hpath as <-. }
  destruct (handler_Prompted w req fs _ _ _ _ HP) as (lang & _ & E).
  rewrite E in Hin.
  destruct (promptOutcome_cases w fs p project uid "/tmp/memory/memory_default.json" lang)
    as [(r & E' & _)
       |(Hkey & ps & sent & _ & [(error & E')|(data & clean & _ & _ & E')])];
    rewrite E' in Hin; cbn [fileWrites] in Hin;
    try (by apply elem_of_nil in Hin).
  apply list_elem_of_singleton in Hin. by injection Hin as -> _.
Qed.

End ValidationClaims.

Section ValidationExamples.

#[local] Existing Instance exampleRuntime.

Lemma string_prompt_refused_iff_blank_witness :
  let w := exampleWorld None (Resolved JSNull) in
  let nbsp := String (Ascii.ascii_of_N 194) (String (Ascii.ascii_of_N 160) "") in
  response (handler w (examplePost (" " +:+ nbsp)) ∅) = missingPromptResponse /\
  response (handler w (examplePost " a ") ∅) <> missingPromptResponse.
Proof.
  intros w nbsp. split.
  - apply (string_prompt_refused_iff_blank w (examplePost (" " +:+ nbsp)) ∅
             _ (" " +:+ nbsp) JSUndefined (JSString "default") _
             eq_refl eq_refl eq_refl eq_refl).
    apply trim_Blank. reflexivity.
  - intros H.
    apply (string_prompt_refused_iff_blank w (examplePost " a ") ∅
             _ " a " JSUndefined (JSString "default") _
             eq_refl eq_refl eq_refl eq_refl) in H.
    apply trim_Blank in H. discriminate H.
Defined.

Lemma non_string_prompt_is_server_error_witness :
  let w := exampleWorld (Some "sk-1") (Resolved JSNull) in
  let req := mkRequest "POST" (JSObject [("prompt", JSBoolean false)]) in
  status (response (handler w req ∅)) = 500%Z.
Proof.
  intros w req.
  apply (non_string_prompt_is_server_error w req ∅ _ (JSBoolean false) JSUndefined
           (JSString "default") eq_refl eq_refl eq_refl); discriminate.
Defined.

Lemma string_body_is_parsed_witness :
  let w := mkWorld (Some "sk-1") None
             (fun text => if String.eqb text "{}" then Some (JSObject []) else None)
             (fun _ => Resolved JSNull) (fun _ => Written) in
  handler w (mkRequest "POST" (JSString "{prompt")) ∅
    = mkOutcome invalidJsonResponse ∅ [] [] /\
  handler w (mkRequest "POST" (JSString "{}")) ∅
    = handler w (mkRequest "POST" (JSObject [])) ∅.
Proof.
  intros w. split.
  - by apply (proj1 (string_body_is_parsed w (mkRequest "POST" (JSString "{prompt")) ∅
                       "{prompt" eq_refl)).
  - by apply (proj2 (string_body_is_parsed w (mkRequest "POST" (JSString "{}")) ∅
                       "{}" eq_refl) (JSObject [])).
Defined.

Lemma missing_userId_uses_default_file_witness :
  let w := exampleWorld (Some "sk-1") (Resolved (replyData "Try Heat.")) in
  fst <$> head (fileWrites (handler w (examplePost "hello") ∅))
    = Some "/tmp/memory/memory_default.json".
Proof.
  intros w.
  pose proof (missing_userId_uses_default_file w (examplePost "hello") ∅
                [("prompt", JSString "hello")] eq_refl eq_refl) as H.
  destruct (fileWrites (handler w (examplePost "hello") ∅)) as [|[path m] rest] eqn:E.
  - vm_compute in E. discriminate E.
  - simpl. f_equal. apply (H path m). apply list_elem_of_here.
Defined.

End ValidationExamples.

Section ReplyClaims.

Context {rt : Runtime}.
Implicit Types (w : World) (req : Request) (fs : gmap string FileContent)
  (error : JSError).

(** X15. The [catch] block answers with 401, 429, 408 or 500 and nothing
    else; except for the fixed hint of the 401 answer, its [details] hold
    the error's own message only when NODE_ENV is "development", and
    are undefined otherwise. *)
Theorem error_details_only_in_development w error :
  status (catchBlock w error) ∈ errorStatuses /\
  (response_status error <> Some 401%Z ->
   NODE_ENV w <> Some "development" ->
     exists text, json (catchBlock w error) = errorJson text [("details", JSUndefined)]) /\
  (response_status error <> Some 401%Z ->
   NODE_ENV w = Some "development" ->
     exists text,
       json (catchBlock w error)
         = errorJson text [("details", JSString (message error))]).
Proof.
  split; [apply catchBlock_status|].
  unfold catchBlock. split; intros H401 Henv;
    rewrite (bool_decide_eq_false_2 _ H401);
    [rewrite (bool_decide_eq_false_2 _ Henv) | rewrite (bool_decide_eq_true_2 _ Henv)];
    destruct (bool_decide (response_status error = Some 429%Z)); simpl; eauto;
    destruct (bool_decide (code error = Some "ECONNABORTED")); simpl; eauto;
    destruct (includes (message error) "ENOENT"); simpl; eauto.
Qed.

(** X16. When the upstream answer holds no content (no [choices], an
    empty list, a missing message, an empty string), the reply is the
    apology "I apologize, but I couldn't generate a response. Please try
    again."; the request still succeeds with 200 and the apology is
    stored as the assistant turn. *)
Theorem empty_upstream_answer_gets_apology
    w req fs p project uid path lang props sent data :
  Prompted w req p project uid path ->
  detectLanguage (JSString p) = Normal lang ->
  prepared fs path p project uid lang = Normal (props, sent) ->
  apiKeyMissing w = false ->
  axios_post w sent = Resolved data ->
  truthy (replyContent data) = false ->
  status (response (handler w req fs)) = 200%Z /\
  exists record front,
    fileWrites (handler w req fs) = [(path, record)] /\
    conversationOf record = front ++ [mkTurn "user" p; mkTurn "assistant" fallbackReply] /\
    json (response (handler w req fs)) =
      Some (JSObject
        [("reply", JSString fallbackReply);
         ("memory", JSObject
            [("lastProject", getProp record "lastProject");
             ("conversationLength", number (length (conversationOf record)));
             ("userId", uid)])]).
Proof.
  intros HP Hlang Hprep Hkey Hpost Hempty.
  assert (Hreplace : call_replace (extractReply data) = Normal fallbackReply).
  { unfold extractReply. cbv zeta. by rewrite Hempty. }
  rewrite (handler_success w req fs _ _ _ _ _ _ _ _ _ HP Hlang Hprep Hkey Hpost Hreplace).
  split; [reflexivity|].
  destruct (writtenRecord_tail _ _ _ _ _ _ _ _ fallbackReply Hprep) as [front Hfront].
  exists (writtenRecord props sent fallbackReply), front.
  split; [done|]. split; [exact Hfront|].
  cbn [response json replyResponse].
  by rewrite getProp_writtenRecord, conversationOf_writtenRecord.
Qed.

(** X17. When the upstream answer holds content that is not a string (a
    list of parts, a number), cleaning the reply throws: the answer is
    the 500 of the [catch] block, after the upstream call was made, and
    nothing is written, not even the user turn. *)
Theorem non_string_content_is_server_error
    w req fs p project uid path lang props sent data :
  Prompted w req p project uid path ->
  detectLanguage (JSString p) = Normal lang ->
  prepared fs path p project uid lang = Normal (props, sent) ->
  apiKeyMissing w = false ->
  axios_post w sent = Resolved data ->
  truthy (replyContent data) = true ->
  (forall s, replyContent data <> JSString s) ->
  status (response (handler w req fs)) = 500%Z /\
  upstreamCalls (handler w req fs) = [sent] /\
  fileWrites (handler w req fs) = [] /\
  filesAfter (handler w req fs) = fs.
Proof.
  intros HP Hlang Hprep Hkey Hpost Htruthy Hnot.
  rewrite (handler_Prompted_lang w req fs _ _ _ _ _ HP Hlang).
  unfold promptOutcome. rewrite Hprep, Hkey, Hpost.
  unfold extractReply. cbv zeta. rewrite Htruthy.
  assert (Hthrown : exists msg, cleaned (replyContent data) = Throw (TypeError msg)).
  { unfold cleaned.
    destruct (replyContent data) as [| | b | x | s | xs | ps]; try (by eexists).
    - by destruct (Hnot s).
    - simpl. destruct (ToString (lookupProp "length" ps)) as [?|error] eqn:E;
        [by eexists|].
      rewrite (ToString_Throw _ _ E). by eexists. }
  destruct Hthrown as [msg ->]. cbn [response upstreamCalls fileWrites filesAfter].
  split; [apply catchBlock_TypeError | done].
Qed.

End ReplyClaims.

Section ReplyExamples.

#[local] Existing Instance exampleRuntime.

Lemma error_details_only_in_development_witness :
  let timeout := mkError None (Some "ECONNABORTED") "timeout of 30000ms exceeded" in
  let production := exampleWorld (Some "sk-1") (Rejected timeout) in
  json (catchBlock production timeout)
    = errorJson "Request timeout. Please try again." [("details", JSUndefined)].
Proof.
  intros timeout production.
  destruct (error_details_only_in_development production timeout) as (_ & H & _).
  destruct H as [text Ht]; [discriminate | discriminate |].
  rewrite Ht. injection Ht as <-. reflexivity.
Defined.

Lemma empty_upstream_answer_gets_apology_witness :
  let w := exampleWorld (Some "sk-1") (Resolved (JSObject [("choices", JSArray [])])) in
  status (response (handler w (examplePost "hello") ∅)) = 200%Z.
Proof.
  intros w.
  assert (HP : Prompted w (examplePost "hello") "hello" JSUndefined (JSString "default")
                 "/tmp/memory/memory_default.json") by prompted.
  pose proof (prepared_default ∅ "/tmp/memory/memory_default.json" "hello" JSUndefined
                (JSString "default") "english" (or_introl eq_refl)) as Hprep.
  exact (proj1 (empty_upstream_answer_gets_apology w (examplePost "hello") ∅
                  "hello" JSUndefined (JSString "default") _ "english" _ _
                  (JSObject [("choices", JSArray [])])
                  HP eq_refl Hprep eq_refl eq_refl eq_refl)).
Defined.

Lemma non_string_content_is_server_error_witness :
  let parts := JSArray [JSObject [("type", JSString "text"); ("text", JSString "Heat")]] in
  let data := JSObject [("choices",
                JSArray [JSObject [("message", JSObject [("content", parts)])]])] in
  let w := exampleWorld (Some "sk-1") (Resolved data) in
  status (response (handler w (examplePost "hello") ∅)) = 500%Z /\
  filesAfter (handler w (examplePost "hello") ∅) = ∅.
Proof.
  intros parts data w.
  assert (HP : Prompted w (examplePost "hello") "hello" JSUndefined (JSString "default")
                 "/tmp/memory/memory_default.json") by prompted.
  pose proof (prepared_default ∅ "/tmp/memory/memory_default.json" "hello" JSUndefined
                (JSString "default") "english" (or_introl eq_refl)) as Hprep.
  destruct (non_string_content_is_server_error w (examplePost "hello") ∅
              "hello" JSUndefined (JSString "default") _ "english" _ _ data
              HP eq_refl Hprep eq_refl eq_refl eq_refl)
    as (Hs & _ & _ & Hf); [intros s; discriminate|].
  split; [exact Hs | exact Hf].
Defined.

End ReplyExamples.

Section HeuristicClaims.

Context {rt : Runtime}.
Implicit Types (text lower w : string) (words : list string).




End HeuristicClaims.

Section HeuristicExamples.

#[local] Existing Instance exampleRuntime.


End HeuristicExamples.

Section CleanUpMore.

Implicit Types (reply s : string) (removed : list bool).

Lemma length_erase removed s :
  String.length (erase removed s) <= String.length s.
Proof.
  revert removed. induction s as [|c s IH]; intros [|b removed]; simpl; try lia.
  destruct b; simpl; specialize (IH removed); lia.
Qed.

Lemma erase_shorter removed s i :
  removed !! i = Some true -> i < String.length s ->
  String.length (erase removed s) < String.length s.
Proof.
  revert removed i. induction s as [|c s IH]; intros [|b removed] i H Hi;
    simpl in *; try lia; try done.
  destruct i as [|i]; simpl in H.
  - injection H as ->. pose proof (length_erase removed s). lia.
  - destruct b; simpl.
    + pose proof (length_erase removed s). lia.
    + specialize (IH removed i H). lia.
Qed.

Lemma erase_nothing removed s :
  (forall i, removed !! i <> Some true) -> erase removed s = s.
Proof.
  revert removed. induction s as [|c s IH]; intros [|b removed] H; simpl; try done.
  destruct b; [by destruct (H 0)|].
  f_equal. apply IH. intros i. apply (H (S i)).
Qed.

(** X19. The clean-up never makes a reply longer, and it leaves a reply
    as it is exactly when the reply holds no occurrence of "as an ai" or
    "language model" (letter case ignored). *)
Theorem removeDisclaimers_changes_iff_occurrence reply :
  String.length (removeDisclaimers reply) <= String.length reply /\
  (removeDisclaimers reply = reply <->
   ~ exists pre m post, Occurrence reply pre m post).
Proof.
  unfold removeDisclaimers. rewrite replaceFrom_erase.
  split; [apply length_erase|]. split.
  - intros Heq (pre & m & post & Hocc).
    pose proof (removedFrom_complete 0 _ _ _ _ Hocc) as Hfirst.
    pose proof (Occurrence_bound _ _ _ _ Hocc) as Hb.
    pose proof (isDisclaimer_length m (proj2 Hocc)) as Hm.
    pose proof (erase_shorter _ reply _ Hfirst) as Hlt.
    rewrite Heq in Hlt. lia.
  - intros Hnone. apply erase_nothing. intros i Hi.
    destruct (removedFrom_sound 0 reply i Hi) as [?|(pre & m & post & Hocc & _)]; [lia|].
    apply Hnone. by exists pre, m, post.
Qed.

End CleanUpMore.

(* ===================================================================== *)
(** ** The revision with the fallback reply                              *)
(* ===================================================================== *)

Section Part001Runs.

Context {rt : Runtime}.
Implicit Types (w : World) (req : Request) (fs : gmap string FileContent).

Lemma part001_post w req fs :
  method req = "POST" ->
  Part001.handler w req fs =
    let '(result, sys) := Part001.servePost w req (mkSys [] fs [] []) in
    Part001.mkOutcome result (files sys) (posts sys) (writes sys).
Proof. intros H. unfold Part001.handler. rewrite H. reflexivity. Qed.

Lemma tryPost_run w sent fs :
  Part001.tryPost w (seq 0 (length sent)) (mkSys sent fs [] []) =
    (Normal (Part001.replyOf (axios_post w sent)), mkSys sent fs [sent] []).
Proof.
  unfold Part001.tryPost, post. cbn [heap files posts writes].
  rewrite lookup_total_seq. by destruct (axios_post w sent).
Qed.

(** A POST request with a usable prompt, the heap reasoning done. *)
Lemma part001_prompt w req fs body p project uid path lang :
  method req = "POST" ->
  Part001.parseBody w req = Some body ->
  destructure body = Normal (JSString p, project, uid) ->
  filePath uid = Normal path ->
  trim p <> "" ->
  detectLanguage (JSString p) = Normal lang ->
  Part001.handler w req fs = Part001.promptOutcome w fs p project uid path lang.
Proof.
  intros Hm Hparse Hd Hpath Htrim Hlang.
  rewrite part001_post by done. unfold Part001.servePost. rewrite Hparse.
  rewrite bind_run. unfold liftC at 1. rewrite Hd. cbv beta iota.
  rewrite bind_run. unfold liftC at 1. rewrite (checkPrompt_string p Htrim). cbv beta iota.
  pose proof (open_run uid path fs project p Hpath) as Hopen.
  unfold Part001.promptOutcome, prepared.
  destruct (opened project p (storedValue fs path uid)) as [[props turns]|error] eqn:Hopened.
  - pose proof (opened_nonempty _ _ _ _ _ Hopened) as Hne.
    rewrite bind_run in Hopen. rewrite bind_run.
    destruct (loadMemory uid (mkSys [] fs [] [])) as [[loaded|e0] sys0];
      [|discriminate Hopen].
    rewrite bind_run in Hopen. rewrite bind_run.
    destruct (liftC (if truthy project then setField "lastProject" project loaded
                     else Normal loaded) sys0) as [[m1|e1] sys1];
      [|discriminate Hopen].
    rewrite bind_run in Hopen. rewrite bind_run.
    destruct (liftC (setField "lastTask" (JSString p) m1) sys1) as [[m2|e2] sys2];
      [|discriminate Hopen].
    rewrite bind_run.
    rewrite Hopen. cbn [fields conversation].
    rewrite bind_run. unfold liftC at 1. rewrite Hlang. cbv beta iota.
    rewrite bind_run, addInstruction_run by done. cbn [cbind].
    destruct (withInstruction (languageInstruction lang) turns) as [sent|error] eqn:Hsent;
      [|reflexivity].
    pose proof (withInstruction_length _ _ _ Hsent) as Hlen.
    cbn [cbind]. destruct (apiKeyMissing w); [reflexivity|].
    rewrite bind_run, <- Hlen, tryPost_run.
    rewrite bind_run. unfold liftC at 1.
    destruct (call_replace (Part001.replyOf (axios_post w sent))) as [cleanText|error];
      [|reflexivity].
    rewrite bind_run. unfold alloc at 1. cbn [heap files posts writes].
    rewrite bind_run. unfold saveMemory. rewrite bind_run. unfold liftC at 1.
    rewrite Hpath. unfold writeMemory, stringify.
    cbn [heap files posts writes fields conversation].
    assert (Hlocs : seq 0 (length sent) ++ [length sent]
                    = seq 0 (length (sent ++ [mkTurn "assistant" cleanText])))
      by (by rewrite length_app, Nat.add_1_r, seq_S).
    rewrite truncateHistory_fmap, Hlocs, lookup_total_seq.
    rewrite !truncateHistory_length, !length_app, !length_seq.
    reflexivity.
  - rewrite bind_run in Hopen. rewrite bind_run.
    destruct (loadMemory uid (mkSys [] fs [] [])) as [[loaded|e0] sys0];
      [|by injection Hopen as -> ->].
    rewrite bind_run in Hopen. rewrite bind_run.
    destruct (liftC (if truthy project then setField "lastProject" project loaded
                     else Normal loaded) sys0) as [[m1|e1] sys1];
      [|by injection Hopen as -> ->].
    rewrite bind_run in Hopen. rewrite bind_run.
    destruct (liftC (setField "lastTask" (JSString p) m1) sys1) as [[m2|e2] sys2];
      [|by injection Hopen as -> ->].
    rewrite bind_run. by rewrite Hopen.
Qed.

End Part001Runs.

Section Part001Claims.

Context {rt : Runtime}.
Implicit Types (w : World) (req : Request) (fs : gmap string FileContent).

(** X20. The revision with the fallback reply treats a POST request
    without a body (or with a body that is [null], empty or otherwise
    falsy) as the empty object: the answer is the 400 of the prompt check
    and nothing else happens. For a body-less request the handler of
    api/generate.js answers 500. *)
Theorem part001_missing_body_is_400 w req fs :
  method req = "POST" ->
  truthy (body req) = false ->
  Part001.handler w req fs
    = Part001.mkOutcome (Normal Part001.missingPromptResponse) fs [] [] /\
  (body req = JSUndefined -> status (response (handler w req fs)) = 500%Z).
Proof.
  intros Hm Hbody. split.
  - rewrite part001_post by done. unfold Part001.servePost, Part001.parseBody.
    rewrite Hbody. reflexivity.
  - intros Hu. pose proof (handler_rejected w req fs Hm) as Hrej.
    unfold validate, parseBody in Hrej. rewrite Hu in Hrej. simpl in Hrej.
    by rewrite Hrej.
Qed.

(** X21. In the revision with the fallback reply a failed upstream call
    is not an error: for a request with a usable prompt whose record is
    loaded and prepared, the answer is 200 with the reply "I couldn't
    generate a response.", and the user turn and this reply are written
    to the record. *)
Theorem part001_upstream_failure_gets_fallback
    w req fs body p project uid path lang props sent error :
  method req = "POST" ->
  Part001.parseBody w req = Some body ->
  destructure body = Normal (JSString p, project, uid) ->
  filePath uid = Normal path ->
  trim p <> "" ->
  detectLanguage (JSString p) = Normal lang ->
  prepared fs path p project uid lang = Normal (props, sent) ->
  apiKeyMissing w = false ->
  axios_post w sent = Rejected error ->
  exists record front,
    Part001.answer (Part001.handler w req fs)
      = Normal (replyResponse Part001.fallbackReply (getProp record "lastProject")
                  (length (conversationOf record)) uid) /\
    status (replyResponse Part001.fallbackReply (getProp record "lastProject")
              (length (conversationOf record)) uid) = 200%Z /\
    Part001.fileWrites (Part001.handler w req fs) = [(path, record)] /\
    conversationOf record
      = front ++ [mkTurn "user" p; mkTurn "assistant" Part001.fallbackReply].
Proof.
  intros Hm Hp Hd Hpath Ht Hlang Hprep Hkey Hpost.
  rewrite (part001_prompt w req fs body p project uid path lang Hm Hp Hd Hpath Ht Hlang).
  unfold Part001.promptOutcome. rewrite Hprep, Hkey, Hpost.
  change (call_replace (Part001.replyOf (Rejected error)))
    with (Normal (A:=string) Part001.fallbackReply). cbv beta iota zeta.
  destruct (writtenRecord_tail _ _ _ _ _ _ _ _ Part001.fallbackReply Hprep)
    as [front Hfront].
  exists (writtenRecord props sent Part001.fallbackReply), front.
  cbn [Part001.answer Part001.fileWrites].
  rewrite getProp_writtenRecord, conversationOf_writtenRecord by done.
  split; [done|]. split; [done|]. split; [done|].
  by rewrite <- Hfront, conversationOf_writtenRecord.
Qed.

(** X22. On a request that succeeds the two revisions do the same: with a
    body that is there, a usable prompt, a user id that can be converted,
    a record that is loaded and prepared, the API key set and an upstream
    answer whose content is a string that is not empty, the handler of
    api/generate.js and the revision with the fallback reply give the
    same answer, make the same upstream call and write the same
    record. *)
Theorem revisions_agree_on_success
    w req fs p project uid path lang props sent data reply :
  Prompted w req p project uid path ->
  truthy (body req) = true ->
  detectLanguage (JSString p) = Normal lang ->
  prepared fs path p project uid lang = Normal (props, sent) ->
  apiKeyMissing w = false ->
  axios_post w sent = Resolved data ->
  replyContent data = JSString reply ->
  reply <> "" ->
  Part001.answer (Part001.handler w req fs) = Normal (response (handler w req fs)) /\
  Part001.filesAfter (Part001.handler w req fs) = filesAfter (handler w req fs) /\
  Part001.upstreamCalls (Part001.handler w req fs) = upstreamCalls (handler w req fs) /\
  Part001.fileWrites (Part001.handler w req fs) = fileWrites (handler w req fs).
Proof.
  intros HP Hbody Hlang Hprep Hkey Hpost Hcontent Hreply.
  assert (Htruthy : truthy (replyContent data) = true).
  { rewrite Hcontent. simpl. by destruct (String.eqb_spec reply ""). }
  assert (Hrep : call_replace (extractReply data) = Normal (removeDisclaimers reply)).
  { unfold extractReply. cbv zeta. by rewrite Htruthy, Hcontent. }
  rewrite (handler_success w req fs _ _ _ _ _ _ _ _ _ HP Hlang Hprep Hkey Hpost Hrep).
  destruct HP as (Hm & body & Hp & Hd & Hpath & Ht).
  assert (Hp1 : Part001.parseBody w req = Some body).
  { unfold Part001.parseBody. rewrite Hbody. exact Hp. }
  rewrite (part001_prompt w req fs body p project uid path lang Hm Hp1 Hd Hpath Ht Hlang).
  unfold Part001.promptOutcome. rewrite Hprep, Hkey, Hpost.
  unfold Part001.replyOf. rewrite Htruthy, Hcontent. done.
Qed.

End Part001Claims.

Section Part001Examples.

#[local] Existing Instance exampleRuntime.

Lemma part001_missing_body_is_400_witness :
  let w := exampleWorld (Some "sk-1") (Resolved JSNull) in
  Part001.answer (Part001.handler w (mkRequest "POST" JSUndefined) ∅)
    = Normal Part001.missingPromptResponse /\
  status (response (handler w (mkRequest "POST" JSUndefined) ∅)) = 500%Z.
Proof.
  intros w.
  destruct (part001_missing_body_is_400 w (mkRequest "POST" JSUndefined) ∅
              eq_refl eq_refl) as [H1 H2].
  split; [by rewrite H1 | by apply H2].
Defined.

Lemma part001_upstream_failure_gets_fallback_witness :
  let timeout := mkError None (Some "ECONNABORTED") "timeout of 30000ms exceeded" in
  let w := exampleWorld (Some "sk-1") (Rejected timeout) in
  exists record,
    Part001.answer (Part001.handler w (examplePost "hello") ∅)
      = Normal (replyResponse "I couldn't generate a response." JSNull 3
                  (JSString "default")) /\
    Part001.fileWrites (Part001.handler w (examplePost "hello") ∅)
      = [("/tmp/memory/memory_default.json", record)].
Proof.
  intros timeout w.
  pose proof (prepared_default ∅ "/tmp/memory/memory_default.json" "hello" JSUndefined
                (JSString "default") "english" (or_introl eq_refl)) as Hprep.
  assert (Ht : trim "hello" <> "") by (by vm_compute).
  destruct (part001_upstream_failure_gets_fallback (rt := exampleRuntime)
              w (examplePost "hello") ∅
              (JSObject [("prompt", JSString "hello")])
              "hello" JSUndefined (JSString "default") _ "english" _ _ timeout
              eq_refl eq_refl eq_refl eq_refl Ht eq_refl Hprep eq_refl eq_refl)
    as (record & front & Ha & _ & Hw & _).
  exists record. split; [|exact Hw].
  rewrite Ha. injection Hw as <-. reflexivity.
Defined.

Lemma revisions_agree_on_success_witness :
  let w := exampleWorld (Some "sk-1") (Resolved (replyData "As an AI: Heat.")) in
  Part001.answer (Part001.handler w (examplePost "niko poa") fullMemory)
    = Normal (response (handler w (examplePost "niko poa") fullMemory)) /\
  Part001.fileWrites (Part001.handler w (examplePost "niko poa") fullMemory)
    = fileWrites (handler w (examplePost "niko poa") fullMemory).
Proof.
  intros w.
  assert (HP : Prompted w (examplePost "niko poa") "niko poa" JSUndefined
                 (JSString "default") "/tmp/memory/memory_default.json") by prompted.
  destruct (revisions_agree_on_success w (examplePost "niko poa") fullMemory
              "niko poa" JSUndefined (JSString "default") _ "swahili" _ _
              (replyData "As an AI: Heat.") "As an AI: Heat."
              HP eq_refl eq_refl eq_refl eq_refl eq_refl eq_refl)
    as (Ha & _ & _ & Hw); [discriminate|].
  split; [exact Ha | exact Hw].
Defined.

(** A user id that cannot be converted to a string: in the revision with
    the fallback reply the error of [loadMemory] leaves the handler,
    where the handler of api/generate.js answers 500. *)
Example part001_unconvertible_userId :
  let w := exampleWorld (Some "sk-1") (Resolved (replyData "Try Heat.")) in
  let req := mkRequest "POST"
               (JSObject [("prompt", JSString "hello");
                          ("userId", JSObject [("toString", JSNull)])]) in
  Part001.answer (Part001.handler w req ∅)
    = Throw (TypeError "Cannot convert object to primitive value") /\
  status (response (handler w req ∅)) = 500%Z.
Proof. intros w req. split; reflexivity. Qed.

End Part001Examples.

Section Part000Claims.

Context {rt : Runtime}.
Implicit Types (text lower : string) (words : list string).

Lemma countIncluded_app words more lower :
  countIncluded (words ++ more) lower
  = countIncluded words lower + countIncluded more lower.
Proof. unfold countIncluded. by rewrite List.filter_app, length_app. Qed.

(** X23. The first revision of the heuristic has no guard: on a value
    that is not a string it throws, where the current one answers
    "english". On a string it answers at most as informally as the
    current one, whose lists extend its lists. *)
Theorem first_revision_heuristic :
  (forall v, (forall s, v <> JSString s) ->
     (exists error, Part000.detectLanguage v = Throw error) /\
     detectLanguage v = Normal "english") /\
  (forall text,
     exists before now,
       Part000.detectLanguage (JSString text) = Normal before /\
       detectLanguage (JSString text) = Normal now /\
       rank before <= rank now).
Proof.
  split.
  - intros v Hv. split.
    + destruct v as [| | b | x | s | xs | ps]; try (by eexists).
      by destruct (Hv s).
    + by apply detectLanguage_not_string.
  - intros text. rewrite detectLanguage_string. cbv zeta.
    unfold Part000.detectLanguage. simpl call_toLowerCase. unfold cbind.
    change swahiliWords with (Part000.swahiliWords ++ ["mambo"; "poa"; "sawa"]).
    change shengWords with (Part000.shengWords ++ ["vibe"]).
    rewrite !countIncluded_app.
    set (a := countIncluded Part000.swahiliWords (toLowerCase text)).
    set (b := countIncluded Part000.shengWords (toLowerCase text)).
    set (a' := countIncluded _ (toLowerCase text)).
    set (b' := countIncluded _ (toLowerCase text)).
    destruct (Nat.eqb_spec (a + b) 0), (Nat.ltb_spec (a + b) 3),
      (Nat.eqb_spec (a + a' + (b + b')) 0), (Nat.ltb_spec (a + a' + (b + b')) 3);
      first [ exfalso; lia
            | eexists _, _; split; [reflexivity|]; split; [reflexivity|];
              vm_compute; lia ].
Qed.

End Part000Claims.

